(** * Task-manager back end: a shallow embedding of the Express routes

    The development follows the layout of the back end:
    - [Js]        the fragment of JavaScript the routes rely on (values,
                  objects, [Map], numbers, coercions, a few built-ins);
    - [Platform]  the libraries behind the routes (bcryptjs, jsonwebtoken,
                  Joi's format checks, the [RegExp] engine, MongoDB's) as an
                  interface;
    - [Validation], [AuthMiddleware], [TaskModel], [AuthRoutes],
      [TaskRoutes], [UserRoutes]: one module per source file;
    - [Mongoose]  how MongoDB matches the filters the task routes build;
    - [ApiClient] the request interceptor of the front end.

    Conventions.  A JavaScript string is a [string] whose characters are the
    code units 0..255.  A stored number is an integer (exact below 2^53),
    [NaN] or [+Infinity]; the arithmetic of the pagination, on the texts of
    the query string, is done on [number]: an exact integer or a binary64
    float, as are the completion rates.  The [_id] of a document of a
    Mongoose model is an ObjectId, an object, and so is the identifier the
    middleware attaches to a request: two of them are never [==].  The
    identifiers the in-memory maps give out are numbers.  Every call that
    reads the clock takes the reading [now] (milliseconds since the epoch) as
    an argument.  The models themselves are not part of these files: a
    method of the model that is called with a filter is an argument of the
    route, a function of the filter; the outcome of every other call of a
    model is an input of the function that makes the call. *)

From Stdlib Require Import ZArith String Ascii List Floats Uint63 Lia.
From Stdlib Require Import DecimalString Sorting.Sorted Permutation.
From Stdlib Require DecimalPos DecimalZ.
From stdpp Require Import gmap strings list fin_maps.

Local Open Scope string_scope.
Local Open Scope Z_scope.

(** ** JavaScript values, objects and built-ins *)

Module Js.

(** A value.  [VDate None] is an invalid [Date]; [VArr] is an array of
    strings, the only arrays the routes handle (task tags); [VObjectId] is an
    [ObjectId] of MongoDB, an object known by its 24 hexadecimal digits: the
    [_id] of a document of a Mongoose model is one. *)
Inductive val : Type :=
| VUndef
| VNull
| VBool (b : bool)
| VNum (n : Z)
| VNaN
| VInf
| VStr (s : string)
| VDate (ms : option Z)
| VArr (xs : list string)
| VObjectId (hex : string).

#[export] Instance val_eq_dec : EqDecision val.
Proof. solve_decision. Defined.

(** A plain object: a finite map from property names to values. *)
Abbreviation obj := (gmap string val).

(** [o.k]: a missing property reads as [undefined]. *)
Definition get (o : obj) (k : string) : val := default VUndef (o !! k).

(** [Object.assign(target, src)] and the spread [{...target, ...src}]:
    the properties of [src] win. *)
Definition assign (target src : obj) : obj := src ∪ target.

(** Completion of a call: a value, or a thrown error known by its [name]. *)
Inductive completion (A : Type) : Type :=
| Normal (a : A)
| Throw (name : string).
Arguments Normal {A} a.
Arguments Throw {A} name.

(** Sequencing: a throw ends the computation. *)
Definition bind {A B} (c : completion A) (k : A -> completion B) : completion B :=
  match c with
  | Normal a => k a
  | Throw e => Throw e
  end.

Notation "'let!' x := c 'in' k" := (bind c (fun x => k))
  (at level 10, x name, c at level 100, k at level 200).

(** *** Coercions *)

(** ToBoolean. *)
Definition truthy (v : val) : bool :=
  match v with
  | VUndef | VNull | VNaN => false
  | VBool b => b
  | VNum n => negb (n =? 0)
  | VStr s => negb (String.eqb s "")
  | VInf | VDate _ | VArr _ | VObjectId _ => true
  end.

(** [a === b].  Two dates, two arrays or two ObjectIds are equal only when
    they are the same object; the operands compared in the routes never are
    (one comes from the store, the other from the request: the model makes a
    new document, with a new [_id] object, at every lookup). *)
Definition strict_eq (a b : val) : bool :=
  match a, b with
  | VUndef, VUndef | VNull, VNull | VInf, VInf => true
  | VBool x, VBool y => Bool.eqb x y
  | VNum x, VNum y => x =? y
  | VStr x, VStr y => String.eqb x y
  | _, _ => false
  end.

Definition is_nullish (v : val) : bool :=
  match v with VUndef | VNull => true | _ => false end.

Definition is_primitive (v : val) : bool :=
  match v with VDate _ | VArr _ | VObjectId _ => false | _ => true end.

Definition same_type (a b : val) : bool :=
  match a, b with
  | VUndef, VUndef | VNull, VNull | VBool _, VBool _ | VStr _, VStr _ => true
  | (VNum _ | VNaN | VInf), (VNum _ | VNaN | VInf) => true
  | (VDate _ | VArr _ | VObjectId _), (VDate _ | VArr _ | VObjectId _) => true
  | _, _ => false
  end.

(** The values JSON can carry as they are. *)
Definition is_json (v : val) : bool :=
  match v with
  | VUndef | VNaN | VInf | VDate _ | VObjectId _ => false
  | _ => true
  end.

Definition json_object (o : obj) : Prop :=
  map_Forall (fun _ v => is_json v = true) o.

(** *** Strings *)

Definition code (c : ascii) : Z := Z.of_N (N_of_ascii c).

(** White space and line terminators among the code units 0..255. *)
Definition is_ws (c : ascii) : bool :=
  let n := code c in
  ((9 <=? n) && (n <=? 13)) || (n =? 32) || (n =? 160).

(** Upper-case letters: A-Z, and the Latin-1 letters 192-222 but 215. *)
Definition is_upper (c : ascii) : bool :=
  let n := code c in
  ((65 <=? n) && (n <=? 90)) || ((192 <=? n) && (n <=? 222) && negb (n =? 215)).

Definition lower_char (c : ascii) : ascii :=
  if is_upper c then ascii_of_N (N_of_ascii c + 32) else c.

(** [s.toLowerCase()]. *)
Fixpoint toLowerCase (s : string) : string :=
  match s with
  | EmptyString => EmptyString
  | String c r => String (lower_char c) (toLowerCase r)
  end.

(** [s.startsWith(p)]. *)
Fixpoint startsWith (p s : string) : bool :=
  match p, s with
  | EmptyString, _ => true
  | String a p', String b s' => Ascii.eqb a b && startsWith p' s'
  | String _ _, EmptyString => false
  end.

(** [s.substring(n)] for [n >= 0]. *)
Fixpoint substring_from (n : nat) (s : string) : string :=
  match n, s with
  | O, _ => s
  | S n', String _ r => substring_from n' r
  | S _, EmptyString => EmptyString
  end.

Fixpoint skip_ws (s : string) : string :=
  match s with
  | String c r => if is_ws c then skip_ws r else s
  | EmptyString => EmptyString
  end.

Definition rev_string (s : string) : string :=
  string_of_list_ascii (rev (list_ascii_of_string s)).

(** [s.trim()]. *)
Definition trim (s : string) : string :=
  rev_string (skip_ws (rev_string (skip_ws s))).

(** *** parseInt *)

Definition digit_of (radix : Z) (c : ascii) : option Z :=
  let n := code c in
  let d := if (48 <=? n) && (n <=? 57) then n - 48
           else if (97 <=? n) && (n <=? 122) then n - 87
           else if (65 <=? n) && (n <=? 90) then n - 55
           else 36 in
  if d <? radix then Some d else None.

(** Value of the longest prefix of digits; [None] when there is none. *)
Fixpoint read_digits (radix : Z) (s : string) (acc : option Z) : option Z :=
  match s with
  | EmptyString => acc
  | String c r =>
      match digit_of radix c with
      | Some d => read_digits radix r (Some (default 0 acc * radix + d))
      | None => acc
      end
  end.

(** [parseInt(s)] with no radix argument: leading white space, a sign, an
    optional [0x] prefix, then the longest run of digits. *)
Definition parseInt (s : string) : val :=
  let s1 := skip_ws s in
  let '(neg, s2) :=
    match s1 with
    | String "-" r => (true, r)
    | String "+" r => (false, r)
    | _ => (false, s1)
    end in
  let '(radix, s3) :=
    if startsWith "0x" s2 || startsWith "0X" s2
    then (16, substring_from 2 s2) else (10, s2) in
  match read_digits radix s3 None with
  | Some n => VNum (if neg then - n else n)
  | None => VNaN
  end.

(** Decimal numeral of an integer, as [String(n)] prints it. *)
Definition string_of_Z (n : Z) : string :=
  NilZero.string_of_int (Z.to_int n).

(** *** Numbers that need not be integers

    The page arithmetic of the task listing works on what [ToNumber] makes
    of the texts of a query string, which can be any binary64.  A number is
    kept as an integer while it is one of magnitude at most 2^53, the range in
    which binary64 sums and products of integers are exact, and as a float
    otherwise.  [Int 0] stands for either zero; the zero a text holds, the
    only one the routes divide by, is [Int 0] when it is the positive one. *)
Inductive number : Type :=
| Int (n : Z)
| Flt (f : float).

Definition safe (n : Z) : bool := Z.abs n <=? 2 ^ 53.

(** The float of an integer of magnitude at most 2^53. *)
Definition float_of_Z (n : Z) : float :=
  if n <? 0 then PrimFloat.opp (PrimFloat.of_uint63 (Uint63.of_Z (- n)))
  else PrimFloat.of_uint63 (Uint63.of_Z n).

Definition float_of (x : number) : float :=
  match x with
  | Int n => float_of_Z n
  | Flt f => f
  end.

(** The integer a float is, when it is one; the negative zero is not taken
    for one. *)
Definition integer_of (f : float) : option Z :=
  match Prim2SF f with
  | S754_zero false => Some 0
  | S754_finite sg m e =>
      let n := if sg then Z.neg m else Z.pos m in
      if 0 <=? e then Some (n * 2 ^ e)
      else if Z.pos m mod 2 ^ (- e) =? 0 then Some (n / 2 ^ (- e))
      else None
  | _ => None
  end.

Definition number_of (f : float) : number :=
  match integer_of f with
  | Some n => if safe n then Int n else Flt f
  | None => Flt f
  end.

(** [x - y] and [x * y]. *)
Definition num_op (exact : Z -> Z -> Z) (op : float -> float -> float)
    (x y : number) : number :=
  match x, y with
  | Int a, Int b =>
      if safe (exact a b) then Int (exact a b)
      else number_of (op (float_of x) (float_of y))
  | _, _ => number_of (op (float_of x) (float_of y))
  end.

Definition num_sub : number -> number -> number := num_op Z.sub PrimFloat.sub.
Definition num_mul : number -> number -> number := num_op Z.mul PrimFloat.mul.

(** [Math.ceil]. *)
Definition Math_ceil (f : float) : number :=
  match Prim2SF f with
  | S754_finite sg m e =>
      if 0 <=? e then number_of f
      else
        let d := 2 ^ (- e) in
        if sg then Int (- (Z.pos m / d)) else Int (- ((- Z.pos m) / d))
  | _ => Flt f
  end.

(** [Math.ceil(n / limit)] for integers [n >= 0] and [limit]. *)
Definition ceil_div (n limit : Z) : number :=
  if limit =? 0 then Flt (if n =? 0 then nan else infinity)
  else Int (- ((- n) / limit)).

(** ToIntegerOrInfinity of an index into a list of [len] elements: the
    fraction is dropped, [NaN] is 0, and an infinity is taken as far out as
    the list is long, which is as good as any index beyond that end. *)
Definition to_index (len : Z) (x : number) : Z :=
  match x with
  | Int n => n
  | Flt f =>
      match Prim2SF f with
      | S754_zero _ | S754_nan => 0
      | S754_infinity sg => if sg then - len else len
      | S754_finite sg m e =>
          let a := if 0 <=? e then Z.pos m * 2 ^ e else Z.pos m / 2 ^ (- e) in
          if sg then - a else a
      end
  end.

(** A text made of decimal digits, at least one. *)
Definition decimal_digits (s : string) : bool :=
  negb (String.eqb s "")
  && forallb (fun c => (48 <=? code c) && (code c <=? 57)) (list_ascii_of_string s).

(** *** Map

    A [Map] keeps its entries in insertion order; [set] on a present key
    replaces the value in place. *)
Section JsMap.
Context {K V : Type} `{EqDecision K}.

Fixpoint Map_get (k : K) (m : list (K * V)) : option V :=
  match m with
  | [] => None
  | (k', v) :: r => if decide (k' = k) then Some v else Map_get k r
  end.

Definition Map_has (k : K) (m : list (K * V)) : bool :=
  bool_decide (is_Some (Map_get k m)).

Fixpoint Map_set (k : K) (v : V) (m : list (K * V)) : list (K * V) :=
  match m with
  | [] => [(k, v)]
  | (k', v') :: r =>
      if decide (k' = k) then (k, v) :: r else (k', v') :: Map_set k v r
  end.

Fixpoint Map_delete (k : K) (m : list (K * V)) : list (K * V) :=
  match m with
  | [] => []
  | (k', v') :: r =>
      if decide (k' = k) then Map_delete k r else (k', v') :: Map_delete k r
  end.

Definition Map_values (m : list (K * V)) : list V := map snd m.
End JsMap.

(** *** Array.prototype.slice

    A negative index counts from the end; both ends are clamped. *)
Definition rel_index (len i : Z) : Z :=
  if i <? 0 then Z.max (len + i) 0 else Z.min i len.

Definition slice {A} (l : list A) (s e : Z) : list A :=
  let len := Z.of_nat (length l) in
  let k := rel_index len s in
  let f := rel_index len e in
  firstn (Z.to_nat (Z.max (f - k) 0)) (skipn (Z.to_nat k) l).

(** *** Array.prototype.sort

    The sort is stable, and with a consistent comparator its result is
    determined; it is computed here by insertion.  [cmp a b <= 0] keeps [a]
    before [b]; a comparator result of [NaN] counts as [0]. *)
Section Sort.
Context {A : Type} (cmp : A -> A -> Z).

Fixpoint sort_insert (x : A) (l : list A) : list A :=
  match l with
  | [] => [x]
  | y :: r => if cmp x y <=? 0 then x :: y :: r else y :: sort_insert x r
  end.

Definition sort (l : list A) : list A := foldr sort_insert [] l.
End Sort.

End Js.

Export Js.

(** ** The libraries behind the routes

    What the routes obtain from the JavaScript engine and from the npm
    packages, and do not define themselves.  Behaviour that is cheap to write
    down is defined below ([RegExp_i] on patterns without operators, [==] on
    operands of one type, the time span ["24h"]); the rest is left to this
    interface, with the laws the packages guarantee. *)
(** What [decode] of jsonwebtoken makes of a token it reads: nothing (the
    token is not three parts with a JSON header), the claims of the payload
    (those of a JSON object; an array, a string, a number and a boolean have
    none), or the payload [null]. *)
Inductive decoded : Type :=
| Undecodable
| Payload (claims : obj)
| NullPayload.

Class Platform : Type := {
  (** [a == b] for operands of different types, neither [null] nor
      [undefined] (the cases that go through ToNumber or ToPrimitive) *)
  abstract_eq_mixed : val -> val -> bool;
  (** [new RegExp(p, 'i')] for a pattern [p] that contains a syntax character
      other than the dot: a [SyntaxError], or the matcher behind [test] *)
  RegExp_other : string -> completion (string -> bool);
  (** [Date.parse]; [None] is [NaN] *)
  Date_parse : string -> option Z;
  (** [toString] and [toISOString] of a valid date *)
  Date_toString : Z -> string;
  Date_toISOString : Z -> string;
  (** [process.env] *)
  env : string -> option string;
  (** bcryptjs: [hash] with the salt it draws, and [compare] *)
  bcrypt_hash : Z -> string -> string;
  bcrypt_compare : string -> string -> bool;
  bcrypt_compare_hash :
    forall salt pw, bcrypt_compare pw (bcrypt_hash salt pw) = true;
  (** jsonwebtoken and jws: the HS256 signature of a payload under a
      secret; the compact serialisation of a payload, under the header
      [jwt.sign] writes, and a signature; what [decode] makes of a token,
      which can throw; and whether [jws.verify] accepts the token's signature
      for the secret, under the algorithm its header names among HS256, HS384
      and HS512.  A serialisation gives back the JSON it was made of, and
      its signature is accepted exactly when it is the HS256 one. *)
  hmac : string -> obj -> string;
  jws_encode : obj -> string -> string;
  jws_decode : string -> completion decoded;
  jws_signed : string -> string -> bool;
  jws_decode_encode :
    forall payload sig,
      json_object payload ->
      jws_decode (jws_encode payload sig) = Normal (Payload payload);
  jws_signed_encode :
    forall payload sig secret,
      json_object payload ->
      jws_signed (jws_encode payload sig) secret
      = String.eqb sig (hmac secret payload);
  (** the [ms] package on time spans other than ["24h"], in whole
      milliseconds; [None] is [undefined] *)
  ms_other : string -> option Z;
  (** Joi's format checks: [string().email()], [string().uri()], and the
      conversion done by [date()] *)
  joi_email : string -> bool;
  joi_uri : string -> bool;
  joi_date : val -> option Z;
  (** ToNumber of a string that is not a run of decimal digits of value at
      most 2^53: the binary64 the engine reads, [NaN] when the text is no
      numeric literal *)
  StringToNumber_other : string -> float;
  (** bson's [ObjectId] of a string that is not 24 hexadecimal digits: the
      digits of the identifier made, [None] when the constructor throws *)
  ObjectId_other : string -> option string;
  (** MongoDB's [$regex] with the option [i]: whether the text has a
      match of the pattern *)
  mongo_regex_i : string -> string -> bool
}.

Module Builtins.
Section WithPlatform.
Context {P : Platform}.

(** [a == b]. *)
Definition loose_eq (a b : val) : bool :=
  if is_nullish a || is_nullish b then is_nullish a && is_nullish b
  else if same_type a b then is_primitive a && strict_eq a b
  else abstract_eq_mixed a b.

Definition join_comma (xs : list string) : string :=
  match xs with
  | [] => ""
  | x :: r => fold_left (fun acc y => acc +:+ "," +:+ y) r x
  end.

(** ToString. *)
Definition ToString (v : val) : string :=
  match v with
  | VUndef => "undefined"
  | VNull => "null"
  | VBool true => "true"
  | VBool false => "false"
  | VNum n => string_of_Z n
  | VNaN => "NaN"
  | VInf => "Infinity"
  | VStr s => s
  | VDate None => "Invalid Date"
  | VDate (Some ms) => Date_toString ms
  | VArr xs => join_comma xs
  | VObjectId hex => hex
  end.

(** The time value of [new Date(v)]; [None] is an invalid date. *)
Definition Date_new (v : val) : option Z :=
  match v with
  | VUndef | VNaN | VInf => None
  | VNull => Some 0
  | VBool b => Some (if b then 1 else 0)
  | VNum n => if Z.abs n <=? 8640000000000000 then Some n else None
  | VStr s => Date_parse s
  | VDate d => d
  | VArr xs => Date_parse (join_comma xs)
  | VObjectId hex => Date_parse hex
  end.

(** [a < b] on two dates: false when either is invalid. *)
Definition date_lt (a b : option Z) : bool :=
  match a, b with
  | Some x, Some y => x <? y
  | _, _ => false
  end.

(** *** Regular expressions with the flag [i]

    A pattern made of ordinary characters and dots matches a string when
    some substring of the pattern's length agrees with it position by
    position: a dot agrees with any character but a line terminator, an
    ordinary character with itself up to case. *)
Definition syntax_char (c : ascii) : bool :=
  bool_decide (c ∈ list_ascii_of_string "^$\.*+?()[]{}|").

Definition plain_pattern (p : string) : bool :=
  forallb (fun c => negb (syntax_char c) || Ascii.eqb c ".")
          (list_ascii_of_string p).

Definition atom_matches (a c : ascii) : bool :=
  if Ascii.eqb a "." then negb ((code c =? 10) || (code c =? 13))
  else Ascii.eqb (lower_char a) (lower_char c).

Fixpoint match_here (p s : string) : bool :=
  match p, s with
  | EmptyString, _ => true
  | String _ _, EmptyString => false
  | String a p', String c s' => atom_matches a c && match_here p' s'
  end.

Fixpoint match_anywhere (p s : string) : bool :=
  match_here p s ||
  match s with
  | EmptyString => false
  | String _ s' => match_anywhere p s'
  end.

(** [new RegExp(p, 'i')], as the function [v => re.test(v)] on strings. *)
Definition RegExp_i (p : string) : completion (string -> bool) :=
  if plain_pattern p then Normal (match_anywhere p) else RegExp_other p.

(** [re.test(v)] converts its argument to a string first. *)
Definition test (re : string -> bool) (v : val) : bool := re (ToString v).

(** ToNumber of a string. *)
Definition StringToNumber (s : string) : number :=
  if decimal_digits s then
    match read_digits 10 s None with
    | Some n => if safe n then Int n else Flt (StringToNumber_other s)
    | None => Flt (StringToNumber_other s)
    end
  else number_of (StringToNumber_other s).

(** ToNumber; an object is converted through its primitive, which for an
    array and an ObjectId is its string. *)
Definition ToNumber (v : val) : number :=
  match v with
  | VUndef | VNaN | VDate None => Flt nan
  | VNull => Int 0
  | VBool b => Int (if b then 1 else 0)
  | VNum n | VDate (Some n) =>
      if safe n then Int n else Flt (StringToNumber_other (string_of_Z n))
  | VInf => Flt infinity
  | VStr s => StringToNumber s
  | VArr xs => StringToNumber (join_comma xs)
  | VObjectId hex => StringToNumber hex
  end.

(** [Math.ceil(n / limit)] for a count [n]. *)
Definition Math_ceil_quotient (n : Z) (limit : number) : number :=
  match limit with
  | Int l => ceil_div n l
  | Flt f => Math_ceil (PrimFloat.div (float_of_Z n) f)
  end.

(** [process.env.K || d]. *)
Definition env_or (k d : string) : string :=
  match env k with
  | Some s => if String.eqb s "" then d else s
  | None => d
  end.
End WithPlatform.
End Builtins.
Export Builtins.

(** [s.toLowerCase().includes(p.toLowerCase())]: case-insensitive substring
    test, the reading of "substring match" used to compare with [RegExp_i]. *)
Fixpoint is_prefix_ci (p s : string) : bool :=
  match p, s with
  | EmptyString, _ => true
  | String _ _, EmptyString => false
  | String a p', String c s' =>
      Ascii.eqb (lower_char a) (lower_char c) && is_prefix_ci p' s'
  end.

Fixpoint ci_substring (p s : string) : bool :=
  is_prefix_ci p s ||
  match s with
  | EmptyString => false
  | String _ s' => ci_substring p s'
  end.

(** ** Responses

    Every route answers [{success, message?, errors?, data?}] with a status
    code; [data] is one of a few shapes. *)

Record pagination : Type := {
  pg_current : val;
  pg_total : number;
  pg_count : Z;
  pg_totalTasks : Z
}.

Record stats : Type := {
  st_total : Z;
  st_completed : Z;
  st_inProgress : Z;
  st_pending : Z;
  st_highPriority : Z;
  st_overdue : Z;
  st_completionRate : val
}.

Inductive payload : Type :=
| NoData
| DataUser (user : obj)
| DataUserToken (user : obj) (token : string)
| DataTask (task : obj)
| DataTasks (tasks : list obj) (pg : pagination)
| DataStats (s : stats)
| DataUsers (users : list obj) (total : Z).

Record response : Type := {
  status : Z;
  success : bool;
  message : option string;
  errors : option (list string);
  data : payload
}.

(** [res.status(code).json({success: false, message})]. *)
Definition failure (code : Z) (msg : string) : response :=
  {| status := code; success := false; message := Some msg;
     errors := None; data := NoData |}.

(** [res.status(code).json({success: true, message?, data?})]. *)
Definition ok (code : Z) (msg : option string) (d : payload) : response :=
  {| status := code; success := true; message := msg;
     errors := None; data := d |}.

(** ** middleware/validation.js *)

Module Validation.
Section WithPlatform.
Context {P : Platform}.

(** Joi rejects a key the schema does not list. *)
Definition only_keys (ks : list string) (body : obj) : bool :=
  bool_decide (dom body ⊆ list_to_set ks).

Definition required (rule : val -> bool) (v : val) : bool :=
  match v with VUndef => false | _ => rule v end.

Definition optional (rule : val -> bool) (v : val) : bool :=
  match v with VUndef => true | _ => rule v end.

Definition len (s : string) : Z := Z.of_nat (String.length s).

(** [Joi.string()] with its rules: the value is a string; it is trimmed
    first when the schema says [trim()]; the empty string passes only under
    [allow('')]; the remaining rules see the converted value. *)
Definition string_rule (trimmed allow_empty : bool) (rules : string -> bool)
    (v : val) : bool :=
  match v with
  | VStr s =>
      let s' := if trimmed then trim s else s in
      if String.eqb s' "" then allow_empty else rules s'
  | _ => false
  end.

(** [Joi.string().valid(...)]. *)
Definition valid_rule (allowed : list string) (v : val) : bool :=
  match v with
  | VStr s => bool_decide (s ∈ allowed)
  | _ => false
  end.

Definition is_letter (c : ascii) : bool :=
  let n := code c in
  ((65 <=? n) && (n <=? 90)) || ((97 <=? n) && (n <=? 122)).

Definition is_digit (c : ascii) : bool :=
  let n := code c in (48 <=? n) && (n <=? 57).

Fixpoint first_line (s : string) : list ascii :=
  match s with
  | EmptyString => []
  | String c r =>
      if (code c =? 10) || (code c =? 13) then [] else c :: first_line r
  end.

(** [^(?=.*[a-zA-Z])(?=.*[0-9])]: a letter and a digit before the first
    line terminator. *)
Definition password_pattern (s : string) : bool :=
  existsb is_letter (first_line s) && existsb is_digit (first_line s).

Definition name_rule : val -> bool :=
  string_rule true false (fun s => (2 <=? len s) && (len s <=? 50)).

Definition email_rule : val -> bool :=
  string_rule false false joi_email.

Definition registerSchema (body : obj) : bool :=
  only_keys ["name"; "email"; "password"] body
  && required name_rule (get body "name")
  && required email_rule (get body "email")
  && required (string_rule false false (fun s =>
       (6 <=? len s) && (len s <=? 128) && password_pattern s))
       (get body "password").

Definition loginSchema (body : obj) : bool :=
  only_keys ["email"; "password"] body
  && required email_rule (get body "email")
  && required (string_rule false false (fun _ => true)) (get body "password").

Definition updateProfileSchema (body : obj) : bool :=
  only_keys ["name"; "avatar"] body
  && optional name_rule (get body "name")
  && optional (string_rule false true joi_uri) (get body "avatar").

Definition tags_rule (v : val) : bool :=
  match v with
  | VArr xs =>
      forallb (fun x => string_rule true false (fun s => len s <=? 30) (VStr x)) xs
      && (Z.of_nat (length xs) <=? 10)
  | _ => false
  end.

Definition statuses : list string := ["pending"; "in-progress"; "completed"].
Definition priorities : list string := ["low"; "medium"; "high"].
Definition task_keys : list string :=
  ["title"; "description"; "status"; "priority"; "category"; "dueDate"; "tags"].

Definition title_rule : val -> bool :=
  string_rule true false (fun s => (1 <=? len s) && (len s <=? 100)).
Definition description_rule : val -> bool :=
  string_rule true true (fun s => len s <=? 1000).
Definition category_rule : val -> bool :=
  string_rule true false (fun s => len s <=? 50).

(** [dueDate: Joi.date().min('now')]. *)
Definition createTaskSchema (now : Z) (body : obj) : bool :=
  only_keys task_keys body
  && required title_rule (get body "title")
  && optional description_rule (get body "description")
  && optional (valid_rule statuses) (get body "status")
  && optional (valid_rule priorities) (get body "priority")
  && optional category_rule (get body "category")
  && optional (fun v => match joi_date v with
                        | Some ms => now <=? ms
                        | None => false
                        end) (get body "dueDate")
  && optional tags_rule (get body "tags").

(** [dueDate: Joi.date().allow(null)]. *)
Definition updateTaskSchema (body : obj) : bool :=
  only_keys task_keys body
  && optional title_rule (get body "title")
  && optional description_rule (get body "description")
  && optional (valid_rule statuses) (get body "status")
  && optional (valid_rule priorities) (get body "priority")
  && optional category_rule (get body "category")
  && optional (fun v => match v with
                        | VNull => true
                        | _ => bool_decide (is_Some (joi_date v))
                        end) (get body "dueDate")
  && optional tags_rule (get body "tags").

(** [validate(schema)]: answer 400 with Joi's messages ([Some]), or call
    [next] ([None]).  The texts of the messages are not modelled:
    [details] stands for [error.details.map(d => d.message)]. *)
Definition validate (schema : obj -> bool) (details : list string)
    (body : obj) : option response :=
  if schema body then None
  else Some {| status := 400; success := false;
               message := Some "Validation error";
               errors := Some details; data := NoData |}.
End WithPlatform.
End Validation.

(** ** middleware/auth.js *)

Module AuthMiddleware.
Section WithPlatform.
Context {P : Platform}.

(** *** jsonwebtoken

    [sign] and [verify] as the package documents them, for the options the
    middleware passes: HS256 with a string secret, [expiresIn] a time span
    in text.  The clock of the package counts seconds. *)

(** What [JSON.stringify] followed by [JSON.parse] leaves of an object. *)
Definition JSON_value (v : val) : option val :=
  match v with
  | VUndef => None
  | VNaN | VInf | VDate None => Some VNull
  | VDate (Some t) => Some (VStr (Date_toISOString t))
  | VObjectId hex => Some (VStr hex)
  | _ => Some v
  end.

Definition JSON_roundtrip (o : obj) : obj := omap JSON_value o.

(** [typeof v === 'number']. *)
Definition is_number (v : val) : bool :=
  match v with VNum _ | VNaN | VInf => true | _ => false end.

(** The [ms] package. *)
Definition ms (span : string) : option Z :=
  if String.eqb span "24h" then Some 86400000 else ms_other span.

Definition claim_is_number (payload : obj) (k : string) : bool :=
  match payload !! k with
  | Some v => is_number v
  | None => true
  end.

(** [jwt.sign(payload, secret, {expiresIn})] at clock reading [now]. *)
Definition jwt_sign (payload : obj) (secret expiresIn : string) (now : Z)
    : completion string :=
  if negb (claim_is_number payload "iat" && claim_is_number payload "exp"
           && claim_is_number payload "nbf")
  then Throw "Error"
  else if bool_decide (is_Some (payload !! "exp")) then Throw "Error"
  else
    match ms expiresIn with
    | None => Throw "Error"
    | Some span =>
        let timestamp :=
          if truthy (get payload "iat") then get payload "iat"
          else VNum (now / 1000) in
        let exp :=
          match timestamp with
          | VNum t => VNum (t + span / 1000)
          | v => v
          end in
        let claims :=
          JSON_roundtrip (<["exp" := exp]> (<["iat" := timestamp]> payload)) in
        Normal (jws_encode claims (hmac secret claims))
    end.

(** [v > c] and [c >= v] for a claim [v] with [typeof v === 'number']. *)
Definition claim_gt (v : val) (c : Z) : bool :=
  match v with VNum n => c <? n | VInf => true | _ => false end.

Definition claim_le (v : val) (c : Z) : bool :=
  match v with VNum n => n <=? c | _ => false end.

(** [jwt.verify(token, secret)] at clock reading [now]: the claims of the
    payload it returns.  An error thrown while the token is decoded is handed
    on as it is; a token from which nothing is decoded, or whose signature is
    not accepted, is refused with [JsonWebTokenError]; then the claims [nbf]
    and [exp] are read, which for the payload [null] is a [TypeError]. *)
Definition jwt_verify (token secret : string) (now : Z) : completion obj :=
  let! decodedToken := jws_decode token in
  match decodedToken with
  | Undecodable => Throw "JsonWebTokenError"
  | NullPayload =>
      if negb (jws_signed token secret) then Throw "JsonWebTokenError"
      else Throw "TypeError"
  | Payload payload =>
      let clock := now / 1000 in
      if negb (jws_signed token secret)
      then Throw "JsonWebTokenError"
      else
        let! _nbf :=
          match payload !! "nbf" with
          | Some v =>
              if negb (is_number v) then Throw "JsonWebTokenError"
              else if claim_gt v clock then Throw "NotBeforeError"
              else Normal tt
          | None => Normal tt
          end in
        match payload !! "exp" with
        | Some v =>
            if negb (is_number v) then Throw "JsonWebTokenError"
            else if claim_le v clock then Throw "TokenExpiredError"
            else Normal payload
        | None => Normal payload
        end
  end.

(** *** The middleware *)

Definition JWT_SECRET : string :=
  env_or "JWT_SECRET" "your-super-secret-jwt-key-change-in-production".

Definition generateToken (payload : obj) (now : Z) : completion string :=
  jwt_sign payload JWT_SECRET (env_or "JWT_EXPIRE" "24h") now.

(** The identity attached to the request. *)
Definition req_user (user : obj) : obj :=
  {[ "id" := get user "_id"; "email" := get user "email";
     "name" := get user "name"; "role" := get user "role" ]}.

(** [authenticate(req, res, next)]: the response sent ([inl]), or
    [req.user] on calling [next] ([inr]).  [User_findById] is the outcome
    of the model's lookup for each identifier. *)
Definition authenticate (authHeader : option string) (now : Z)
    (User_findById : val -> completion (option obj)) : response + obj :=
  match authHeader with
  | None => inl (failure 401 "Access denied. No token provided.")
  | Some h =>
      if String.eqb h "" || negb (startsWith "Bearer " h)
      then inl (failure 401 "Access denied. No token provided.")
      else
        let token := substring_from 7 h in
        if String.eqb token ""
        then inl (failure 401 "Access denied. Invalid token format.")
        else
          match let! decoded := jwt_verify token JWT_SECRET now in
                User_findById (get decoded "id") with
          | Normal (Some user) =>
              if truthy (get user "isActive") then inr (req_user user)
              else inl (failure 401 "User not found or inactive.")
          | Normal None => inl (failure 401 "User not found or inactive.")
          | Throw name =>
              if String.eqb name "JsonWebTokenError"
              then inl (failure 401 "Invalid token.")
              else if String.eqb name "TokenExpiredError"
              then inl (failure 401 "Token expired.")
              else inl (failure 500 "Token verification failed.")
          end
  end.

(** [authorize(...roles)]. *)
Definition authorize (roles : list val) (user : obj) : option response :=
  if bool_decide (get user "role" ∈ roles) then None
  else Some (failure 403 "Access denied. Insufficient permissions.").

(** [optionalAuth(req, res, next)]: what [req.user] is when [next] is
    called, [None] when it has been left unset.  The middleware sends no
    response of its own: an error of [jwt.verify] or of the model is caught,
    and [next] is called on every path. *)
Definition optionalAuth (authHeader : option string) (now : Z)
    (User_findById : val -> completion (option obj)) : option obj :=
  match authHeader with
  | None => None
  | Some h =>
      if negb (String.eqb h "") && startsWith "Bearer " h
      then
        let token := substring_from 7 h in
        if negb (String.eqb token "")
        then
          match let! decoded := jwt_verify token JWT_SECRET now in
                User_findById (get decoded "id") with
          | Normal (Some user) =>
              if truthy (get user "isActive") then Some (req_user user)
              else None
          | Normal None => None
          | Throw _ => None
          end
        else None
      else None
  end.
End WithPlatform.
End AuthMiddleware.

(** ** Routes as chains of middleware

    [router.verb(path, authenticate, ..., handler)]: a middleware that answers
    ends the chain and leaves the state as it is. *)

Definition protected {S : Type} (auth : response + obj) (st : S)
    (next : obj -> response * S) : response * S :=
  match auth with
  | inl r => (r, st)
  | inr user => next user
  end.

Definition validated {S : Type} (check : option response) (st : S)
    (next : response * S) : response * S :=
  match check with
  | Some r => (r, st)
  | None => next
  end.

(** ** models/Task.js *)

Module TaskModel.
(** [taskSchema.pre('save')], run on the document being saved.  The schema
    types [updatedAt] and [completedAt] as dates, so the readings of
    [Date.now()] are stored as dates. *)
Definition pre_save (doc : obj) (now : Z) : obj :=
  let d1 := <["updatedAt" := VDate (Some now)]> doc in
  let d2 :=
    if strict_eq (get d1 "status") (VStr "completed")
       && negb (truthy (get d1 "completedAt"))
    then <["completedAt" := VDate (Some now)]> d1 else d1 in
  if negb (strict_eq (get d2 "status") (VStr "completed"))
     && truthy (get d2 "completedAt")
  then <["completedAt" := VNull]> d2 else d2.

(** A condition of a MongoDB query on one path: equality with a value, a
    match of [new RegExp(pattern, 'i')], or, under [$or], a list of
    alternatives [{path: /pattern/i}]. *)
Inductive condition : Type :=
| Equals (v : val)
| Matches (pattern : string)
| AnyOf (alternatives : list (string * string)).

#[export] Instance condition_eq_dec : EqDecision condition.
Proof. solve_decision. Defined.

Section WithPlatform.
Context {P : Platform}.

(** The query object [taskSchema.statics.getUserTasks] builds.  A regular
    expression exists only if its constructor returned. *)
Definition getUserTasks_query (userId : val) (filter : obj)
    : completion (gmap string condition) :=
  let query0 : gmap string condition := {[ "user" := Equals userId ]} in
  let query1 :=
    if truthy (get filter "status")
    then <["status" := Equals (get filter "status")]> query0 else query0 in
  let query2 :=
    if truthy (get filter "priority")
    then <["priority" := Equals (get filter "priority")]> query1 else query1 in
  let! query3 :=
    if truthy (get filter "category")
    then let pattern := ToString (get filter "category") in
         let! _regex := RegExp_i pattern in
         Normal (<["category" := Matches pattern]> query2)
    else Normal query2 in
  if truthy (get filter "search")
  then let pattern := ToString (get filter "search") in
       let! _regex := RegExp_i pattern in
       Normal (<["$or" := AnyOf [("title", pattern); ("description", pattern);
                                 ("tags", pattern)]]> query3)
  else Normal query3.

(** [Task.getUserTasks(userId, filter)], awaited.  [find] is the outcome of
    [this.find(query).sort({createdAt: -1})] for each query. *)
Definition getUserTasks (find : gmap string condition -> completion (list obj))
    (userId : val) (filter : obj) : completion (list obj) :=
  let! query := getUserTasks_query userId filter in
  find query.
End WithPlatform.
End TaskModel.

(** ** routes/tasks.js *)

Module TaskRoutes.

(** The module's state: [inMemoryTasks] and [taskCounter]. *)
Record store : Type := {
  inMemoryTasks : list (val * obj);
  taskCounter : Z
}.

(** The state when the module is loaded. *)
Definition initial : store := {| inMemoryTasks := []; taskCounter := 1 |}.

(** [Math.round] of a float that is not negative: the integer nearest to
    it, the upper one on a tie. *)
Definition Math_round (f : float) : val :=
  match Prim2SF f with
  | S754_zero _ => VNum 0
  | S754_infinity _ => VInf
  | S754_nan => VNaN
  | S754_finite sg m e =>
      let n := if sg then Z.neg m else Z.pos m in
      if 0 <=? e then VNum (n * 2 ^ e)
      else let d := 2 ^ (- e) in VNum ((2 * n + d) / (2 * d))
  end.

(** A count as a float. *)
Definition float_of_count (n : Z) : float :=
  PrimFloat.of_uint63 (Uint63.of_Z n).

(** [l.filter(f)] when [f] may throw: the first throw ends the loop. *)
Fixpoint filterM {A} (f : A -> completion bool) (l : list A)
    : completion (list A) :=
  match l with
  | [] => Normal []
  | x :: r =>
      let! b := f x in
      let! r' := filterM f r in
      Normal (if b then x :: r' else r')
  end.

Definition count {A} (f : A -> bool) (l : list A) : Z :=
  Z.of_nat (length (List.filter f l)).

Section WithPlatform.
Context {P : Platform}.

(** *** Helpers over the two stores

    In [createTask] and [findUserTasks], [mongo] is the outcome of the [try]
    block, the call to the Mongoose model.  The helpers that work on one task
    are given the method of the model they call, as the function from the
    filter (and the update) it is called with to the outcome of the call.  The
    [catch] block works on [inMemoryTasks]. *)

Definition createTask (mongo : completion obj) (taskData : obj) (now : Z)
    (st : store) : obj * store :=
  match mongo with
  | Normal task => (task, st)
  | Throw _ =>
      let task :=
        <["updatedAt" := VDate (Some now)]>
          (<["createdAt" := VDate (Some now)]>
             (assign {[ "_id" := VNum (taskCounter st) ]} taskData)) in
      (task, {| inMemoryTasks := Map_set (get task "_id") task (inMemoryTasks st);
                taskCounter := taskCounter st + 1 |})
  end.

(** [(a, b) => new Date(b.createdAt) - new Date(a.createdAt)]. *)
Definition newest_first (a b : obj) : Z :=
  match Date_new (get b "createdAt"), Date_new (get a "createdAt") with
  | Some y, Some x => y - x
  | _, _ => 0
  end.

(** [task.tags && task.tags.some(tag => re.test(tag))]; calling [some]
    on a value that is not an array is a [TypeError]. *)
Definition tags_match (re : string -> bool) (tags : val) : completion bool :=
  if truthy tags then
    match tags with
    | VArr xs => Normal (existsb (fun tag => test re (VStr tag)) xs)
    | _ => Throw "TypeError"
    end
  else Normal false.

Definition findUserTasks (mongo : completion (list obj)) (userId : val)
    (filter : obj) (st : store) : completion (list obj) :=
  match mongo with
  | Normal tasks => Normal tasks
  | Throw _ =>
      let tasks0 :=
        List.filter (fun task => loose_eq (get task "user") userId)
                    (Map_values (inMemoryTasks st)) in
      let tasks1 :=
        if truthy (get filter "status")
        then List.filter (fun task =>
               strict_eq (get task "status") (get filter "status")) tasks0
        else tasks0 in
      let tasks2 :=
        if truthy (get filter "priority")
        then List.filter (fun task =>
               strict_eq (get task "priority") (get filter "priority")) tasks1
        else tasks1 in
      let! tasks3 :=
        if truthy (get filter "category")
        then let! categoryRegex := RegExp_i (ToString (get filter "category")) in
             Normal (List.filter (fun task =>
               test categoryRegex (get task "category")) tasks2)
        else Normal tasks2 in
      let! tasks4 :=
        if truthy (get filter "search")
        then let! searchRegex := RegExp_i (ToString (get filter "search")) in
             filterM (fun task =>
               if test searchRegex (get task "title")
                  || test searchRegex (get task "description")
               then Normal true
               else tags_match searchRegex (get task "tags")) tasks3
        else Normal tasks3 in
      Normal (sort newest_first tasks4)
  end.

Definition owned (task : option obj) (userId : val) : option obj :=
  match task with
  | Some t => if loose_eq (get t "user") userId then Some t else None
  | None => None
  end.

(** The filter [{ _id: taskId, user: userId }]. *)
Definition by_id (taskId : string) (userId : val)
    : gmap string TaskModel.condition :=
  {[ "_id" := TaskModel.Equals (VStr taskId); "user" := TaskModel.Equals userId ]}.

Definition findTaskById
    (Task_findOne : gmap string TaskModel.condition -> completion (option obj))
    (taskId : string) (userId : val) (st : store) : option obj :=
  match Task_findOne (by_id taskId userId) with
  | Normal task => task
  | Throw _ => owned (Map_get (parseInt taskId) (inMemoryTasks st)) userId
  end.

(** The options [{ new: true, runValidators: true }] are the same at every
    call. *)
Definition updateTask
    (Task_findOneAndUpdate :
       gmap string TaskModel.condition -> obj -> completion (option obj))
    (taskId : string) (userId : val) (updateData : obj) (now : Z) (st : store)
    : option obj * store :=
  match Task_findOneAndUpdate (by_id taskId userId) updateData with
  | Normal task => (task, st)
  | Throw _ =>
      match owned (Map_get (parseInt taskId) (inMemoryTasks st)) userId with
      | Some task =>
          let t1 :=
            assign (assign task updateData)
                   {[ "updatedAt" := VDate (Some now) ]} in
          let t2 :=
            if strict_eq (get updateData "status") (VStr "completed")
               && negb (truthy (get t1 "completedAt"))
            then <["completedAt" := VDate (Some now)]> t1
            else if negb (strict_eq (get updateData "status") (VStr "completed"))
                    && truthy (get t1 "completedAt")
            then <["completedAt" := VNull]> t1
            else t1 in
          (Some t2,
           {| inMemoryTasks := Map_set (parseInt taskId) t2 (inMemoryTasks st);
              taskCounter := taskCounter st |})
      | None => (None, st)
      end
  end.

Definition deleteTask
    (Task_findOneAndDelete :
       gmap string TaskModel.condition -> completion (option obj))
    (taskId : string) (userId : val) (st : store) : option obj * store :=
  match Task_findOneAndDelete (by_id taskId userId) with
  | Normal task => (task, st)
  | Throw _ =>
      match owned (Map_get (parseInt taskId) (inMemoryTasks st)) userId with
      | Some task =>
          (Some task,
           {| inMemoryTasks := Map_delete (parseInt taskId) (inMemoryTasks st);
              taskCounter := taskCounter st |})
      | None => (None, st)
      end
  end.

(** *** Handlers

    Each handler is given [req.user] as [authenticate] left it.  [query] is
    [req.query]: a parameter is absent, a text, or, when the query string
    repeats it, an array of texts. *)

Definition build_filter (query : obj) : obj :=
  let add k (f : obj) :=
    if truthy (get query k) then <[k := get query k]> f else f in
  add "search" (add "category" (add "priority" (add "status" ∅))).

(** [const { page = 1 } = req.query]: the default stands in for
    [undefined] only. *)
Definition or_default (v d : val) : val :=
  match v with
  | VUndef => d
  | _ => v
  end.

(** [GET /api/tasks].  The indices are computed from [page] and [limit] as
    numbers; [current] is what [parseInt] reads in [page]. *)
Definition get_tasks (user query : obj) (mongo : completion (list obj))
    (st : store) : response :=
  let page := or_default (get query "page") (VNum 1) in
  let limit := or_default (get query "limit") (VNum 10) in
  match findUserTasks mongo (get user "id") (build_filter query) st with
  | Normal tasks =>
      let len := Z.of_nat (length tasks) in
      let startIndex :=
        num_mul (num_sub (ToNumber page) (Int 1)) (ToNumber limit) in
      let endIndex := num_mul (ToNumber page) (ToNumber limit) in
      let paginatedTasks :=
        slice tasks (to_index len startIndex) (to_index len endIndex) in
      ok 200 None
         (DataTasks paginatedTasks
            {| pg_current := parseInt (ToString page);
               pg_total := Math_ceil_quotient len (ToNumber limit);
               pg_count := Z.of_nat (length paginatedTasks);
               pg_totalTasks := len |})
  | Throw _ => failure 500 "Server error fetching tasks"
  end.

(** [POST /api/tasks]. *)
Definition post_task (user body : obj) (mongo : completion obj) (now : Z)
    (st : store) : response * store :=
  let taskData := <["user" := get user "id"]> body in
  let '(task, st') := createTask mongo taskData now st in
  (ok 201 (Some "Task created successfully") (DataTask task), st').

(** [GET /api/tasks/:id]. *)
Definition get_task (user : obj) (id : string)
    (Task_findOne : gmap string TaskModel.condition -> completion (option obj))
    (st : store) : response :=
  match findTaskById Task_findOne id (get user "id") st with
  | None => failure 404 "Task not found"
  | Some task => ok 200 None (DataTask task)
  end.

(** [PUT /api/tasks/:id]. *)
Definition put_task (user : obj) (id : string) (body : obj)
    (Task_findOneAndUpdate :
       gmap string TaskModel.condition -> obj -> completion (option obj))
    (now : Z) (st : store) : response * store :=
  match updateTask Task_findOneAndUpdate id (get user "id") body now st with
  | (None, st') => (failure 404 "Task not found", st')
  | (Some task, st') =>
      (ok 200 (Some "Task updated successfully") (DataTask task), st')
  end.

(** [DELETE /api/tasks/:id]. *)
Definition delete_task (user : obj) (id : string)
    (Task_findOneAndDelete :
       gmap string TaskModel.condition -> completion (option obj))
    (st : store) : response * store :=
  match deleteTask Task_findOneAndDelete id (get user "id") st with
  | (None, st') => (failure 404 "Task not found", st')
  | (Some _, st') => (ok 200 (Some "Task deleted successfully") NoData, st')
  end.

(** The entry [overdue] of the statistics. *)
Definition is_overdue (now : Z) (task : obj) : bool :=
  truthy (get task "dueDate")
  && date_lt (Date_new (get task "dueDate")) (Some now)
  && negb (strict_eq (get task "status") (VStr "completed")).

(** [Math.round((completed / total) * 100)], or 0 without tasks. *)
Definition completionRate (completed total : Z) : val :=
  if 0 <? total
  then Math_round (PrimFloat.mul
         (PrimFloat.div (float_of_count completed) (float_of_count total))
         (float_of_count 100))
  else VNum 0.

Definition task_stats (now : Z) (tasks : list obj) : stats :=
  let has k v (task : obj) := strict_eq (get task k) (VStr v) in
  let total := Z.of_nat (length tasks) in
  let completed := count (has "status" "completed") tasks in
  {| st_total := total;
     st_completed := completed;
     st_inProgress := count (has "status" "in-progress") tasks;
     st_pending := count (has "status" "pending") tasks;
     st_highPriority := count (has "priority" "high") tasks;
     st_overdue := count (is_overdue now) tasks;
     st_completionRate := completionRate completed total |}.

(** [GET /api/tasks/stats/summary]. *)
Definition get_stats (user : obj) (mongo : completion (list obj)) (now : Z)
    (st : store) : response :=
  match findUserTasks mongo (get user "id") ∅ st with
  | Normal tasks => ok 200 None (DataStats (task_stats now tasks))
  | Throw _ => failure 500 "Server error fetching task statistics"
  end.

(** *** Routes *)

Definition GET_tasks auth query mongo st : response * store :=
  protected auth st (fun user => (get_tasks user query mongo st, st)).

Definition POST_task auth details body mongo now st : response * store :=
  protected auth st (fun user =>
    validated (Validation.validate (Validation.createTaskSchema now) details body) st
      (post_task user body mongo now st)).

Definition GET_task auth id Task_findOne st : response * store :=
  protected auth st (fun user => (get_task user id Task_findOne st, st)).

Definition PUT_task auth details id body Task_findOneAndUpdate now st
    : response * store :=
  protected auth st (fun user =>
    validated (Validation.validate Validation.updateTaskSchema details body) st
      (put_task user id body Task_findOneAndUpdate now st)).

Definition DELETE_task auth id Task_findOneAndDelete st : response * store :=
  protected auth st (fun user => delete_task user id Task_findOneAndDelete st).

Definition GET_stats auth mongo now st : response * store :=
  protected auth st (fun user => (get_stats user mongo now st, st)).
End WithPlatform.
End TaskRoutes.

(** ** The queries of the Task model

    What a document has to hold for a query to find it, as MongoDB matches:
    every condition of the query holds of the document.  Before the query is
    sent, Mongoose casts the value of an equality to the type the schema
    gives the path: ObjectId for [_id] and [user], String for the others. *)

Module Mongoose.
Import TaskModel.
Section WithPlatform.
Context {P : Platform}.

Definition is_hex (c : ascii) : bool :=
  let n := code c in
  ((48 <=? n) && (n <=? 57)) || ((97 <=? n) && (n <=? 102))
  || ((65 <=? n) && (n <=? 70)).

Definition hex24 (s : string) : bool :=
  (Z.of_nat (String.length s) =? 24)
  && forallb is_hex (list_ascii_of_string s).

(** The cast to ObjectId: an ObjectId is kept; another value is read as a
    string, 24 hexadecimal digits being the identifier they write; [None]
    when the cast throws. *)
Definition cast_ObjectId (v : val) : option string :=
  match v with
  | VObjectId hex => Some hex
  | _ =>
      let s := ToString v in
      if hex24 s then Some (toLowerCase s) else ObjectId_other s
  end.

(** Equality on a path of type ObjectId; [null] and [undefined] in the
    query find the documents that hold neither. *)
Definition equals_ObjectId (q stored : val) : bool :=
  if is_nullish q then is_nullish stored
  else
    match cast_ObjectId q, stored with
    | Some hex, VObjectId hex' => String.eqb hex hex'
    | _, _ => false
    end.

(** Equality on a path of type String, for a string in the query: the
    documents that hold that string. *)
Definition equals_String (q stored : val) : bool :=
  match q, stored with
  | VStr s, VStr s' => String.eqb s s'
  | _, _ => false
  end.

Definition ObjectId_path (path : string) : bool :=
  String.eqb path "_id" || String.eqb path "user".

(** A regular expression finds a string, and an array by one of its
    elements. *)
Definition regex_holds (pattern : string) (stored : val) : bool :=
  match stored with
  | VStr s => mongo_regex_i pattern s
  | VArr xs => existsb (mongo_regex_i pattern) xs
  | _ => false
  end.

Definition holds (doc : obj) (path : string) (c : condition) : bool :=
  match c with
  | Equals q =>
      if ObjectId_path path then equals_ObjectId q (get doc path)
      else equals_String q (get doc path)
  | Matches pattern => regex_holds pattern (get doc path)
  | AnyOf alternatives =>
      existsb (fun a : string * string => regex_holds a.2 (get doc a.1))
              alternatives
  end.

Definition satisfies (query : gmap string condition) (doc : obj) : bool :=
  bool_decide (map_Forall (fun path c => holds doc path c = true) query).

(** The casts of a query.  Mongoose rejects with a [CastError], before
    the database is asked, a query with a value it cannot cast: on a path of
    type ObjectId a value that is neither nullish nor an ObjectId, on a path
    of type String an array. *)
Definition casts (path : string) (c : condition) : bool :=
  match c with
  | Equals q =>
      if ObjectId_path path
      then is_nullish q || bool_decide (is_Some (cast_ObjectId q))
      else match q with VArr _ => false | _ => true end
  | _ => true
  end.

Definition castable (query : gmap string condition) : bool :=
  bool_decide (map_Forall (fun path c => casts path c = true) query).

(** The model over a collection that answers: [Task.findOne(query)] and
    [Task.findOneAndDelete(query)] resolve to the first document that
    satisfies the query, [Task.find(query).sort({createdAt: -1})] to all
    of them, the newest first. *)
Definition findOne (docs : list obj) (query : gmap string condition)
    : completion (option obj) :=
  if castable query then Normal (List.find (satisfies query) docs)
  else Throw "CastError".

Definition find_sorted (docs : list obj) (query : gmap string condition)
    : completion (list obj) :=
  if castable query
  then Normal (sort TaskRoutes.newest_first (List.filter (satisfies query) docs))
  else Throw "CastError".
End WithPlatform.
End Mongoose.

(** ** Mongoose documents

    A document of the [User] model as the routes see it: its fields, and the
    outcomes of the methods they call on it.  The model is defined outside
    these files. *)
Record document : Type := {
  doc : obj;
  matchPassword : val -> completion bool;
  save : completion unit;
  getPublicProfile : obj
}.

(** A user record handed to a route: a document, or a plain object of the
    in-memory map (which has none of the methods). *)
Inductive found : Type :=
| Document (d : document)
| Plain (u : obj).

Definition fields (u : found) : obj :=
  match u with
  | Document d => doc d
  | Plain o => o
  end.

(** ** routes/auth.js *)

Module AuthRoutes.

(** The module's state: [inMemoryUsers] and [userCounter]. *)
Record store : Type := {
  inMemoryUsers : list (string * obj);
  userCounter : Z
}.

Definition initial : store := {| inMemoryUsers := []; userCounter := 1 |}.

Section WithPlatform.
Context {P : Platform}.

(** [salt] is the randomness [bcrypt.hash] draws.  The counter is read
    before [userData.email.toLowerCase()] is evaluated, so it moves on
    even when that call throws. *)
Definition createUser (mongo : completion obj) (userData : obj)
    (salt now : Z) (st : store) : completion obj * store :=
  match mongo with
  | Normal profile => (Normal profile, st)
  | Throw _ =>
      match get userData "password" with
      | VStr pw =>
          let hashedPassword := bcrypt_hash salt pw in
          let st1 := {| inMemoryUsers := inMemoryUsers st;
                        userCounter := userCounter st + 1 |} in
          match get userData "email" with
          | VStr email =>
              let user : obj :=
                {[ "_id" := VNum (userCounter st);
                   "name" := get userData "name";
                   "email" := VStr (toLowerCase email);
                   "password" := VStr hashedPassword;
                   "role" := VStr "user";
                   "isActive" := VBool true;
                   "createdAt" := VDate (Some now);
                   "updatedAt" := VDate (Some now) ]} in
              (Normal (delete "password" user),
               {| inMemoryUsers :=
                    Map_set (toLowerCase email) user (inMemoryUsers st);
                  userCounter := userCounter st + 1 |})
          | _ => (Throw "TypeError", st1)
          end
      | _ => (Throw "Error", st)
      end
  end.

Definition findUserByEmail (mongo : completion (option document))
    (email : val) (st : store) : completion (option found) :=
  match mongo with
  | Normal user => Normal (Document <$> user)
  | Throw _ =>
      match email with
      | VStr e => Normal (Plain <$> Map_get (toLowerCase e) (inMemoryUsers st))
      | _ => Throw "TypeError"
      end
  end.

(** [bcrypt.compare] rejects arguments that are not strings. *)
Definition verifyPassword (inputPassword hashedPassword : val) (user : found)
    : completion bool :=
  match user with
  | Document d => matchPassword d inputPassword
  | Plain _ =>
      match inputPassword, hashedPassword with
      | VStr s, VStr h => Normal (bcrypt_compare s h)
      | _, _ => Throw "Error"
      end
  end.

(** [POST /api/auth/register], after validation. *)
Definition register (body : obj) (mongo_find : completion (option document))
    (mongo_create : completion obj) (salt now : Z) (st : store)
    : response * store :=
  let oops := failure 500 "Server error during registration" in
  match findUserByEmail mongo_find (get body "email") st with
  | Throw _ => (oops, st)
  | Normal (Some _) => (failure 400 "User with this email already exists", st)
  | Normal None =>
      let userData : obj :=
        {[ "name" := get body "name"; "email" := get body "email";
           "password" := get body "password" ]} in
      match createUser mongo_create userData salt now st with
      | (Throw _, st') => (oops, st')
      | (Normal user, st') =>
          match AuthMiddleware.generateToken {[ "id" := get user "_id" ]} now with
          | Throw _ => (oops, st')
          | Normal token =>
              (ok 201 (Some "User registered successfully")
                  (DataUserToken user token), st')
          end
      end
  end.

(** [POST /api/auth/login], after validation. *)
Definition login (body : obj) (mongo_find : completion (option document))
    (now : Z) (st : store) : response * store :=
  let oops := failure 500 "Server error during login" in
  let email := get body "email" in
  match findUserByEmail mongo_find email st with
  | Throw _ => (oops, st)
  | Normal None => (failure 401 "Invalid email or password", st)
  | Normal (Some user) =>
      if negb (truthy (get (fields user) "isActive"))
      then (failure 401 "Account is deactivated", st)
      else
        match verifyPassword (get body "password")
                             (get (fields user) "password") user with
        | Throw _ => (oops, st)
        | Normal false => (failure 401 "Invalid email or password", st)
        | Normal true =>
            let respond (profile : obj) (st' : store) :=
              match AuthMiddleware.generateToken
                      {[ "id" := get (fields user) "_id" ]} now with
              | Throw _ => (oops, st')
              | Normal token =>
                  (ok 200 (Some "Login successful")
                      (DataUserToken (delete "password" profile) token), st')
              end in
            match user, email with
            | Document d, _ =>
                match save d with
                | Throw _ => (oops, st)
                | Normal _ => respond (getPublicProfile d) st
                end
            | Plain o, VStr e =>
                if Map_has (toLowerCase e) (inMemoryUsers st)
                then
                  let o' := <["lastLogin" := VDate (Some now)]> o in
                  respond o'
                    {| inMemoryUsers :=
                         Map_set (toLowerCase e) o' (inMemoryUsers st);
                       userCounter := userCounter st |}
                else respond o st
            | Plain o, _ => (oops, st)
            end
        end
  end.

(** [GET /api/auth/me]. *)
Definition me (user : obj) (mongo_find : completion (option document))
    (st : store) : response :=
  match findUserByEmail mongo_find (get user "email") st with
  | Throw _ => failure 500 "Server error fetching profile"
  | Normal None => failure 404 "User not found"
  | Normal (Some (Document d)) =>
      ok 200 None (DataUser (delete "password" (getPublicProfile d)))
  | Normal (Some (Plain o)) => ok 200 None (DataUser (delete "password" o))
  end.

(** [POST /api/auth/logout] and [GET /api/auth/verify]. *)
Definition logout (user : obj) : response :=
  ok 200 (Some "Logged out successfully") NoData.

Definition verify (user : obj) : response :=
  ok 200 (Some "Token is valid") (DataUser user).

(** *** Routes *)

Definition POST_register details body mongo_find mongo_create salt now st
    : response * store :=
  validated (Validation.validate Validation.registerSchema details body) st
    (register body mongo_find mongo_create salt now st).

Definition POST_login details body mongo_find now st : response * store :=
  validated (Validation.validate Validation.loginSchema details body) st
    (login body mongo_find now st).

Definition GET_me auth mongo_find st : response * store :=
  protected auth st (fun user => (me user mongo_find st, st)).

Definition POST_logout auth (st : store) : response * store :=
  protected auth st (fun user => (logout user, st)).

Definition GET_verify auth (st : store) : response * store :=
  protected auth st (fun user => (verify user, st)).
End WithPlatform.
End AuthRoutes.

(** ** routes/users.js *)

Module UserRoutes.

(** The module's state: its own [inMemoryUsers] map, keyed like the one of
    routes/auth.js.  Nothing in this module adds an entry to it. *)
Record store : Type := {
  inMemoryUsers : list (string * obj)
}.

Definition initial : store := {| inMemoryUsers := [] |}.

Section WithPlatform.
Context {P : Platform}.

(** [for (const user of inMemoryUsers.values()) if (user._id == id) return user]. *)
Definition find_by_id (id : val) (m : list (string * obj)) : option obj :=
  List.find (fun user => loose_eq (get user "_id") id) (Map_values m).

Definition findUserById (mongo : completion (option document)) (id : val)
    (st : store) : option found :=
  match mongo with
  | Normal user => Document <$> user
  | Throw _ => Plain <$> find_by_id id (inMemoryUsers st)
  end.

(** The loop of [updateUser]: the first entry with the identifier is
    updated where it stands. *)
Fixpoint update_first (id : val) (updateData : obj) (now : Z)
    (m : list (string * obj)) : option obj * list (string * obj) :=
  match m with
  | [] => (None, [])
  | (email, user) :: r =>
      if loose_eq (get user "_id") id
      then
        let user' :=
          assign (assign user updateData)
                 {[ "updatedAt" := VDate (Some now) ]} in
        (Some (delete "password" user'), (email, user') :: r)
      else
        let '(res, r') := update_first id updateData now r in
        (res, (email, user) :: r')
  end.

Definition updateUser (mongo : completion (option document)) (id : val)
    (updateData : obj) (now : Z) (st : store) : option obj * store :=
  match mongo with
  | Normal user => (getPublicProfile <$> user, st)
  | Throw _ =>
      let '(res, m) := update_first id updateData now (inMemoryUsers st) in
      (res, {| inMemoryUsers := m |})
  end.

(** [GET /api/users/profile]. *)
Definition get_profile (user : obj) (mongo : completion (option document))
    (st : store) : response :=
  match findUserById mongo (get user "id") st with
  | None => failure 404 "User not found"
  | Some (Document d) =>
      ok 200 None (DataUser (delete "password" (getPublicProfile d)))
  | Some (Plain o) => ok 200 None (DataUser (delete "password" o))
  end.

(** The patch [PUT /api/users/profile] builds from the body. *)
Definition profile_patch (body : obj) : obj :=
  let add k (f : obj) :=
    if bool_decide (get body k = VUndef) then f else <[k := get body k]> f in
  add "avatar" (add "name" ∅).

(** [PUT /api/users/profile], after validation. *)
Definition put_profile (user body : obj)
    (mongo : completion (option document)) (now : Z) (st : store)
    : response * store :=
  match updateUser mongo (get user "id") (profile_patch body) now st with
  | (None, st') => (failure 404 "User not found", st')
  | (Some updatedUser, st') =>
      (ok 200 (Some "Profile updated successfully") (DataUser updatedUser), st')
  end.

(** [DELETE /api/users/profile]. *)
Definition delete_profile (user : obj) (mongo : completion (option document))
    (now : Z) (st : store) : response * store :=
  match updateUser mongo (get user "id") {[ "isActive" := VBool false ]} now st with
  | (None, st') => (failure 404 "User not found", st')
  | (Some _, st') =>
      (ok 200 (Some "Account deactivated successfully") NoData, st')
  end.

(** [GET /api/users]. *)
Definition get_users (mongo : completion (list obj)) (st : store) : response :=
  let users :=
    match mongo with
    | Normal users => users
    | Throw _ =>
        map (delete "password")
            (List.filter (fun user => truthy (get user "isActive"))
                         (Map_values (inMemoryUsers st)))
    end in
  ok 200 None (DataUsers users (Z.of_nat (length users))).

(** *** Routes *)

Definition GET_profile auth mongo st : response * store :=
  protected auth st (fun user => (get_profile user mongo st, st)).

Definition PUT_profile auth details body mongo now st : response * store :=
  protected auth st (fun user =>
    validated (Validation.validate Validation.updateProfileSchema details body) st
      (put_profile user body mongo now st)).

Definition DELETE_profile auth mongo now st : response * store :=
  protected auth st (fun user => delete_profile user mongo now st).

Definition GET_users auth mongo st : response * store :=
  protected auth st (fun user =>
    validated (AuthMiddleware.authorize [VStr "admin"] user) st
      (get_users mongo st, st)).

(** *** Account statistics *)

(** [v && v.trim()] as a condition; [trim] exists on strings only. *)
Definition filled_in (v : val) : completion bool :=
  if truthy v then
    match v with
    | VStr s => Normal (truthy (VStr (trim s)))
    | _ => Throw "TypeError"
    end
  else Normal false.

(** [calculateProfileCompletion(user)], with its [totalFields = 4]. *)
Definition calculateProfileCompletion (user : obj) : completion val :=
  let! name := filled_in (get user "name") in
  let! email := filled_in (get user "email") in
  let completedFields :=
    (if name then 1 else 0) + (if email then 1 else 0)
    + (if truthy (get user "avatar") then 1 else 0) in
  Normal (TaskRoutes.Math_round
            (PrimFloat.mul
               (PrimFloat.div (TaskRoutes.float_of_count completedFields)
                              (TaskRoutes.float_of_count 4))
               (TaskRoutes.float_of_count 100))).

(** The object [stats] of [GET /api/users/stats]. *)
Record user_stats : Type := {
  accountCreated : val;
  lastLogin : val;
  profileCompletion : val
}.

(** [GET /api/users/stats]: a failure ([inl]), or status 200 with
    [{success: true, data: {stats}}] ([inr]). *)
Definition get_user_stats (user : obj) (mongo : completion (option document))
    (st : store) : response + user_stats :=
  match findUserById mongo (get user "id") st with
  | None => inl (failure 404 "User not found")
  | Some u =>
      match calculateProfileCompletion (fields u) with
      | Normal percent =>
          inr {| accountCreated := get (fields u) "createdAt";
                 lastLogin := get (fields u) "lastLogin";
                 profileCompletion := percent |}
      | Throw _ => inl (failure 500 "Server error fetching stats")
      end
  end.

Definition GET_user_stats (auth : response + obj)
    (mongo : completion (option document)) (st : store)
    : (response + user_stats) * store :=
  match auth with
  | inl r => (inl r, st)
  | inr user => (get_user_stats user mongo st, st)
  end.
End WithPlatform.
End UserRoutes.

(** ** services/api.js (front end) *)

Module ApiClient.
(** The request interceptor: the headers of the outgoing request, given what
    [localStorage.getItem('token')] returned. *)
Definition request_interceptor (stored : option string)
    (headers : gmap string string) : gmap string string :=
  match stored with
  | Some token =>
      if negb (String.eqb token "")
      then <["Authorization" := "Bearer " +:+ token]> headers
      else headers
  | None => headers
  end.
End ApiClient.

(** ** A platform to run the routes on

    Stand-ins for the packages, with the two laws proved: the hash keeps
    the password readable, the token is the binary numeral of the code of its
    payload and signature.  The parts of the engine that the interface leaves
    open answer with the least they can. *)

Module Reference.

Definition val_code (v : val)
    : unit + unit + bool + Z + unit + unit + string + option Z + list string
      + string :=
  match v with
  | VUndef => inl (inl (inl (inl (inl (inl (inl (inl (inl tt))))))))
  | VNull => inl (inl (inl (inl (inl (inl (inl (inl (inr tt))))))))
  | VBool b => inl (inl (inl (inl (inl (inl (inl (inr b)))))))
  | VNum n => inl (inl (inl (inl (inl (inl (inr n))))))
  | VNaN => inl (inl (inl (inl (inl (inr tt)))))
  | VInf => inl (inl (inl (inl (inr tt))))
  | VStr s => inl (inl (inl (inr s)))
  | VDate d => inl (inl (inr d))
  | VArr xs => inl (inr xs)
  | VObjectId hex => inr hex
  end.

Definition val_decode
    (c : unit + unit + bool + Z + unit + unit + string + option Z + list string
         + string)
    : val :=
  match c with
  | inl (inl (inl (inl (inl (inl (inl (inl (inl _)))))))) => VUndef
  | inl (inl (inl (inl (inl (inl (inl (inl (inr _)))))))) => VNull
  | inl (inl (inl (inl (inl (inl (inl (inr b))))))) => VBool b
  | inl (inl (inl (inl (inl (inl (inr n)))))) => VNum n
  | inl (inl (inl (inl (inl (inr _))))) => VNaN
  | inl (inl (inl (inl (inr _)))) => VInf
  | inl (inl (inl (inr s))) => VStr s
  | inl (inl (inr d)) => VDate d
  | inl (inr xs) => VArr xs
  | inr hex => VObjectId hex
  end.

#[export] Instance val_countable : Countable val.
Proof.
  apply (inj_countable' val_code val_decode).
  intros []; reflexivity.
Defined.

Fixpoint bits_of_pos (p : positive) : string :=
  match p with
  | xH => ""
  | xO q => String "0" (bits_of_pos q)
  | xI q => String "1" (bits_of_pos q)
  end.

Fixpoint pos_of_bits (s : string) : option positive :=
  match s with
  | EmptyString => Some xH
  | String c r =>
      if Ascii.eqb c "0" then xO <$> pos_of_bits r
      else if Ascii.eqb c "1" then xI <$> pos_of_bits r
      else None
  end.

Lemma pos_of_bits_of_pos (p : positive) : pos_of_bits (bits_of_pos p) = Some p.
Proof. induction p as [q IH|q IH|]; simpl; rewrite ?IH; reflexivity. Qed.

Definition encode_token (payload : obj) (sig : string) : string :=
  bits_of_pos (encode (payload, sig)).

Definition decode_token (token : string) : option (obj * string) :=
  pos_of_bits token ≫= decode.

(** A token of the package's own making, with the header
    [{"alg":"HS256","typ":"JWT"}] and the payload text [not json]. *)
Definition not_json_token : string :=
  "eyJhbGciOiJIUzI1NiIsInR5cCI6IkpXVCJ9.bm90IGpzb24.c2ln".

Definition decode_jws (token : string) : completion decoded :=
  match decode_token token with
  | Some (payload, _) => Normal (Payload payload)
  | None =>
      if String.eqb token not_json_token then Throw "SyntaxError"
      else Normal Undecodable
  end.

Definition signed_jws (sign : string -> obj -> string) (token secret : string)
    : bool :=
  match decode_token token with
  | Some (payload, sig) => String.eqb sig (sign secret payload)
  | None => false
  end.

Definition sign (secret : string) (payload : obj) : string :=
  bits_of_pos (encode (secret, payload)).

Lemma decode_encode_token payload sig :
  decode_token (encode_token payload sig) = Some (payload, sig).
Proof.
  unfold decode_token, encode_token.
  rewrite pos_of_bits_of_pos. simpl. apply decode_encode.
Qed.

Lemma decode_jws_encode payload sig :
  json_object payload ->
  decode_jws (encode_token payload sig) = Normal (Payload payload).
Proof. intros _. unfold decode_jws. by rewrite decode_encode_token. Qed.

Lemma signed_jws_encode payload sig secret :
  json_object payload ->
  signed_jws sign (encode_token payload sig) secret
  = String.eqb sig (sign secret payload).
Proof. intros _. unfold signed_jws. by rewrite decode_encode_token. Qed.

(** The texts the runs below read as numbers. *)
Definition number_of_text (s : string) : float :=
  if String.eqb s "" then 0%float
  else if String.eqb s "-1" then (-1)%float
  else if String.eqb s "1.5" then 1.5%float
  else if String.eqb s "1e1" then 10%float
  else nan.

(** The regular expressions the runs below search with are made of letters
    and dots. *)
Definition regex_i (pattern text : string) : bool := match_anywhere pattern text.

Definition hash (salt : Z) (pw : string) : string := "$2a$12$" +:+ pw.

Definition compare (pw h : string) : bool := String.eqb h (hash 0 pw).

Lemma compare_hash salt pw : compare pw (hash salt pw) = true.
Proof. unfold compare, hash. apply String.eqb_refl. Qed.

#[export] Instance platform : Platform := {|
  abstract_eq_mixed := fun _ _ => false;
  RegExp_other := fun _ => Throw "SyntaxError";
  Date_parse := fun _ => None;
  Date_toString := string_of_Z;
  Date_toISOString := string_of_Z;
  env := fun _ => None;
  bcrypt_hash := hash;
  bcrypt_compare := compare;
  bcrypt_compare_hash := compare_hash;
  hmac := sign;
  jws_encode := encode_token;
  jws_decode := decode_jws;
  jws_signed := signed_jws sign;
  jws_decode_encode := decode_jws_encode;
  jws_signed_encode := signed_jws_encode;
  ms_other := fun _ => None;
  joi_email := fun s => bool_decide ("@" ∈ list_ascii_of_string s)%char;
  joi_uri := fun _ => true;
  joi_date := fun v => match v with VNum n => Some n | VDate d => d | _ => None end;
  StringToNumber_other := number_of_text;
  ObjectId_other := fun _ => None;
  mongo_regex_i := regex_i
|}.

(** The same platform started with a [JWT_EXPIRE] that is no time span. *)
Definition misconfigured : Platform := {|
  abstract_eq_mixed := fun _ _ => false;
  RegExp_other := fun _ => Throw "SyntaxError";
  Date_parse := fun _ => None;
  Date_toString := string_of_Z;
  Date_toISOString := string_of_Z;
  env := fun k => if String.eqb k "JWT_EXPIRE" then Some "soon" else None;
  bcrypt_hash := hash;
  bcrypt_compare := compare;
  bcrypt_compare_hash := compare_hash;
  hmac := sign;
  jws_encode := encode_token;
  jws_decode := decode_jws;
  jws_signed := signed_jws sign;
  jws_decode_encode := decode_jws_encode;
  jws_signed_encode := signed_jws_encode;
  ms_other := fun _ => None;
  joi_email := fun s => bool_decide ("@" ∈ list_ascii_of_string s)%char;
  joi_uri := fun _ => true;
  joi_date := fun v => match v with VNum n => Some n | VDate d => d | _ => None end;
  StringToNumber_other := number_of_text;
  ObjectId_other := fun _ => None;
  mongo_regex_i := regex_i
|}.

End Reference.


(** * Properties *)

Import Validation AuthMiddleware.

(** ** The built-ins on small inputs *)

Example parseInt_decimal : parseInt "  42abc" = VNum 42.
Proof. reflexivity. Qed.

Example parseInt_negative : parseInt "-7" = VNum (-7).
Proof. reflexivity. Qed.

Example parseInt_hex : parseInt "0x1F" = VNum 31.
Proof. reflexivity. Qed.

Example parseInt_object_id : parseInt "abc" = VNaN /\ parseInt "" = VNaN.
Proof. split; reflexivity. Qed.

Example toLowerCase_email : toLowerCase "Ann@X.com" = "ann@x.com".
Proof. reflexivity. Qed.

Example trim_both_ends : trim "  a b  " = "a b".
Proof. reflexivity. Qed.

Example slice_page : slice [1; 2; 3; 4; 5] 2 4 = [3; 4].
Proof. reflexivity. Qed.

Example slice_negative_end : slice [1; 2; 3; 4; 5] 0 (-1) = [1; 2; 3; 4].
Proof. reflexivity. Qed.

Example sort_is_stable :
  sort (fun a b : Z * string => b.1 - a.1) [(1, "a"); (3, "b"); (1, "c"); (3, "d")]
  = [(3, "b"); (3, "d"); (1, "a"); (1, "c")].
Proof. reflexivity. Qed.

(** 12.5, the float just below 0.5, and the float just below 14.5. *)
Example Math_round_ties :
  TaskRoutes.Math_round 12.5%float = VNum 13
  /\ TaskRoutes.Math_round 0x1.fffffffffffffp-2%float = VNum 0
  /\ TaskRoutes.Math_round 0x1.cffffffffffffp+3%float = VNum 14.
Proof. repeat split; vm_compute; reflexivity. Qed.

Example ceil_div_pages :
  ceil_div 21 10 = Int 3 /\ ceil_div 20 10 = Int 2
  /\ ceil_div 0 10 = Int 0 /\ ceil_div 5 0 = Flt infinity.
Proof. repeat split; reflexivity. Qed.

(** 2.5 pages of 10 start at index 15; [Math.ceil] of -0.5 is a zero. *)
Example numbers_with_fractions :
  num_mul (num_sub (Flt 2.5%float) (Int 1)) (Int 10) = Int 15
  /\ to_index 20 (Flt 2.5%float) = 2 /\ to_index 20 (Flt (-2.5)%float) = -2
  /\ Math_ceil 2.5%float = Int 3 /\ Math_ceil (-2.5)%float = Int (-2)
  /\ Math_ceil (-0.5)%float = Int 0
  /\ Math_ceil (PrimFloat.div 3%float (-0)%float) = Flt neg_infinity.
Proof. repeat split; vm_compute; reflexivity. Qed.

Example password_pattern_first_line :
  password_pattern "abc123" = true /\ password_pattern "abcdef" = false.
Proof. split; reflexivity. Qed.

(** ** Maps and objects *)

Section MapFacts.
Context {K V : Type} `{EqDecision K}.
Implicit Types (m : list (K * V)) (k : K) (v : V).

Lemma Map_get_set_eq m k v : Map_get k (Map_set k v m) = Some v.
Proof.
  induction m as [|[k' v'] r IH]; simpl.
  - destruct (decide (k = k)); congruence.
  - destruct (decide (k' = k)) as [->|Hne]; simpl.
    + destruct (decide (k = k)); congruence.
    + destruct (decide (k' = k)); congruence.
Qed.

Lemma Map_get_set_ne m k k' v : k <> k' -> Map_get k' (Map_set k v m) = Map_get k' m.
Proof.
  intros Hne. induction m as [|[k0 v0] r IH]; simpl.
  - destruct (decide (k = k')); congruence.
  - destruct (decide (k0 = k)) as [->|Hk]; simpl.
    + destruct (decide (k = k')); congruence.
    + destruct (decide (k0 = k')); congruence.
Qed.

Lemma Map_has_get m k v : Map_get k m = Some v -> Map_has k m = true.
Proof. intros Hg. unfold Map_has. rewrite Hg. apply bool_decide_eq_true. eauto. Qed.
End MapFacts.

Lemma get_insert_eq (o : obj) k v : get (<[k := v]> o) k = v.
Proof. unfold get. by rewrite lookup_insert_eq. Qed.

Lemma get_insert_ne (o : obj) k k' v : k <> k' -> get (<[k := v]> o) k' = get o k'.
Proof. intros Hne. unfold get. by rewrite lookup_insert_ne. Qed.

Lemma only_keys_lookup ks (body : obj) k :
  only_keys ks body = true -> k ∉ ks -> body !! k = None.
Proof.
  unfold only_keys. intros Hs Hk. apply bool_decide_eq_true in Hs.
  apply not_elem_of_dom. intros Hd. apply Hs in Hd.
  apply elem_of_list_to_set in Hd. contradiction.
Qed.

(** The error of a model call while the database is unreachable. *)
Definition mongo_down : string := "MongooseError".

(** ** The completion date of a task (C1) *)

Section CompletedAt.
Context {P : Platform}.
Import TaskRoutes.

(** The save hook of the model leaves a completion date exactly on the
    completed tasks. *)
Lemma pre_save_completedAt (doc : obj) (now : Z) :
  truthy (get (TaskModel.pre_save doc now) "completedAt")
  = strict_eq (get (TaskModel.pre_save doc now) "status") (VStr "completed").
Proof.
  unfold TaskModel.pre_save. cbv zeta.
  rewrite !(get_insert_ne doc "updatedAt") by discriminate.
  destruct (strict_eq (get doc "status") (VStr "completed")) eqn:Hs;
    destruct (truthy (get doc "completedAt")) eqn:Hc; simpl;
    repeat (rewrite ?get_insert_eq; rewrite ?get_insert_ne by discriminate;
            rewrite ?Hs, ?Hc; simpl);
    reflexivity.
Qed.

(** Neither task schema lets a body carry [completedAt]. *)
Lemma updateTaskSchema_no_completedAt (body : obj) :
  updateTaskSchema body = true -> body !! "completedAt" = None.
Proof.
  unfold updateTaskSchema. intros Hv.
  repeat (apply andb_prop in Hv as [Hv _]).
  apply (only_keys_lookup task_keys); [exact Hv|].
  unfold task_keys. intros Hin. repeat (apply elem_of_cons in Hin as [Hin|Hin]; [discriminate|]).
  by apply elem_of_nil in Hin.
Qed.

Lemma createTaskSchema_no_completedAt (now : Z) (body : obj) :
  createTaskSchema now body = true -> body !! "completedAt" = None.
Proof.
  unfold createTaskSchema. intros Hv.
  repeat (apply andb_prop in Hv as [Hv _]).
  apply (only_keys_lookup task_keys); [exact Hv|].
  unfold task_keys. intros Hin. repeat (apply elem_of_cons in Hin as [Hin|Hin]; [discriminate|]).
  by apply elem_of_nil in Hin.
Qed.

(** An in-memory update whose patch carries a status leaves a completion
    date exactly when that status is [completed]. *)
Lemma updateTask_with_status e id userId (updateData : obj) now st s task st' :
  updateData !! "status" = Some s ->
  updateTask (fun _ _ => Throw e) id userId updateData now st = (Some task, st') ->
  get task "status" = s
  /\ truthy (get task "completedAt") = strict_eq s (VStr "completed").
Proof.
  intros Hs. unfold updateTask.
  destruct (owned _ _) as [t|]; [|discriminate].
  assert (Hget : get updateData "status" = s) by (unfold get; by rewrite Hs).
  assert (Hst : forall v, get (<["completedAt" := v]>
            (assign (assign t updateData) {["updatedAt" := VDate (Some now)]}))
            "status" = s).
  { intros v. rewrite get_insert_ne by discriminate. unfold get, assign.
    rewrite lookup_union_r by (by rewrite lookup_singleton_ne).
    by rewrite (lookup_union_Some_l _ t _ _ Hs). }
  assert (Hst' : get (assign (assign t updateData)
                   {["updatedAt" := VDate (Some now)]}) "status" = s).
  { unfold get, assign.
    rewrite lookup_union_r by (by rewrite lookup_singleton_ne).
    by rewrite (lookup_union_Some_l _ t _ _ Hs). }
  rewrite Hget.
  destruct (strict_eq s (VStr "completed")) eqn:Hc; simpl;
    destruct (truthy (get (assign _ _) "completedAt")) eqn:Ht; simpl;
    intros [= <- <-]; rewrite ?Hst, ?Hst', ?get_insert_eq; auto.
Qed.

(** A requester whose identifier is a number, the kind of identifier the
    owner test of the fallback can tell from another. *)
Definition ann : obj :=
  {[ "id" := VNum 1; "email" := VStr "ann@x.com";
     "name" := VStr "Ann"; "role" := VStr "user" ]}.

(** Ann creates a task while the database is down, then completes it. *)
Definition created : store :=
  (POST_task (inr ann) [] {[ "title" := VStr "Write spec" ]}
             (Throw mongo_down) 1000 initial).2.

Definition completed : store :=
  (PUT_task (inr ann) [] "1" {[ "status" := VStr "completed" ]}
            (fun _ _ => Throw mongo_down) 2000 created).2.

Example completed_has_date :
  exists task, Map_get (VNum 1) (inMemoryTasks completed) = Some task
    /\ get task "status" = VStr "completed"
    /\ get task "completedAt" = VDate (Some 2000).
Proof. eexists. split; [vm_compute; reflexivity|]. split; reflexivity. Qed.

(** C1, at its failing inputs.  Renaming the completed task through
    PUT /api/tasks/1 with the body [{title}] answers 200, keeps the status
    [completed] and stores [completedAt = null]: the completion date is not
    kept on a completed task.  Creating a task with the status [completed]
    through POST /api/tasks stores it with no [completedAt] at all: the
    in-memory creation does not compute the date. *)
Theorem completedAt_not_kept_in_memory :
  (exists task st,
     PUT_task (inr ann) [] "1" {[ "title" := VStr "Write the spec" ]}
              (fun _ _ => Throw mongo_down) 3000 completed
     = (ok 200 (Some "Task updated successfully") (DataTask task), st)
     /\ Map_get (VNum 1) (inMemoryTasks st) = Some task
     /\ get task "status" = VStr "completed"
     /\ get task "completedAt" = VNull)
  /\ (exists task st,
        POST_task (inr ann) [] {[ "title" := VStr "Done"; "status" := VStr "completed" ]}
                  (Throw mongo_down) 1000 initial
        = (ok 201 (Some "Task created successfully") (DataTask task), st)
        /\ Map_get (VNum 1) (inMemoryTasks st) = Some task
        /\ get task "status" = VStr "completed"
        /\ task !! "completedAt" = None).
Proof.
  split.
  - eexists _, _. split; [vm_compute; reflexivity|].
    split; [vm_compute; reflexivity|]. split; reflexivity.
  - eexists _, _. split; [vm_compute; reflexivity|].
    split; [vm_compute; reflexivity|]. split; reflexivity.
Qed.
End CompletedAt.

(** ** Ownership of tasks (C2) *)

Section Ownership.
Context {P : Platform}.
Import TaskModel TaskRoutes.

Definition not_found : response := failure 404 "Task not found".

Lemma owned_foreign t userId :
  loose_eq (get t "user") userId = false -> owned (Some t) userId = None.
Proof. intros Hne. unfold owned. by rewrite Hne. Qed.

(** What is asked of a method of the model that looks for one document, over
    a collection holding [docs]: when the call resolves to a document, some
    document of the collection satisfies the filter of the call.  The call
    may as well resolve to [null], or reject. *)
Definition looks_in (docs : list obj)
    (method : gmap string condition -> completion (option obj)) : Prop :=
  forall filter found,
    method filter = Normal (Some found) ->
    exists d, d ∈ docs /\ Mongoose.satisfies filter d = true.

(** The collection that answers is one of them. *)
Lemma findOne_looks_in docs : looks_in docs (Mongoose.findOne docs).
Proof.
  intros filter found. unfold Mongoose.findOne.
  destruct (Mongoose.castable filter); [|discriminate].
  intros [= Hfind]. apply find_some in Hfind as [Hin Hsat].
  exists found. split; [by apply list_elem_of_In|exact Hsat].
Qed.

(** A document satisfies the filter [{_id, user}] when both equalities
    hold of it. *)
Lemma satisfies_by_id id userId (d : obj) :
  Mongoose.satisfies (by_id id userId) d
  = Mongoose.equals_ObjectId (VStr id) (get d "_id")
    && Mongoose.equals_ObjectId userId (get d "user").
Proof.
  unfold Mongoose.satisfies, by_id.
  assert (Hid : Mongoose.holds d "_id" (Equals (VStr id))
                = Mongoose.equals_ObjectId (VStr id) (get d "_id")) by reflexivity.
  assert (Hu : Mongoose.holds d "user" (Equals userId)
               = Mongoose.equals_ObjectId userId (get d "user")) by reflexivity.
  rewrite <- Hid, <- Hu.
  destruct (Mongoose.holds d "_id" (Equals (VStr id))) eqn:H1;
    destruct (Mongoose.holds d "user" (Equals userId)) eqn:H2;
    cbn [andb]; [apply bool_decide_eq_true_2|apply bool_decide_eq_false_2..].
  - apply map_Forall_insert; [by apply lookup_singleton_ne|].
    split; [exact H1|]. by apply map_Forall_singleton.
  - intros Hall. rewrite (Hall "user" (Equals userId)) in H2; [discriminate|].
    by simplify_map_eq.
  - intros Hall. rewrite (Hall "_id" (Equals (VStr id))) in H1; [discriminate|].
    by simplify_map_eq.
  - intros Hall. rewrite (Hall "_id" (Equals (VStr id))) in H1; [discriminate|].
    by simplify_map_eq.
Qed.

(** In the collection the identifier names no task of the user: every
    document with the identifier belongs to somebody else. *)
Definition not_stored (id : string) (userId : val) (docs : list obj) : Prop :=
  Forall (fun d : obj =>
            Mongoose.equals_ObjectId (VStr id) (get d "_id") = true ->
            Mongoose.equals_ObjectId userId (get d "user") = false) docs.

(** In the in-memory map the identifier names no task of the user: nothing
    is filed under it, or a task whose owner is not [==] the user. *)
Definition not_own (id : string) (userId : val) (st : store) : Prop :=
  match Map_get (parseInt id) (inMemoryTasks st) with
  | Some t => loose_eq (get t "user") userId = false
  | None => True
  end.

Lemma not_own_owned id userId st :
  not_own id userId st ->
  owned (Map_get (parseInt id) (inMemoryTasks st)) userId = None.
Proof.
  unfold not_own. destruct (Map_get _ _) as [t|]; [|reflexivity].
  apply owned_foreign.
Qed.

Lemma not_own_foreign id userId st t :
  Map_get (parseInt id) (inMemoryTasks st) = Some t ->
  loose_eq (get t "user") userId = false -> not_own id userId st.
Proof. intros Hget Hne. unfold not_own. by rewrite Hget. Qed.

Lemma not_own_missing id userId st :
  Map_get (parseInt id) (inMemoryTasks st) = None -> not_own id userId st.
Proof. intros Hget. unfold not_own. by rewrite Hget. Qed.

(** A method that looks in such a collection resolves to no document. *)
Lemma looks_in_vain docs method id userId :
  looks_in docs method -> not_stored id userId docs ->
  forall found, method (by_id id userId) <> Normal (Some found).
Proof.
  intros Hlook Hnot found Hcall.
  destruct (Hlook _ _ Hcall) as (d & Hin & Hsat).
  rewrite satisfies_by_id in Hsat. apply andb_prop in Hsat as [Hid Hu].
  unfold not_stored in Hnot. rewrite Forall_forall in Hnot.
  rewrite (Hnot d Hin Hid) in Hu. discriminate.
Qed.

(** The three helpers return [null] and do not touch the store. *)
Lemma helpers_find_nothing docs findOne findOneAndUpdate findOneAndDelete
    id userId st :
  looks_in docs findOne ->
  (forall update, looks_in docs (fun filter => findOneAndUpdate filter update)) ->
  looks_in docs findOneAndDelete ->
  not_stored id userId docs -> not_own id userId st ->
  findTaskById findOne id userId st = None
  /\ (forall updateData now,
        updateTask findOneAndUpdate id userId updateData now st = (None, st))
  /\ deleteTask findOneAndDelete id userId st = (None, st).
Proof.
  intros H1 H2 H3 Hdocs Hown.
  apply not_own_owned in Hown. unfold findTaskById, updateTask, deleteTask.
  split; [|split].
  - pose proof (looks_in_vain _ _ _ _ H1 Hdocs) as Hv.
    destruct (findOne _) as [[t|]|e]; [by destruct (Hv t)|reflexivity|exact Hown].
  - intros updateData now.
    pose proof (looks_in_vain _ _ _ _ (H2 updateData) Hdocs) as Hv.
    cbv beta in Hv.
    destruct (findOneAndUpdate _ _) as [[t|]|e];
      [by destruct (Hv t)|reflexivity|by rewrite Hown].
  - pose proof (looks_in_vain _ _ _ _ H3 Hdocs) as Hv.
    destruct (findOneAndDelete _) as [[t|]|e];
      [by destruct (Hv t)|reflexivity|by rewrite Hown].
Qed.

(** C2, amended: when the identifier names no task of the requester, a
    task of another user or none at all, in the collection of the model
    (every document with the identifier has another owner) and in the
    in-memory map (nothing is filed under it, or a task of another owner),
    then reading, updating and deleting the task are answered alike in the
    two cases: 404 "Task not found" for GET and DELETE and for a PUT whose
    body passes validation, the validation error for any other PUT, and the
    in-memory store is left as it was.  This holds on either backend: the
    model's methods are called with the filter [{_id, user}], and all that is
    asked of them is that they resolve to a document only when one of the
    collection satisfies the filter. *)
Theorem foreign_task_indistinguishable
    (user : obj) (id : string) (docs : list obj) (st : store)
    (Task_findOne Task_findOneAndDelete :
       gmap string condition -> completion (option obj))
    (Task_findOneAndUpdate :
       gmap string condition -> obj -> completion (option obj))
    (details : list string) (body : obj) (now : Z) :
  looks_in docs Task_findOne ->
  (forall update,
     looks_in docs (fun filter => Task_findOneAndUpdate filter update)) ->
  looks_in docs Task_findOneAndDelete ->
  not_stored id (get user "id") docs ->
  not_own id (get user "id") st ->
  GET_task (inr user) id Task_findOne st = (not_found, st)
  /\ DELETE_task (inr user) id Task_findOneAndDelete st = (not_found, st)
  /\ (PUT_task (inr user) details id body Task_findOneAndUpdate now st).2 = st
  /\ (updateTaskSchema body = true ->
      PUT_task (inr user) details id body Task_findOneAndUpdate now st
      = (not_found, st))
  /\ (updateTaskSchema body = false ->
      PUT_task (inr user) details id body Task_findOneAndUpdate now st
      = ({| status := 400; success := false;
            message := Some "Validation error";
            errors := Some details; data := NoData |}, st)).
Proof.
  intros H1 H2 H3 Hdocs Hown.
  destruct (helpers_find_nothing docs _ _ _ id (get user "id") st
              H1 H2 H3 Hdocs Hown) as (Hf & Hu & Hd).
  unfold GET_task, DELETE_task, PUT_task, protected, validated, validate,
    get_task, delete_task, put_task.
  rewrite Hf, Hd, Hu.
  repeat split; try reflexivity.
  - destruct (updateTaskSchema body); reflexivity.
  - intros ->. reflexivity.
  - intros ->. reflexivity.
Qed.

(** A requester whose identifier is another number. *)
Definition bob : obj :=
  {[ "id" := VNum 2; "email" := VStr "bob@x.com";
     "name" := VStr "Bob"; "role" := VStr "user" ]}.
End Ownership.



(** ** Statistics (C7) *)

Section Statistics.
Context {P : Platform}.
Import TaskRoutes.

Lemma count_cons {A} (f : A -> bool) x l :
  count f (x :: l) = (if f x then 1 else 0) + count f l.
Proof. unfold count. simpl. destruct (f x); simpl length; lia. Qed.

(** Over tasks whose status is one of the three, the three counts add up. *)
Lemma stats_sum_enum now (tasks : list obj) :
  Forall (fun task => get task "status" ∈ VStr <$> statuses) tasks ->
  let s := task_stats now tasks in
  st_completed s + st_inProgress s + st_pending s = st_total s.
Proof.
  simpl. induction 1 as [|task r Hs _ IH].
  - reflexivity.
  - rewrite !count_cons. simpl length. rewrite Nat2Z.inj_succ.
    unfold statuses in Hs. simpl in Hs.
    repeat (apply elem_of_cons in Hs as [->|Hs]; [simpl; lia|]).
    by apply elem_of_nil in Hs.
Qed.

Lemma completionRate_no_tasks completed : completionRate completed 0 = VNum 0.
Proof. reflexivity. Qed.

(** The rate is computed on floats: 29 of 200 is 14.499999999999998 and
    rounds to 14, where the exact quotient 14.5 rounds to 15. *)
Example completionRate_29_of_200 :
  completionRate 29 200 = VNum 14 /\ (2 * (100 * 29) + 200) / (2 * 200) = 15.
Proof. split; vm_compute; reflexivity. Qed.

Example completionRate_1_of_1 : completionRate 1 1 = VNum 100.
Proof. vm_compute. reflexivity. Qed.



End Statistics.

(** ** Decimal numerals

    [parseInt] reads back what [String] prints. *)

Ltac digit_step :=
  cbn [read_digits];
  match goal with
  | |- context [digit_of 10 ?c] =>
      let v := eval vm_compute in (digit_of 10 c) in
      change (digit_of 10 c) with v
  end;
  cbv beta iota; cbn [default]; unfold id.

Lemma read_digits_acc (d : Decimal.uint) (a : positive) :
  read_digits 10 (NilEmpty.string_of_uint d) (Some (Z.pos a))
  = Some (Z.pos (Pos.of_uint_acc d a)).
Proof.
  revert a. induction d; intros a; cbn [NilEmpty.string_of_uint Pos.of_uint_acc];
    [reflexivity|..];
    digit_step; rewrite <- IHd; do 2 f_equal; lia.
Qed.

Lemma read_digits_zero (d : Decimal.uint) :
  read_digits 10 (NilEmpty.string_of_uint d) (Some 0)
  = Some (Z.of_N (Pos.of_uint d)).
Proof.
  induction d; cbn [NilEmpty.string_of_uint Pos.of_uint]; [reflexivity|..];
    digit_step; [exact IHd|..]; apply read_digits_acc.
Qed.

Lemma read_digits_numeral (d : Decimal.uint) :
  d <> Decimal.Nil ->
  read_digits 10 (NilEmpty.string_of_uint d) None
  = Some (Z.of_N (Pos.of_uint d)).
Proof.
  destruct d; [congruence|..]; intros _;
    cbn [NilEmpty.string_of_uint Pos.of_uint];
    digit_step; [apply read_digits_zero|..]; apply read_digits_acc.
Qed.

Lemma parseInt_numeral (d : Decimal.uint) :
  parseInt (NilEmpty.string_of_uint d)
  = match read_digits 10 (NilEmpty.string_of_uint d) None with
    | Some n => VNum n
    | None => VNaN
    end.
Proof.
  destruct d as [|d|d|d|d|d|d|d|d|d|d]; [reflexivity|..];
    destruct d; reflexivity.
Qed.

(** [parseInt(String(n)) = n] for an integer [n >= 0]. *)
Lemma parseInt_string_of_Z (n : Z) : 0 <= n -> parseInt (string_of_Z n) = VNum n.
Proof.
  intros Hn. destruct n as [|p|p]; [reflexivity| |lia].
  assert (Hd : Pos.to_uint p <> Decimal.Nil).
  { intros Hnil. pose proof (DecimalPos.Unsigned.of_to p) as Hp. rewrite Hnil in Hp. discriminate. }
  assert (Hs : NilZero.string_of_uint (Pos.to_uint p)
               = NilEmpty.string_of_uint (Pos.to_uint p)).
  { destruct (Pos.to_uint p); [congruence|reflexivity..]. }
  change (parseInt (NilZero.string_of_uint (Pos.to_uint p)) = VNum (Z.pos p)).
  rewrite Hs, parseInt_numeral, read_digits_numeral by exact Hd.
  by rewrite DecimalPos.Unsigned.of_to.
Qed.

Lemma decimal_digits_cons c s :
  decimal_digits (String c s)
  = ((48 <=? code c) && (code c <=? 57))
    && forallb (fun c => (48 <=? code c) && (code c <=? 57)) (list_ascii_of_string s).
Proof. reflexivity. Qed.

Lemma digits_numeral (d : Decimal.uint) :
  forallb (fun c => (48 <=? code c) && (code c <=? 57))
          (list_ascii_of_string (NilEmpty.string_of_uint d)) = true.
Proof.
  induction d; cbn [NilEmpty.string_of_uint list_ascii_of_string forallb];
    [reflexivity|..]; rewrite IHd; reflexivity.
Qed.

Lemma decimal_digits_numeral (d : Decimal.uint) :
  d <> Decimal.Nil -> decimal_digits (NilEmpty.string_of_uint d) = true.
Proof.
  destruct d; [congruence|..]; intros _; cbn [NilEmpty.string_of_uint];
    rewrite decimal_digits_cons, digits_numeral; reflexivity.
Qed.

(** [Number(String(n)) = n] for an integer [n] from 0 to 2^53. *)
Lemma StringToNumber_string_of_Z {P : Platform} (n : Z) :
  0 <= n <= 2 ^ 53 -> StringToNumber (string_of_Z n) = Int n.
Proof.
  intros Hn. destruct n as [|p|p]; [reflexivity| |lia].
  assert (Hd : Pos.to_uint p <> Decimal.Nil).
  { intros Hnil. pose proof (DecimalPos.Unsigned.of_to p) as Hp.
    rewrite Hnil in Hp. discriminate. }
  assert (Hs : string_of_Z (Z.pos p) = NilEmpty.string_of_uint (Pos.to_uint p)).
  { change (NilZero.string_of_uint (Pos.to_uint p)
            = NilEmpty.string_of_uint (Pos.to_uint p)).
    destruct (Pos.to_uint p); [congruence|reflexivity..]. }
  unfold StringToNumber.
  rewrite Hs, decimal_digits_numeral, read_digits_numeral by exact Hd.
  rewrite DecimalPos.Unsigned.of_to. cbn [Z.of_N].
  unfold safe. destruct (Z.leb_spec (Z.abs (Z.pos p)) (2 ^ 53)); [reflexivity|lia].
Qed.

(** ** Pagination (C9) *)

Section Pagination.
Context {P : Platform}.
Import TaskRoutes.

(** With both ends in order and not negative, [slice] drops [s] elements
    and keeps the next [e - s]. *)
Lemma slice_skip_take {A} (l : list A) (s e : Z) :
  0 <= s <= e ->
  slice l s e = firstn (Z.to_nat (e - s)) (skipn (Z.to_nat s) l).
Proof.
  intros Hse. unfold slice, rel_index.
  set (len := Z.of_nat (length l)).
  assert (Hlen : 0 <= len) by (unfold len; lia).
  destruct (s <? 0) eqn:Hs; [lia|]. destruct (e <? 0) eqn:He; [lia|].
  destruct (Z_le_gt_dec len s) as [Hls|Hls].
  - rewrite (Z.min_r s len) by lia.
    rewrite !skipn_all2 by (unfold len in *; lia).
    by rewrite !firstn_nil.
  - rewrite (Z.min_l s len) by lia.
    destruct (Z_le_gt_dec e len) as [Hel|Hel].
    + rewrite (Z.min_l e len) by lia. by rewrite Z.max_l by lia.
    + rewrite (Z.min_r e len) by lia. rewrite Z.max_l by lia.
      rewrite !firstn_all2; [reflexivity| |];
        rewrite length_skipn; unfold len in *; lia.
Qed.

(** [ceil_div n l] is the least number of pages of size [l] holding [n]. *)
Lemma ceil_div_spec n l :
  1 <= l -> exists c, ceil_div n l = Int c /\ l * (c - 1) < n <= l * c.
Proof.
  intros Hl. unfold ceil_div. destruct (l =? 0) eqn:H0; [lia|].
  eexists. split; [reflexivity|].
  pose proof (Z.div_mod (- n) l) as Hdm.
  pose proof (Z.mod_pos_bound (- n) l) as Hb. lia.
Qed.

(** The parameter [k] of the query string is the decimal numeral of [n],
    or it is absent and [n] is the default [d]. *)
Definition numeral_or_default (query : obj) (k : string) (d n : Z) : Prop :=
  get query k = VStr (string_of_Z n) \/ (get query k = VUndef /\ n = d).

(** Such a parameter is read as [n], by [ToNumber] and by [parseInt]. *)
Lemma numeral_or_default_read query k d n :
  numeral_or_default query k d n -> 0 <= n <= 2 ^ 53 ->
  ToNumber (or_default (get query k) (VNum d)) = Int n
  /\ parseInt (ToString (or_default (get query k) (VNum d))) = VNum n.
Proof.
  intros [Hk|[Hk ->]] Hn; rewrite Hk; cbn [or_default ToNumber ToString].
  - split; [by apply StringToNumber_string_of_Z|apply parseInt_string_of_Z; lia].
  - split; [|apply parseInt_string_of_Z; lia].
    unfold safe. destruct (Z.leb_spec (Z.abs d) (2 ^ 53)); [reflexivity|lia].
Qed.

Lemma num_sub_Int a b : safe (a - b) = true -> num_sub (Int a) (Int b) = Int (a - b).
Proof. intros Hs. unfold num_sub, num_op. by rewrite Hs. Qed.

Lemma num_mul_Int a b : safe (a * b) = true -> num_mul (Int a) (Int b) = Int (a * b).
Proof. intros Hs. unfold num_mul, num_op. by rewrite Hs. Qed.

Lemma safe_range n : - 2 ^ 53 <= n <= 2 ^ 53 -> safe n = true.
Proof. intros Hn. unfold safe. apply Z.leb_le. lia. Qed.

(** The answer for the numerals of a page [p >= 1] and a size [l >= 1]. *)
Lemma GET_tasks_page user query p l mongo st tasks :
  let items := firstn (Z.to_nat l) (skipn (Z.to_nat ((p - 1) * l)) tasks) in
  numeral_or_default query "page" 1 p ->
  numeral_or_default query "limit" 10 l ->
  findUserTasks mongo (get user "id") (build_filter query) st = Normal tasks ->
  1 <= p -> 1 <= l -> p * l < 2 ^ 53 ->
  GET_tasks (inr user) query mongo st
  = (ok 200 None
       (DataTasks items
          {| pg_current := VNum p;
             pg_total := ceil_div (Z.of_nat (length tasks)) l;
             pg_count := Z.of_nat (length items);
             pg_totalTasks := Z.of_nat (length tasks) |}), st).
Proof.
  intros items Hpage Hlimit Hfind Hp Hl Hrange.
  destruct (numeral_or_default_read _ _ _ _ Hpage) as [Hpn Hpi]; [nia|].
  destruct (numeral_or_default_read _ _ _ _ Hlimit) as [Hln _]; [nia|].
  unfold GET_tasks, protected, get_tasks. rewrite Hfind, Hpn, Hpi, Hln.
  rewrite num_sub_Int by (apply safe_range; nia).
  rewrite !num_mul_Int by (apply safe_range; nia).
  cbn [to_index Math_ceil_quotient].
  rewrite slice_skip_take by nia.
  replace (p * l - (p - 1) * l) with l by lia. reflexivity.
Qed.

(** C9, amended: when the filtered, sorted list is [tasks] and the
    parameters [page] and [limit] of the query string are the decimal
    numerals of integers [p >= 1] and [l >= 1] (an absent parameter standing
    for 1 and for 10), with [p*l] in the range where JavaScript counts
    exactly, the page holds exactly the elements of [tasks] from index
    [(p-1)*l] up to, not including, [p*l]; the pagination object gives
    [current = p], [total] the least [c] with [tasks.length <= l*c], [count]
    the length of the page and [totalTasks] the length of [tasks]. *)
Theorem pagination_slices_filtered_list
    (user query : obj) (p l : Z)
    (mongo : completion (list obj)) (st : store) (tasks : list obj) :
  let items := firstn (Z.to_nat l) (skipn (Z.to_nat ((p - 1) * l)) tasks) in
  numeral_or_default query "page" 1 p ->
  numeral_or_default query "limit" 10 l ->
  findUserTasks mongo (get user "id") (build_filter query) st = Normal tasks ->
  1 <= p -> 1 <= l -> p * l < 2 ^ 53 ->
  exists c,
    GET_tasks (inr user) query mongo st
    = (ok 200 None
         (DataTasks items
            {| pg_current := VNum p;
               pg_total := Int c;
               pg_count := Z.of_nat (length items);
               pg_totalTasks := Z.of_nat (length tasks) |}), st)
    /\ l * (c - 1) < Z.of_nat (length tasks) <= l * c
    /\ (forall i : nat, items !! i = tasks !! (Z.to_nat ((p - 1) * l) + i)%nat
                        \/ (Z.to_nat l <= i)%nat /\ items !! i = None).
Proof.
  intros items Hpage Hlimit Hfind Hp Hl Hrange.
  destruct (ceil_div_spec (Z.of_nat (length tasks)) l Hl) as (c & Hc & Hbound).
  exists c. split; [|split; [exact Hbound|]].
  - rewrite <- Hc. by apply GET_tasks_page.
  - intros i. destruct (Nat.lt_ge_cases i (Z.to_nat l)) as [Hi|Hi].
    + left. unfold items. rewrite lookup_take_lt by exact Hi.
      apply lookup_drop.
    + right. split; [exact Hi|]. unfold items.
      apply lookup_take_ge. exact Hi.
Qed.

(** The page as the specification words it, for any integers: the
    elements from index [(p-1)*l] up to, not including, [p*l]. *)
Definition page_as_specified {A} (tasks : list A) (p l : Z) : list A :=
  firstn (Z.to_nat (p * l - (p - 1) * l)) (skipn (Z.to_nat ((p - 1) * l)) tasks).
End Pagination.


(** ** The profile update (C10) *)

Section Profile.
Context {P : Platform}.
Import UserRoutes.

Definition profile_fields : list string := ["name"; "avatar"; "updatedAt"].

(** What an update may change in a stored user: nothing but the three
    fields; the entry keeps its key and its place. *)
Definition same_but_profile (old new : string * obj) : Prop :=
  old.1 = new.1 /\ forall k, k ∉ profile_fields -> new.2 !! k = old.2 !! k.

Lemma profile_patch_dom (body : obj) :
  dom (profile_patch body) ⊆ ({["name"; "avatar"]} : gset string).
Proof.
  unfold profile_patch.
  intros k. rewrite elem_of_union, !elem_of_singleton.
  destruct (bool_decide (get body "avatar" = VUndef));
    destruct (bool_decide (get body "name" = VUndef));
    rewrite ?dom_insert_L, ?dom_empty_L, ?elem_of_union, ?elem_of_singleton,
      ?elem_of_empty; tauto.
Qed.

Lemma profile_patch_lookup (body : obj) k :
  k ∉ profile_fields -> profile_patch body !! k = None.
Proof.
  intros Hk. apply not_elem_of_dom. intros Hd.
  apply profile_patch_dom in Hd. apply Hk. unfold profile_fields.
  apply elem_of_union in Hd as [Hd|Hd]; apply elem_of_singleton in Hd as ->;
    repeat constructor.
Qed.

Lemma update_first_frame id (updateData : obj) now m :
  (forall k, k ∉ profile_fields -> updateData !! k = None) ->
  Forall2 same_but_profile m (update_first id updateData now m).2.
Proof.
  intros Hpatch. induction m as [|[email user] r IH]; simpl.
  - constructor.
  - destruct (loose_eq (get user "_id") id).
    + simpl. constructor.
      * split; [reflexivity|]. simpl. intros k Hk. unfold assign.
        rewrite lookup_union_r.
        -- rewrite lookup_union_r; [reflexivity|]. by apply Hpatch.
        -- apply lookup_singleton_ne. intros <-. apply Hk.
           unfold profile_fields. repeat constructor.
      * apply Forall2_same_length_lookup_2; [reflexivity|].
        intros i x y Hx Hy. rewrite Hx in Hy. injection Hy as <-.
        split; [reflexivity|]. reflexivity.
    + destruct (update_first id updateData now r) as [res r'] eqn:Hr.
      simpl in *. constructor; [|exact IH].
      split; reflexivity.
Qed.

(** The profile schema admits no key but [name] and [avatar]. *)
Lemma updateProfileSchema_keys (body : obj) :
  updateProfileSchema body = true ->
  dom body ⊆ ({["name"; "avatar"]} : gset string).
Proof.
  unfold updateProfileSchema. intros Hv.
  repeat (apply andb_prop in Hv as [Hv _]).
  unfold only_keys in Hv. apply bool_decide_eq_true in Hv.
  intros k Hk. apply Hv in Hk. rewrite elem_of_list_to_set in Hk.
  rewrite elem_of_union, !elem_of_singleton.
  repeat (apply elem_of_cons in Hk as [Hk|Hk]; [tauto|]).
  by apply elem_of_nil in Hk.
Qed.

(** C10: PUT /api/users/profile builds its patch from [name] and
    [avatar] alone; the schema admits no other key, and a rejected body
    leaves the store as it was; on the in-memory store every entry keeps its
    key and its place, and every field but [name], [avatar] and [updatedAt]
    keeps its value (so do email, role, password, isActive, createdAt). *)
Theorem profile_update_frame
    (auth : response + obj) (details : list string) (body : obj)
    (e : string) (now : Z) (st : store) :
  dom (profile_patch body) ⊆ ({["name"; "avatar"]} : gset string)
  /\ (updateProfileSchema body = true ->
      dom body ⊆ ({["name"; "avatar"]} : gset string))
  /\ (updateProfileSchema body = false ->
      forall mongo, (PUT_profile auth details body mongo now st).2 = st)
  /\ Forall2 same_but_profile
       (inMemoryUsers st)
       (inMemoryUsers (PUT_profile auth details body (Throw e) now st).2)
  /\ Forall2 (fun old new =>
       old.1 = new.1 /\
       Forall (fun k => new.2 !! k = old.2 !! k)
              ["_id"; "email"; "role"; "password"; "isActive"; "createdAt"; "lastLogin"])
       (inMemoryUsers st)
       (inMemoryUsers (PUT_profile auth details body (Throw e) now st).2).
Proof.
  assert (Hframe : Forall2 same_but_profile (inMemoryUsers st)
            (inMemoryUsers (PUT_profile auth details body (Throw e) now st).2)).
  { unfold PUT_profile, protected, validated, validate.
    assert (Hid : Forall2 same_but_profile (inMemoryUsers st) (inMemoryUsers st)).
    { apply Forall2_same_length_lookup_2; [reflexivity|].
      intros i x y Hx Hy. rewrite Hx in Hy. injection Hy as <-.
      split; reflexivity. }
    destruct auth as [r|user]; [exact Hid|].
    destruct (updateProfileSchema body); [|exact Hid].
    unfold put_profile, updateUser.
    pose proof (update_first_frame (get user "id") (profile_patch body) now
                  (inMemoryUsers st) (profile_patch_lookup body)) as Hu.
    destruct (update_first _ _ _ _) as [[u|] m]; exact Hu. }
  split; [apply profile_patch_dom|].
  split; [apply updateProfileSchema_keys|].
  split.
  { intros Hrej mongo. unfold PUT_profile, protected, validated, validate.
    rewrite Hrej. destruct auth; reflexivity. }
  split; [exact Hframe|].
  eapply Forall2_impl; [exact Hframe|].
  intros old new [Hk Hf]. split; [exact Hk|].
  repeat (apply Forall_cons; split;
          [apply Hf; unfold profile_fields; intros Hin;
           repeat (apply elem_of_cons in Hin as [Hin|Hin]; [discriminate|]);
           by apply elem_of_nil in Hin|]).
  constructor.
Qed.

(** The store's own [updateUser] is not so confined: the deactivation
    route changes [isActive] through it. *)
Example deactivation_changes_isActive :
  (inMemoryUsers
     (DELETE_profile (inr ann) (Throw mongo_down) 9000
        {| inMemoryUsers := [("ann@x.com", {[ "_id" := VNum 1; "isActive" := VBool true ]})] |}).2)
  = [("ann@x.com", {[ "_id" := VNum 1; "isActive" := VBool false;
                       "updatedAt" := VDate (Some 9000) ]})].
Proof. vm_compute. reflexivity. Qed.
End Profile.

(** ** The authentication middleware (C5) *)

Section Authentication.
Context {P : Platform}.

Definition no_token : response := failure 401 "Access denied. No token provided.".
Definition bad_format : response := failure 401 "Access denied. Invalid token format.".
Definition no_user : response := failure 401 "User not found or inactive.".

(** The header carries a bearer token: it starts with [Bearer ] and
    something follows. *)
Definition bearer (authHeader : option string) (token : string) : Prop :=
  exists h, authHeader = Some h /\ startsWith "Bearer " h = true
            /\ token = substring_from 7 h /\ token <> "".

Lemma startsWith_nonempty p h :
  p <> "" -> startsWith p h = true -> String.eqb h "" = false.
Proof. destruct p; [congruence|]. destruct h; [discriminate|reflexivity]. Qed.

Lemma req_user_dom (user : obj) :
  dom (req_user user) = ({["id"; "email"; "name"; "role"]} : gset string).
Proof. unfold req_user. rewrite !dom_insert_L, dom_singleton_L. reflexivity. Qed.

Lemma req_user_fields (user : obj) :
  req_user user !! "id" = Some (get user "_id")
  /\ req_user user !! "email" = Some (get user "email")
  /\ req_user user !! "name" = Some (get user "name")
  /\ req_user user !! "role" = Some (get user "role").
Proof. unfold req_user. repeat split; by simplify_map_eq. Qed.

(** What the middleware does once the header carries a token. *)
Lemma authenticate_bearer authHeader token now User_findById :
  bearer authHeader token ->
  authenticate authHeader now User_findById =
    match let! decoded := jwt_verify token JWT_SECRET now in
          User_findById (get decoded "id") with
    | Normal (Some user) =>
        if truthy (get user "isActive") then inr (req_user user)
        else inl no_user
    | Normal None => inl no_user
    | Throw name =>
        if String.eqb name "JsonWebTokenError" then inl (failure 401 "Invalid token.")
        else if String.eqb name "TokenExpiredError" then inl (failure 401 "Token expired.")
        else inl (failure 500 "Token verification failed.")
    end.
Proof.
  intros (h & -> & Hpre & -> & Hne). unfold authenticate.
  rewrite (startsWith_nonempty "Bearer " h) by (done || exact Hpre).
  rewrite Hpre. cbn [negb orb].
  destruct (String.eqb (substring_from 7 h) "") eqn:He; [|reflexivity].
  apply String.eqb_eq in He. contradiction.
Qed.

(** C5: [authenticate] answers 401 when the Authorization header is
    absent, does not start with [Bearer ], or carries nothing after it; 401
    when the token verifies but the model finds no user for the decoded
    identifier or finds one whose [isActive] is false; on success it calls
    [next] with [req.user] holding exactly [id], [email], [name] and [role]
    of the user found.  It calls [next] in no other case, and every response
    it sends itself has [success = false] and status 401 or 500. *)
Theorem authenticate_spec
    (authHeader : option string) (now : Z)
    (User_findById : val -> completion (option obj)) :
  let result := authenticate authHeader now User_findById in
  (authHeader = None -> result = inl no_token)
  /\ (forall h, authHeader = Some h -> startsWith "Bearer " h = false ->
        result = inl no_token)
  /\ (forall h, authHeader = Some h -> startsWith "Bearer " h = true ->
        substring_from 7 h = "" -> result = inl bad_format)
  /\ (forall token decoded, bearer authHeader token ->
        jwt_verify token JWT_SECRET now = Normal decoded ->
        (User_findById (get decoded "id") = Normal None -> result = inl no_user)
        /\ (forall user, User_findById (get decoded "id") = Normal (Some user) ->
              truthy (get user "isActive") = false -> result = inl no_user)
        /\ (forall user, User_findById (get decoded "id") = Normal (Some user) ->
              truthy (get user "isActive") = true ->
              result = inr (req_user user)
              /\ dom (req_user user) = ({["id"; "email"; "name"; "role"]} : gset string)
              /\ req_user user !! "id" = Some (get user "_id")
              /\ req_user user !! "email" = Some (get user "email")
              /\ req_user user !! "name" = Some (get user "name")
              /\ req_user user !! "role" = Some (get user "role")))
  /\ (forall attached, result = inr attached ->
        exists token decoded user,
          bearer authHeader token
          /\ jwt_verify token JWT_SECRET now = Normal decoded
          /\ User_findById (get decoded "id") = Normal (Some user)
          /\ truthy (get user "isActive") = true
          /\ attached = req_user user)
  /\ (forall r, result = inl r ->
        success r = false /\ (status r = 401 \/ status r = 500)).
Proof.
  intros result. subst result.
  split; [intros ->; reflexivity|].
  split.
  { intros h -> Hpre. unfold authenticate. rewrite Hpre.
    by rewrite orb_true_r. }
  split.
  { intros h -> Hpre He. unfold authenticate.
    rewrite (startsWith_nonempty "Bearer " h) by (done || exact Hpre).
    rewrite Hpre, He. reflexivity. }
  split.
  { intros token decoded Hb Hv.
    rewrite (authenticate_bearer _ _ _ _ Hb), Hv. cbn [bind].
    split; [intros ->; reflexivity|].
    split; [intros user -> ->; reflexivity|].
    intros user -> ->. split; [reflexivity|].
    split; [apply req_user_dom|apply req_user_fields]. }
  split.
  { intros attached. unfold authenticate.
    destruct authHeader as [h|]; [|discriminate].
    destruct (String.eqb h "") eqn:Hh; [discriminate|].
    destruct (startsWith "Bearer " h) eqn:Hpre; [|discriminate]. cbn [negb orb].
    destruct (String.eqb (substring_from 7 h) "") eqn:He; [discriminate|].
    destruct (jwt_verify _ _ _) as [decoded|name] eqn:Hv; cbn [bind].
    - destruct (User_findById _) as [[user|]|name] eqn:Hf.
      + destruct (truthy _) eqn:Ha; [|discriminate].
        intros [= <-]. exists (substring_from 7 h), decoded, user.
        repeat split; try assumption.
        exists h. repeat split; try assumption.
        intros Heq. rewrite Heq in He. discriminate.
      + discriminate.
      + repeat destruct (String.eqb _ _); discriminate.
    - repeat destruct (String.eqb _ _); discriminate. }
  intros r. unfold authenticate.
  destruct authHeader as [h|]; [|intros [= <-]; simpl; auto].
  destruct (_ || _); [intros [= <-]; simpl; auto|].
  destruct (String.eqb _ _); [intros [= <-]; simpl; auto|].
  destruct (bind _ _) as [[user|]|name].
  - destruct (truthy _); [discriminate|intros [= <-]; simpl; auto].
  - intros [= <-]; simpl; auto.
  - repeat destruct (String.eqb _ _); intros [= <-]; simpl; auto.
Qed.
End Authentication.

(** ** Registration and login (C3, C4) *)

Section Registration.
Context {P : Platform}.
Import AuthRoutes.

(** The record the in-memory [createUser] stores. *)
Definition new_user (name : val) (email hashed : string) (id now : Z) : obj :=
  {[ "_id" := VNum id; "name" := name; "email" := VStr (toLowerCase email);
     "password" := VStr hashed; "role" := VStr "user";
     "isActive" := VBool true; "createdAt" := VDate (Some now);
     "updatedAt" := VDate (Some now) ]}.

Definition duplicate_email : response :=
  failure 400 "User with this email already exists".

Lemma new_user_fields name email hashed id now :
  get (new_user name email hashed id now) "isActive" = VBool true
  /\ get (new_user name email hashed id now) "password" = VStr hashed
  /\ get (new_user name email hashed id now) "_id" = VNum id.
Proof. repeat split; reflexivity. Qed.

(** Whether a token can be issued for a payload does not depend on the
    clock. *)
Lemma generateToken_any_time payload now now' token :
  generateToken payload now = Normal token ->
  exists token', generateToken payload now' = Normal token'.
Proof.
  unfold generateToken, jwt_sign.
  destruct (negb _); [discriminate|].
  destruct (bool_decide _); [discriminate|].
  destruct (ms _); [|discriminate]. eauto.
Qed.

(** A registration answered 201 on the in-memory store: what the body
    held and what the store holds afterwards. *)
Lemma register_created body e1 e2 salt now st r st1 :
  register body (Throw e1) (Throw e2) salt now st = (r, st1) ->
  status r = 201 ->
  exists email pw token,
    get body "email" = VStr email
    /\ get body "password" = VStr pw
    /\ Map_get (toLowerCase email) (inMemoryUsers st) = None
    /\ let user := new_user (get body "name") email (bcrypt_hash salt pw)
                            (userCounter st) now in
       generateToken {[ "id" := VNum (userCounter st) ]} now = Normal token
       /\ r = ok 201 (Some "User registered successfully")
                (DataUserToken (delete "password" user) token)
       /\ st1 = {| inMemoryUsers := Map_set (toLowerCase email) user (inMemoryUsers st);
                   userCounter := userCounter st + 1 |}.
Proof.
  unfold register, findUserByEmail.
  destruct (get body "email") as [| | | | | |email| | |] eqn:Hemail;
    try (intros [= <- <-]; discriminate).
  destruct (Map_get (toLowerCase email) (inMemoryUsers st)) eqn:Hget;
    [intros [= <- <-]; discriminate|].
  cbn [fmap option_fmap option_map].
  unfold createUser.
  change (get {[ "name" := get body "name"; "email" := VStr email;
                 "password" := get body "password" ]} "password")
    with (get body "password").
  change (get {[ "name" := get body "name"; "email" := VStr email;
                 "password" := get body "password" ]} "email")
    with (VStr email).
  change (get {[ "name" := get body "name"; "email" := VStr email;
                 "password" := get body "password" ]} "name")
    with (get body "name").
  destruct (get body "password") as [| | | | | |pw| | |] eqn:Hpw;
    try (intros [= <- <-]; discriminate).
  match goal with
  | |- context [generateToken ?p now] =>
      change p with ({[ "id" := VNum (userCounter st) ]} : obj)
  end.
  destruct (generateToken _ now) as [token|] eqn:Htok;
    [|intros [= <- <-]; discriminate].
  intros [= <- <-] _. exists email, pw, token.
  repeat split; try assumption; reflexivity.
Qed.
Lemma POST_register_created details body e1 e2 salt now st r st1 :
  POST_register details body (Throw e1) (Throw e2) salt now st = (r, st1) ->
  status r = 201 ->
  registerSchema body = true
  /\ register body (Throw e1) (Throw e2) salt now st = (r, st1).
Proof.
  unfold POST_register, validated, validate.
  destruct (registerSchema body); [auto|].
  intros [= <- <-]; discriminate.
Qed.

(** C4, amended: after a registration served by the in-memory store and
    answered 201, a further POST /api/auth/register whose email is the same
    up to letter case, and whose lookup is served by the in-memory store as
    well (the model call failing again), is answered 400 and leaves the store
    as it is; when its body passes validation the answer is "User with this
    email already exists". *)
Theorem duplicate_email_rejected
    (details : list string) (body : obj) (e1 e2 : string) (salt now : Z)
    (st st1 : store) (r : response) :
  POST_register details body (Throw e1) (Throw e2) salt now st = (r, st1) ->
  status r = 201 ->
  exists email,
    get body "email" = VStr email
    /\ forall details2 body2 email2 e3 mongo_create salt2 now2,
         get body2 "email" = VStr email2 ->
         toLowerCase email2 = toLowerCase email ->
         let second :=
           POST_register details2 body2 (Throw e3) mongo_create salt2 now2 st1 in
         status second.1 = 400 /\ success second.1 = false /\ second.2 = st1
         /\ (registerSchema body2 = true -> second.1 = duplicate_email).
Proof.
  intros Hreg Hst.
  destruct (POST_register_created _ _ _ _ _ _ _ _ _ Hreg Hst) as [_ Hreg'].
  destruct (register_created _ _ _ _ _ _ _ _ Hreg' Hst)
    as (email & pw & token & Hemail & _ & _ & _ & _ & ->).
  exists email. split; [exact Hemail|].
  intros details2 body2 email2 e3 mongo_create salt2 now2 Hemail2 Hlow.
  unfold POST_register, validated, validate.
  destruct (registerSchema body2); [|simpl; auto using eq_sym; split; auto; split; auto; split; auto; discriminate].
  unfold register, findUserByEmail. rewrite Hemail2, Hlow. cbn [inMemoryUsers].
  rewrite Map_get_set_eq. simpl. auto.
Qed.

(** *** No response carries the password *)

Definition user_objects (d : payload) : list obj :=
  match d with
  | DataUser user | DataUserToken user _ => [user]
  | DataUsers users _ => users
  | _ => []
  end.

Definition hides_password (r : response) : Prop :=
  Forall (fun user : obj => user !! "password" = None) (user_objects (data r)).

Lemma hides_failure code msg : hides_password (failure code msg).
Proof. constructor. Qed.

Lemma hides_deleted code msg (user : obj) :
  hides_password (ok code msg (DataUser (delete "password" user))).
Proof. repeat constructor. apply lookup_delete_eq. Qed.

Lemma hides_deleted_token code msg (user : obj) token :
  hides_password (ok code msg (DataUserToken (delete "password" user) token)).
Proof. repeat constructor. apply lookup_delete_eq. Qed.

#[local] Hint Resolve hides_failure hides_deleted hides_deleted_token : core.

Lemma register_hides body mongo_find e salt now st :
  hides_password (register body mongo_find (Throw e) salt now st).1.
Proof.
  unfold register.
  destruct (findUserByEmail _ _ _) as [[u|]|]; simpl; auto.
  unfold createUser.
  destruct (get _ "password"); simpl; auto.
  destruct (get _ "email"); simpl; auto.
  destruct (generateToken _ _); simpl; auto.
Qed.

Lemma login_hides body mongo_find now st :
  hides_password (login body mongo_find now st).1.
Proof.
  unfold login.
  destruct (findUserByEmail _ _ _) as [[u|]|]; simpl; auto.
  destruct (negb _); simpl; auto.
  destruct (verifyPassword _ _ _) as [[|]|]; simpl; auto.
  destruct u as [d|o].
  - destruct (save d); simpl; auto.
    destruct (generateToken _ _); simpl; auto.
  - destruct (get body "email"); simpl; auto.
    destruct (Map_has _ _); destruct (generateToken _ _); simpl; auto.
Qed.

Lemma me_hides user mongo_find st : hides_password (me user mongo_find st).
Proof.
  unfold me. destruct (findUserByEmail _ _ _) as [[[d|o]|]|]; simpl; auto.
Qed.

Lemma verify_hides (user : obj) : hides_password (verify (req_user user)).
Proof. repeat constructor. Qed.

Lemma get_profile_hides user mongo st :
  hides_password (UserRoutes.get_profile user mongo st).
Proof.
  unfold UserRoutes.get_profile.
  destruct (UserRoutes.findUserById _ _ _) as [[d|o]|]; simpl; auto.
Qed.

Lemma update_first_hides id updateData now m user :
  (UserRoutes.update_first id updateData now m).1 = Some user ->
  user !! "password" = None.
Proof.
  induction m as [|[email u] r IH]; simpl; [discriminate|].
  destruct (loose_eq _ _); simpl.
  - intros [= <-]. apply lookup_delete_eq.
  - destruct (UserRoutes.update_first id updateData now r). exact IH.
Qed.

Lemma put_profile_hides user body e now st :
  hides_password (UserRoutes.put_profile user body (Throw e) now st).1.
Proof.
  unfold UserRoutes.put_profile, UserRoutes.updateUser.
  pose proof (update_first_hides (get user "id") (UserRoutes.profile_patch body)
                now (UserRoutes.inMemoryUsers st)) as Hu.
  destruct (UserRoutes.update_first _ _ _ _) as [[u|] m]; simpl; auto.
  repeat constructor. by apply Hu.
Qed.

Lemma get_users_hides e st : hides_password (UserRoutes.get_users (Throw e) st).
Proof.
  unfold UserRoutes.get_users, hides_password. simpl.
  apply Forall_forall. intros u Hu. apply list_elem_of_In in Hu.
  apply in_map_iff in Hu as (o & <- & _). apply lookup_delete_eq.
Qed.
(** The body of a login with the credentials of a registration. *)
Definition credentials (body : obj) : obj :=
  {[ "email" := get body "email"; "password" := get body "password" ]}.

Lemma credentials_valid body email pw :
  registerSchema body = true ->
  get body "email" = VStr email -> get body "password" = VStr pw ->
  loginSchema (credentials body) = true.
Proof.
  unfold registerSchema, loginSchema. intros Hv Hemail Hpw.
  apply andb_prop in Hv as [Hv Hp]. apply andb_prop in Hv as [Hv He].
  change (get (credentials body) "email") with (get body "email").
  change (get (credentials body) "password") with (get body "password").
  rewrite Hemail, Hpw in *. simpl in He, Hp |- *.
  rewrite He. rewrite andb_true_r.
  destruct (String.eqb pw ""); [discriminate|].
  rewrite andb_true_r. unfold only_keys, credentials.
  vm_compute. reflexivity.
Qed.

(** C3, amended: a registration served by the in-memory store and answered
    201 returns a user object without a [password] field, and a login with
    the same email and password, served by the in-memory store as well (the
    model call failing again), at any later time, is answered 200 "Login
    successful" with a token and a user object without a [password] field.
    Moreover no user object in a response of the register, login, me, verify,
    get-profile, put-profile and list-users routes has a [password] field
    (register, put-profile and list-users: when served by the in-memory
    store; the others: whichever store answers). *)
Theorem registered_user_can_log_in
    (details : list string) (body : obj) (e1 e2 : string) (salt now : Z)
    (st st1 : store) (r : response) :
  POST_register details body (Throw e1) (Throw e2) salt now st = (r, st1) ->
  status r = 201 ->
  (exists user token,
      data r = DataUserToken user token /\ user !! "password" = None)
  /\ (forall details' e3 now',
        exists user' token' st2,
          POST_login details' (credentials body) (Throw e3) now' st1
          = (ok 200 (Some "Login successful") (DataUserToken user' token'), st2)
          /\ user' !! "password" = None)
  /\ (forall body' mongo_find mongo_user e salt' now' st' (ust : UserRoutes.store)
             (who account : obj),
        hides_password (register body' mongo_find (Throw e) salt' now' st').1
        /\ hides_password (login body' mongo_find now' st').1
        /\ hides_password (me who mongo_find st')
        /\ hides_password (verify (req_user account))
        /\ hides_password (UserRoutes.get_profile who mongo_user ust)
        /\ hides_password (UserRoutes.put_profile who body' (Throw e) now' ust).1
        /\ hides_password (UserRoutes.get_users (Throw e) ust)).
Proof.
  intros Hreg Hst.
  destruct (POST_register_created _ _ _ _ _ _ _ _ _ Hreg Hst) as [Hvalid Hreg'].
  destruct (register_created _ _ _ _ _ _ _ _ Hreg' Hst)
    as (email & pw & token & Hemail & Hpw & _ & Htok & -> & ->).
  split.
  { eexists _, _. split; [reflexivity|]. apply lookup_delete_eq. }
  split.
  { intros details' e3 now'.
    destruct (generateToken_any_time _ _ now' _ Htok) as [token' Htok'].
    unfold POST_login, validated, validate.
    rewrite (credentials_valid body email pw Hvalid Hemail Hpw).
    unfold login, findUserByEmail.
    change (get (credentials body) "email") with (get body "email").
    change (get (credentials body) "password") with (get body "password").
    rewrite Hemail, Hpw. cbn [inMemoryUsers userCounter].
    rewrite Map_get_set_eq. cbn [fmap option_fmap option_map fields].
    destruct (new_user_fields (get body "name") email (bcrypt_hash salt pw)
                (userCounter st) now) as (-> & -> & ->).
    cbn [truthy negb verifyPassword]. rewrite bcrypt_compare_hash.
    rewrite (Map_has_get _ _ _ (Map_get_set_eq _ _ _)).
    rewrite Htok'.
    eexists _, _, _. split; [reflexivity|]. apply lookup_delete_eq. }
  intros body' mongo_find mongo_user e salt' now' st' ust who account.
  auto 10 using register_hides, login_hides, me_hides, verify_hides,
    get_profile_hides, put_profile_hides, get_users_hides.
Qed.
End Registration.

(** ** Tokens (C6) *)

Section Tokens.
Context {P : Platform}.

(** The claims [generateToken] signs for a user identifier. *)
Definition issued_claims (userId : val) (now lifetime : Z) : obj :=
  JSON_roundtrip
    (<["exp" := VNum (now / 1000 + lifetime / 1000)]>
       (<["iat" := VNum (now / 1000)]> {[ "id" := userId ]})).

Lemma issued_claims_lookup userId now lifetime :
  issued_claims userId now lifetime !! "exp"
    = Some (VNum (now / 1000 + lifetime / 1000))
  /\ issued_claims userId now lifetime !! "nbf" = None
  /\ issued_claims userId now lifetime !! "id" = JSON_value userId.
Proof.
  unfold issued_claims, JSON_roundtrip. rewrite !lookup_omap.
  repeat split; by simplify_map_eq.
Qed.

Lemma JSON_roundtrip_json (o : obj) : json_object (JSON_roundtrip o).
Proof.
  intros k v. unfold JSON_roundtrip. rewrite lookup_omap.
  destruct (o !! k) as [w|]; simpl; [|discriminate].
  destruct w as [| | | | | | |[t|]| |]; simpl; intros [= <-]; reflexivity.
Qed.

Lemma json_object_fixed (o : obj) : JSON_roundtrip o = o -> json_object o.
Proof. intros <-. apply JSON_roundtrip_json. Qed.

Lemma generateToken_issued userId now lifetime :
  ms (env_or "JWT_EXPIRE" "24h") = Some lifetime ->
  generateToken {[ "id" := userId ]} now
  = Normal (jws_encode (issued_claims userId now lifetime)
              (hmac JWT_SECRET (issued_claims userId now lifetime))).
Proof.
  intros Hms. unfold generateToken, jwt_sign. rewrite Hms.
  reflexivity.
Qed.

Lemma default_lifetime :
  env "JWT_EXPIRE" = None -> ms (env_or "JWT_EXPIRE" "24h") = Some 86400000.
Proof. intros He. unfold env_or. rewrite He. reflexivity. Qed.

(** Verifying an issued token: the result depends on the clock alone. *)
Lemma verify_issued userId now lifetime now' :
  jwt_verify (jws_encode (issued_claims userId now lifetime)
                (hmac JWT_SECRET (issued_claims userId now lifetime)))
             JWT_SECRET now'
  = if now / 1000 + lifetime / 1000 <=? now' / 1000
    then Throw "TokenExpiredError"
    else Normal (issued_claims userId now lifetime).
Proof.
  unfold jwt_verify.
  rewrite jws_decode_encode by apply JSON_roundtrip_json. cbn [bind].
  rewrite jws_signed_encode by apply JSON_roundtrip_json.
  rewrite String.eqb_refl.
  destruct (issued_claims_lookup userId now lifetime) as (-> & -> & _).
  reflexivity.
Qed.

(** An error thrown while the token is decoded is the error of [verify]. *)
Lemma jwt_verify_decode_error token secret now e :
  jws_decode token = Throw e -> jwt_verify token secret now = Throw e.
Proof. intros Hd. unfold jwt_verify. rewrite Hd. reflexivity. Qed.

(** A token from which nothing is decoded, or whose signature is not
    accepted, is invalid. *)
Lemma jwt_verify_corrupted token secret now :
  jws_decode token = Normal Undecodable
  \/ (exists d, jws_decode token = Normal d) /\ jws_signed token secret = false ->
  jwt_verify token secret now = Throw "JsonWebTokenError".
Proof.
  unfold jwt_verify. intros [->|[[d ->] Hsig]]; [reflexivity|].
  cbn [bind]. rewrite Hsig. by destruct d.
Qed.

(** A token with the signature of another payload is invalid. *)
Lemma jwt_verify_forged (claims : obj) (sig secret : string) now :
  json_object claims -> sig <> hmac secret claims ->
  jwt_verify (jws_encode claims sig) secret now = Throw "JsonWebTokenError".
Proof.
  intros Hjson Hsig. apply jwt_verify_corrupted. right.
  rewrite jws_decode_encode, jws_signed_encode by exact Hjson.
  split; [eauto|]. by apply String.eqb_neq.
Qed.

(** A correctly signed token whose [nbf] claim lies ahead is refused with
    [NotBeforeError], whatever the platform. *)
Lemma verify_not_yet_valid (claims : obj) (secret : string) (nbf now : Z) :
  json_object claims ->
  claims !! "nbf" = Some (VNum nbf) -> now / 1000 < nbf ->
  jwt_verify (jws_encode claims (hmac secret claims)) secret now
  = Throw "NotBeforeError".
Proof.
  intros Hjson Hnbf Hlt. unfold jwt_verify.
  rewrite jws_decode_encode by exact Hjson. cbn [bind].
  rewrite jws_signed_encode by exact Hjson.
  rewrite String.eqb_refl, Hnbf. simpl.
  destruct (Z.ltb_spec (now / 1000) nbf); [reflexivity|lia].
Qed.

(** The middleware has a case for [JsonWebTokenError] and one for
    [TokenExpiredError]: every other error of [verify] it answers 500. *)
Lemma authenticate_other_error authHeader token now User_findById e :
  bearer authHeader token ->
  jwt_verify token JWT_SECRET now = Throw e ->
  e <> "JsonWebTokenError" -> e <> "TokenExpiredError" ->
  authenticate authHeader now User_findById
  = inl (failure 500 "Token verification failed.").
Proof.
  intros Hb Hv H1 H2. rewrite (authenticate_bearer _ _ _ _ Hb), Hv.
  cbn [bind]. apply String.eqb_neq in H1, H2. rewrite H1, H2. reflexivity.
Qed.

(** The two errors the middleware turns into 401. *)
Lemma authenticate_invalid_or_expired authHeader token now User_findById :
  bearer authHeader token ->
  (jwt_verify token JWT_SECRET now = Throw "JsonWebTokenError" ->
   authenticate authHeader now User_findById
   = inl (failure 401 "Invalid token."))
  /\ (jwt_verify token JWT_SECRET now = Throw "TokenExpiredError" ->
      authenticate authHeader now User_findById
      = inl (failure 401 "Token expired.")).
Proof.
  intros Hb. split; intros Hv;
    rewrite (authenticate_bearer _ _ _ _ Hb), Hv; reflexivity.
Qed.

(** C6, amended: with the default lifetime of 24 hours, a token issued
    for a user identifier at [now] verifies at every clock reading less than
    86400 seconds later, the time of issue included, and yields the
    identifier as JSON carries it: a finite number or a string as itself, an
    ObjectId as its 24 hexadecimal digits; from 86400 seconds on it fails
    with [TokenExpiredError].  A token from which nothing is decoded, whose
    signature is not accepted, or that carries the signature of another
    payload fails with [JsonWebTokenError].  These are not the only
    failures: an error thrown while the token is decoded is thrown by
    [verify] as it is, and a correctly signed token whose [nbf] claim lies
    ahead fails with [NotBeforeError] (no issued token does); the
    middleware answers every error other than the two above with 500. *)
Theorem token_lifecycle (userId : val) (now : Z) :
  env "JWT_EXPIRE" = None ->
  exists token,
    generateToken {[ "id" := userId ]} now = Normal token
    /\ (forall now', now' / 1000 < now / 1000 + 86400 ->
          exists decoded,
            jwt_verify token JWT_SECRET now' = Normal decoded
            /\ decoded !! "id" = JSON_value userId
            /\ (is_number userId = true /\ userId <> VNaN /\ userId <> VInf
                \/ (exists s, userId = VStr s) ->
                get decoded "id" = userId)
            /\ (forall hex, userId = VObjectId hex ->
                get decoded "id" = VStr hex))
    /\ (exists decoded, jwt_verify token JWT_SECRET now = Normal decoded)
    /\ (forall now', now / 1000 + 86400 <= now' / 1000 ->
          jwt_verify token JWT_SECRET now' = Throw "TokenExpiredError")
    /\ (forall now', now + 86400000 <= now' ->
          jwt_verify token JWT_SECRET now' = Throw "TokenExpiredError")
    /\ (forall now', jwt_verify token JWT_SECRET now' <> Throw "NotBeforeError")
    /\ (forall other secret now',
          jws_decode other = Normal Undecodable
          \/ (exists d, jws_decode other = Normal d)
             /\ jws_signed other secret = false ->
          jwt_verify other secret now' = Throw "JsonWebTokenError")
    /\ (forall claims sig secret now',
          json_object claims -> sig <> hmac secret claims ->
          jwt_verify (jws_encode claims sig) secret now'
          = Throw "JsonWebTokenError")
    /\ (forall other secret now' e,
          jws_decode other = Throw e ->
          jwt_verify other secret now' = Throw e)
    /\ (forall claims secret nbf now',
          json_object claims ->
          claims !! "nbf" = Some (VNum nbf) -> now' / 1000 < nbf ->
          jwt_verify (jws_encode claims (hmac secret claims)) secret now'
          = Throw "NotBeforeError")
    /\ (forall authHeader other now' User_findById,
          bearer authHeader other ->
          (jwt_verify other JWT_SECRET now' = Throw "JsonWebTokenError" ->
           authenticate authHeader now' User_findById
           = inl (failure 401 "Invalid token."))
          /\ (jwt_verify other JWT_SECRET now' = Throw "TokenExpiredError" ->
              authenticate authHeader now' User_findById
              = inl (failure 401 "Token expired.")))
    /\ (forall authHeader other now' User_findById e,
          bearer authHeader other ->
          jwt_verify other JWT_SECRET now' = Throw e ->
          e <> "JsonWebTokenError" -> e <> "TokenExpiredError" ->
          authenticate authHeader now' User_findById
          = inl (failure 500 "Token verification failed.")).
Proof.
  intros Henv. pose proof (default_lifetime Henv) as Hms.
  eexists. split; [apply (generateToken_issued _ _ _ Hms)|].
  change (86400000 / 1000) with 86400 in *.
  assert (Hok : forall now', now' / 1000 < now / 1000 + 86400 ->
    jwt_verify (jws_encode (issued_claims userId now 86400000)
                  (hmac JWT_SECRET (issued_claims userId now 86400000)))
               JWT_SECRET now' = Normal (issued_claims userId now 86400000)).
  { intros now' Hlt. rewrite verify_issued.
    change (86400000 / 1000) with 86400.
    destruct (Z.leb_spec (now / 1000 + 86400) (now' / 1000)); [lia|reflexivity]. }
  assert (Hexp : forall now', now / 1000 + 86400 <= now' / 1000 ->
    jwt_verify (jws_encode (issued_claims userId now 86400000)
                  (hmac JWT_SECRET (issued_claims userId now 86400000)))
               JWT_SECRET now' = Throw "TokenExpiredError").
  { intros now' Hle. rewrite verify_issued.
    change (86400000 / 1000) with 86400.
    destruct (Z.leb_spec (now / 1000 + 86400) (now' / 1000)); [reflexivity|lia]. }
  destruct (issued_claims_lookup userId now 86400000) as (_ & _ & Hid).
  split.
  { intros now' Hlt. eexists. split; [apply Hok, Hlt|]. split; [exact Hid|].
    split.
    - intros Hstable. unfold get. rewrite Hid.
      destruct Hstable as [(Hn & Hnan & Hinf)|[s ->]]; [|reflexivity].
      destruct userId; try discriminate; try reflexivity; contradiction.
    - intros hex ->. unfold get. rewrite Hid. reflexivity. }
  split; [eexists; apply Hok; lia|].
  split; [exact Hexp|].
  split.
  { intros now' Hle. apply Hexp.
    replace (now / 1000 + 86400) with ((now + 86400 * 1000) / 1000)
      by (rewrite Z.div_add by lia; reflexivity).
    apply Z.div_le_mono; lia. }
  split.
  { intros now'. rewrite verify_issued. destruct (_ <=? _); discriminate. }
  split; [intros other secret now'; apply jwt_verify_corrupted|].
  split; [intros claims sig secret now'; apply jwt_verify_forged|].
  split; [intros other secret now' e; apply jwt_verify_decode_error|].
  split; [intros claims secret nbf now'; apply verify_not_yet_valid|].
  split; [intros authHeader other now' User_findById;
          apply authenticate_invalid_or_expired|].
  intros authHeader other now' User_findById e. apply authenticate_other_error.
Qed.

End Tokens.

(** ** Listing tasks (C8) *)

Section Sorting.
Context {A : Type} (cmp : A -> A -> Z).

Lemma sort_insert_perm x l : Permutation (sort_insert cmp x l) (x :: l).
Proof.
  induction l as [|y r IH]; simpl.
  - reflexivity.
  - destruct (cmp x y <=? 0); [reflexivity|].
    rewrite IH. apply perm_swap.
Qed.

Lemma sort_perm l : Permutation (sort cmp l) l.
Proof.
  induction l as [|x r IH]; simpl.
  - reflexivity.
  - rewrite sort_insert_perm. by constructor.
Qed.

(** [R] is the order the comparator speaks of, on the elements [ok]. *)
Context (R : A -> A -> Prop) (ok : A -> Prop).
Hypothesis R_trans : forall a b c, R a b -> R b c -> R a c.
Hypothesis cmp_le : forall a b, ok a -> ok b -> cmp a b <= 0 -> R a b.
Hypothesis cmp_gt : forall a b, ok a -> ok b -> 0 < cmp a b -> R b a.


End Sorting.

Section Filtering.
Context {A : Type}.



End Filtering.

Section RegExp.





End RegExp.

Section Listing.
Context {P : Platform}.
Import TaskRoutes.

Definition created_at (task : obj) : option Z :=
  Date_new (get task "createdAt").

Definition dated (task : obj) : Prop := is_Some (created_at task).


(** The tags of a stored task: an array, or nothing. *)
Definition typed_tags (tags : val) : Prop :=
  match tags with
  | VArr _ => True
  | v => truthy v = false
  end.

Definition tags_typed (task : obj) : Prop := typed_tags (get task "tags").


(** A filter field applies when it is present and not empty. *)
Definition applies (filter : obj) (k : string) : bool := truthy (get filter k).







(** *** The listing served by the model *)









(** Two objects are never [==]: a requester and an owner that are both
    ObjectIds do not match in memory. *)
Lemma loose_eq_objects a b :
  is_primitive a = false -> is_primitive b = false -> loose_eq a b = false.
Proof. destruct a, b; try discriminate; reflexivity. Qed.

Lemma filter_none {A} (f : A -> bool) l :
  Forall (fun x => f x = false) l -> List.filter f l = [].
Proof.
  induction 1 as [|x r Hx _ IH]; simpl; [reflexivity|]. by rewrite Hx.
Qed.


(** Ann files a task under a category, with a tag. *)
Definition filed : TaskRoutes.store :=
  (TaskRoutes.POST_task (inr ann) []
     {[ "title" := VStr "Write spec"; "category" := VStr "General";
        "tags" := VArr ["docs"] ]}
     (Throw mongo_down) 1000 TaskRoutes.initial).2.

Definition filed_task : obj :=
  {[ "_id" := VNum 1; "title" := VStr "Write spec"; "category" := VStr "General";
     "tags" := VArr ["docs"]; "user" := VNum 1;
     "createdAt" := VDate (Some 1000); "updatedAt" := VDate (Some 1000) ]}.

Example filed_values : Map_values (inMemoryTasks filed) = [filed_task].
Proof. vm_compute. reflexivity. Qed.

(** The listing as the specification words it: the tasks of the owner;
    the category, and the title, description or a tag, are matched by
    case-insensitive substring against fields that are strings. *)
Definition contains_ci (needle field : val) : bool :=
  match field with
  | VStr s => ci_substring (ToString needle) s
  | VArr xs => existsb (ci_substring (ToString needle)) xs
  | _ => false
  end.

Definition matches_as_specified (userId : val) (filter task : obj) : bool :=
  bool_decide (get task "user" = userId)
  && (negb (applies filter "status")
      || strict_eq (get task "status") (get filter "status"))
  && (negb (applies filter "priority")
      || strict_eq (get task "priority") (get filter "priority"))
  && (negb (applies filter "category")
      || contains_ci (get filter "category") (get task "category"))
  && (negb (applies filter "search")
      || (contains_ci (get filter "search") (get task "title")
          || contains_ci (get filter "search") (get task "description")
          || contains_ci (get filter "search") (get task "tags"))).

Definition listForOwner_as_specified (userId : val) (filter : obj)
    (tasks : list obj) : list obj :=
  sort newest_first (List.filter (matches_as_specified userId filter) tasks).


(** Called as a function with a number for the requester, over a task filed
    under that number: with the category filter [.] the helper lists the
    task, whose category does not contain a dot. *)
Example dot_lists_everything :
  TaskRoutes.findUserTasks (Throw mongo_down) (VNum 1)
    {[ "category" := VStr "." ]} filed = Normal [filed_task]
  /\ listForOwner_as_specified (VNum 1) {[ "category" := VStr "." ]}
       (Map_values (TaskRoutes.inMemoryTasks filed)) = [].
Proof. split; vm_compute; reflexivity. Qed.

(** Likewise the search text [undefined] finds a task that has no
    description. *)
Example undefined_is_searched_as_text :
  TaskRoutes.findUserTasks (Throw mongo_down) (VNum 1)
    {[ "search" := VStr "undefined" ]} filed = Normal [filed_task].
Proof. vm_compute. reflexivity. Qed.
End Listing.

(** ** Stores the routes can build

    The listing theorem asks that stored tags be arrays and, for the order,
    that creation dates be valid.  Every store reached from the initial one
    through the validated routes is of that kind. *)

Section Reachable.
Context {P : Platform}.
Import TaskRoutes.

Definition well_formed_task (task : obj) : Prop := tags_typed task /\ dated task.

Definition well_formed (st : store) : Prop :=
  Forall well_formed_task (Map_values (inMemoryTasks st)).

(** A request that may change the task store. *)
Inductive request : Type :=
| Post (auth : response + obj) (details : list string) (body : obj)
       (mongo : completion obj) (now : Z)
| Put (auth : response + obj) (details : list string) (id : string) (body : obj)
      (Task_findOneAndUpdate :
         gmap string TaskModel.condition -> obj -> completion (option obj))
      (now : Z)
| Delete (auth : response + obj) (id : string)
         (Task_findOneAndDelete :
            gmap string TaskModel.condition -> completion (option obj)).

Definition serve (r : request) (st : store) : store :=
  match r with
  | Post auth details body mongo now => (POST_task auth details body mongo now st).2
  | Put auth details id body mongo now => (PUT_task auth details id body mongo now st).2
  | Delete auth id mongo => (DELETE_task auth id mongo st).2
  end.

Inductive reachable : store -> Prop :=
| reach_initial : reachable initial
| reach_step r st : reachable st -> reachable (serve r st).

Lemma Forall_values_set {K V} `{EqDecision K} (Q : V -> Prop) k v (m : list (K * V)) :
  Q v -> Forall Q (Map_values m) -> Forall Q (Map_values (Map_set k v m)).
Proof.
  intros Hv. induction m as [|[k' v'] r IH]; simpl; intros Hm.
  - by repeat constructor.
  - apply Forall_cons in Hm as [Hv' Hr].
    destruct (decide (k' = k)); simpl; constructor; auto.
Qed.

Lemma Forall_values_delete {K V} `{EqDecision K} (Q : V -> Prop) k (m : list (K * V)) :
  Forall Q (Map_values m) -> Forall Q (Map_values (Map_delete k m)).
Proof.
  induction m as [|[k' v'] r IH]; simpl; intros Hm; [constructor|].
  apply Forall_cons in Hm as [Hv' Hr].
  destruct (decide (k' = k)); simpl; [|constructor]; auto.
Qed.

Lemma Forall_values_get {K V} `{EqDecision K} (Q : V -> Prop) k v (m : list (K * V)) :
  Forall Q (Map_values m) -> Map_get k m = Some v -> Q v.
Proof.
  induction m as [|[k' v'] r IH]; simpl; intros Hm; [discriminate|].
  apply Forall_cons in Hm as [Hv' Hr].
  destruct (decide (k' = k)); [intros [= <-]; exact Hv'|auto].
Qed.

Lemma tags_rule_typed (v : val) : optional tags_rule v = true -> typed_tags v.
Proof. destruct v; simpl; try discriminate; auto. Qed.

Lemma schema_tags (body : obj) now :
  createTaskSchema now body = true \/ updateTaskSchema body = true ->
  optional tags_rule (get body "tags") = true
  /\ body !! "createdAt" = None.
Proof.
  assert (Hkey : only_keys task_keys body = true -> body !! "createdAt" = None).
  { intros Hk. apply (only_keys_lookup task_keys); [exact Hk|].
    unfold task_keys. intros Hin.
    repeat (apply elem_of_cons in Hin as [Hin|Hin]; [discriminate|]).
    by apply elem_of_nil in Hin. }
  unfold createTaskSchema, updateTaskSchema. intros [Hv|Hv];
    apply andb_prop in Hv as [Hv Ht]; (split; [exact Ht|]);
    apply Hkey; repeat (apply andb_prop in Hv as [Hv _]); exact Hv.
Qed.

Lemma created_task_well_formed (body : obj) (userId : val) (counter now : Z) :
  createTaskSchema now body = true ->
  well_formed_task
    (<["updatedAt" := VDate (Some now)]>
       (<["createdAt" := VDate (Some now)]>
          (assign {[ "_id" := VNum counter ]} (<["user" := userId]> body)))).
Proof.
  intros Hv. destruct (schema_tags body now (or_introl Hv)) as [Ht _].
  split.
  - unfold tags_typed.
    replace (get _ "tags") with (get body "tags"); [by apply tags_rule_typed|].
    unfold get, assign. rewrite !lookup_insert_ne by discriminate.
    rewrite lookup_union_l by (by rewrite lookup_singleton_ne).
    by rewrite lookup_insert_ne.
  - exists now. unfold created_at.
    rewrite get_insert_ne by discriminate. by rewrite get_insert_eq.
Qed.

Lemma updated_task_well_formed (task body : obj) (now : Z) (v : option val) :
  updateTaskSchema body = true ->
  well_formed_task task ->
  well_formed_task
    (let t1 := assign (assign task body) {[ "updatedAt" := VDate (Some now) ]} in
     match v with
     | Some w => <["completedAt" := w]> t1
     | None => t1
     end).
Proof.
  intros Hv [Htags [created Hdate]].
  destruct (schema_tags body 0 (or_intror Hv)) as [Ht Hc].
  set (t1 := assign (assign task body) {[ "updatedAt" := VDate (Some now) ]}).
  assert (Htags1 : tags_typed t1).
  { unfold tags_typed, t1, get, assign in *.
    rewrite lookup_union_r by (by rewrite lookup_singleton_ne).
    rewrite lookup_union. unfold get in Ht.
    destruct (body !! "tags") as [w|]; simpl.
    - replace (Some w ∪ task !! "tags") with (Some w) by (by destruct (task !! "tags")).
      simpl. by apply tags_rule_typed.
    - replace (None ∪ task !! "tags") with (task !! "tags") by (by destruct (task !! "tags")).
      exact Htags. }
  assert (Hdate1 : created_at t1 = Some created).
  { unfold created_at, t1, get, assign in *.
    rewrite lookup_union_r by (by rewrite lookup_singleton_ne).
    by rewrite lookup_union_r. }
  destruct v as [w|]; simpl; [|split; [exact Htags1|by exists created]].
  split.
  - unfold tags_typed in *. by rewrite get_insert_ne.
  - exists created. unfold created_at in *. by rewrite get_insert_ne.
Qed.

Lemma serve_well_formed r st : well_formed st -> well_formed (serve r st).
Proof.
  unfold well_formed. intros Hst.
  destruct r as [auth details body mongo now|auth details id body mongo now|auth id mongo];
    simpl; destruct auth as [resp|user]; simpl; try exact Hst.
  - unfold validated, validate.
    destruct (createTaskSchema now body) eqn:Hv; [|exact Hst].
    unfold post_task, createTask. destruct mongo; simpl; [exact Hst|].
    apply Forall_values_set; [|exact Hst].
    by apply created_task_well_formed.
  - unfold validated, validate.
    destruct (updateTaskSchema body) eqn:Hv; [|exact Hst].
    unfold put_task, updateTask. destruct (mongo _ _) as [[t|]|]; simpl; try exact Hst.
    destruct (owned _ _) as [task|] eqn:Hown; simpl; [|exact Hst].
    apply Forall_values_set; [|exact Hst].
    assert (Htask : well_formed_task task).
    { unfold owned in Hown.
      destruct (Map_get _ _) as [t|] eqn:Hget; [|discriminate].
      destruct (loose_eq _ _); [|discriminate]. injection Hown as <-.
      eapply Forall_values_get; eauto. }
    destruct (_ && _).
    + apply (updated_task_well_formed task body now (Some (VDate (Some now))) Hv Htask).
    + destruct (_ && _).
      * apply (updated_task_well_formed task body now (Some VNull) Hv Htask).
      * apply (updated_task_well_formed task body now None Hv Htask).
  - unfold delete_task, deleteTask. destruct (mongo _) as [[t|]|]; simpl; try exact Hst.
    destruct (owned _ _); simpl; [|exact Hst].
    by apply Forall_values_delete.
Qed.

(** Every reachable store is well formed. *)
Lemma reachable_well_formed st : reachable st -> well_formed st.
Proof.
  induction 1 as [|r st _ IH].
  - constructor.
  - by apply serve_well_formed.
Qed.

Lemma reachable_typed_dated st :
  reachable st ->
  Forall tags_typed (Map_values (inMemoryTasks st))
  /\ Forall dated (Map_values (inMemoryTasks st)).
Proof.
  intros Hr. apply reachable_well_formed in Hr. unfold well_formed in Hr.
  split; (eapply Forall_impl; [exact Hr|]); by intros task [Ht Hd].
Qed.
End Reachable.

(** * Further properties of the routes *)

(** ** More on [Map] *)

Section MapEntries.
Context {K V : Type} `{EqDecision K}.
Implicit Types (m : list (K * V)) (k : K) (v : V).

Lemma Map_get_elem_of m k v : Map_get k m = Some v -> (k, v) ∈ m.
Proof.
  induction m as [|[k' v'] r IH]; simpl; [discriminate|].
  destruct (decide (k' = k)) as [->|_].
  - intros [= ->]. left.
  - intros Hg. right. auto.
Qed.

Lemma Map_get_None m k : Map_get k m = None <-> k ∉ m.*1.
Proof.
  induction m as [|[k' v'] r IH]; simpl.
  - split; [intros _; apply not_elem_of_nil|reflexivity].
  - rewrite not_elem_of_cons. destruct (decide (k' = k)) as [->|Hne].
    + split; [discriminate|]. by intros [? _].
    + rewrite IH. split; [intros ?; split; [congruence|done]|by intros [_ ?]].
Qed.

Lemma Map_set_fresh m k v : Map_get k m = None -> Map_set k v m = (m ++ [(k, v)])%list.
Proof.
  induction m as [|[k' v'] r IH]; simpl; [reflexivity|].
  destruct (decide (k' = k)); [discriminate|]. intros Hg. by rewrite IH.
Qed.

Lemma Map_set_keys m k v : is_Some (Map_get k m) -> (Map_set k v m).*1 = m.*1.
Proof.
  induction m as [|[k' v'] r IH]; simpl; [by intros [? [=]]|].
  destruct (decide (k' = k)) as [->|_]; [reflexivity|].
  intros Hg. rewrite !fmap_cons. by rewrite IH.
Qed.

Lemma Forall_Map_set (Q : K * V -> Prop) m k v :
  Q (k, v) -> Forall Q m -> Forall Q (Map_set k v m).
Proof.
  intros Hv. induction m as [|[k' v'] r IH]; simpl; intros Hm.
  - by repeat constructor.
  - apply Forall_cons in Hm as [Hv' Hr].
    destruct (decide (k' = k)); constructor; auto.
Qed.

Lemma Forall_Map_delete (Q : K * V -> Prop) m k :
  Forall Q m -> Forall Q (Map_delete k m).
Proof.
  induction m as [|[k' v'] r IH]; simpl; intros Hm; [constructor|].
  apply Forall_cons in Hm as [Hv' Hr].
  destruct (decide (k' = k)); [|constructor]; auto.
Qed.

Lemma elem_of_Map_delete m k (x : K * V) : x ∈ Map_delete k m -> x ∈ m.
Proof.
  induction m as [|[k' v'] r IH]; simpl; [done|].
  destruct (decide (k' = k)); rewrite ?elem_of_cons; intuition.
Qed.

Lemma NoDup_keys_delete m k : NoDup m.*1 -> NoDup (Map_delete k m).*1.
Proof.
  induction m as [|[k' v'] r IH]; simpl; [done|].
  rewrite NoDup_cons. intros [Hk Hr].
  destruct (decide (k' = k)); [auto|]. simpl. apply NoDup_cons. split; [|auto].
  intros Hin. apply Hk. apply list_elem_of_fmap in Hin as (x & -> & Hx).
  apply list_elem_of_fmap. exists x. split; [done|]. by eapply elem_of_Map_delete.
Qed.

Lemma Map_get_delete_eq m k : Map_get k (Map_delete k m) = None.
Proof.
  induction m as [|[k' v'] r IH]; simpl; [reflexivity|].
  destruct (decide (k' = k)) as [->|Hne]; simpl; [exact IH|].
  by destruct (decide (k' = k)).
Qed.

Lemma Map_get_delete_ne m k k' :
  k <> k' -> Map_get k' (Map_delete k m) = Map_get k' m.
Proof.
  intros Hne. induction m as [|[k0 v0] r IH]; simpl; [reflexivity|].
  destruct (decide (k0 = k)) as [->|Hk]; simpl.
  - destruct (decide (k = k')); congruence.
  - destruct (decide (k0 = k')); congruence.
Qed.
End MapEntries.

(** ** The in-memory task store *)

Section TaskStore.
Context {P : Platform}.
Import TaskRoutes.

(** Neither task schema lets through a key it does not list. *)
Lemma task_schema_keys (body : obj) now k :
  createTaskSchema now body = true \/ updateTaskSchema body = true ->
  k ∉ task_keys -> body !! k = None.
Proof.
  intros Hv Hk. apply (only_keys_lookup task_keys); [|exact Hk].
  unfold createTaskSchema, updateTaskSchema in Hv.
  destruct Hv as [Hv|Hv]; repeat (apply andb_prop in Hv as [Hv _]); exact Hv.
Qed.

Lemma not_task_key k :
  k ∈ ["_id"; "user"; "createdAt"; "updatedAt"; "completedAt"] -> k ∉ task_keys.
Proof.
  intros Hk Ht.
  repeat (apply elem_of_cons in Hk as [->|Hk];
          [by vm_compute in Ht; repeat (apply elem_of_cons in Ht as [Ht|Ht]; [discriminate|]);
              apply elem_of_nil in Ht|]).
  by apply elem_of_nil in Hk.
Qed.

(** The object the fallback of [createTask] files. *)
Definition new_task (body : obj) (userId : val) (id now : Z) : obj :=
  <["updatedAt" := VDate (Some now)]>
    (<["createdAt" := VDate (Some now)]>
       (assign {[ "_id" := VNum id ]} (<["user" := userId]> body))).

Lemma new_task_lookup (body : obj) userId id now :
  body !! "_id" = None ->
  new_task body userId id now !! "_id" = Some (VNum id)
  /\ new_task body userId id now !! "user" = Some userId
  /\ new_task body userId id now !! "createdAt" = Some (VDate (Some now))
  /\ new_task body userId id now !! "updatedAt" = Some (VDate (Some now))
  /\ (forall k, k ∉ ["_id"; "user"; "createdAt"; "updatedAt"] ->
        new_task body userId id now !! k = body !! k).
Proof.
  intros Hid. unfold new_task, assign. repeat split.
  - rewrite !lookup_insert_ne by discriminate.
    rewrite lookup_union_r by (by rewrite lookup_insert_ne).
    apply lookup_singleton_eq.
  - rewrite !lookup_insert_ne by discriminate.
    rewrite (lookup_union_Some_l _ _ _ userId); [reflexivity|].
    apply lookup_insert_eq.
  - rewrite lookup_insert_ne by discriminate. apply lookup_insert_eq.
  - apply lookup_insert_eq.
  - intros k Hk.
    assert (k <> "_id" /\ k <> "user" /\ k <> "createdAt" /\ k <> "updatedAt")
      as (H1 & H2 & H3 & H4).
    { repeat split; intros ->; apply Hk; repeat constructor. }
    rewrite !lookup_insert_ne by congruence.
    rewrite lookup_union_l by (by rewrite lookup_singleton_ne).
    by rewrite lookup_insert_ne.
Qed.

Lemma POST_task_in_memory user details (body : obj) e now st :
  createTaskSchema now body = true ->
  let task := new_task body (get user "id") (taskCounter st) now in
  POST_task (inr user) details body (Throw e) now st
  = (ok 201 (Some "Task created successfully") (DataTask task),
     {| inMemoryTasks := Map_set (VNum (taskCounter st)) task (inMemoryTasks st);
        taskCounter := taskCounter st + 1 |}).
Proof.
  intros Hv task. unfold POST_task, protected, validated, validate.
  rewrite Hv. unfold post_task, createTask. fold (new_task body (get user "id") (taskCounter st) now).
  fold task.
  assert (Hid : get task "_id" = VNum (taskCounter st)).
  { unfold get, task.
    destruct (new_task_lookup body (get user "id") (taskCounter st) now) as [-> _];
      [|reflexivity].
    apply (task_schema_keys body now); [by left|].
    apply not_task_key. repeat constructor. }
  by rewrite Hid.
Qed.

(** What the fallback of [updateTask] makes of a task: the body laid over
    it, the time of the update, and the completion date as the branch on
    [updateData.status] leaves it. *)
Definition updated_task (old body : obj) (now : Z) : obj :=
  let t1 := assign (assign old body) {[ "updatedAt" := VDate (Some now) ]} in
  if strict_eq (get body "status") (VStr "completed")
     && negb (truthy (get t1 "completedAt"))
  then <["completedAt" := VDate (Some now)]> t1
  else if negb (strict_eq (get body "status") (VStr "completed"))
          && truthy (get t1 "completedAt")
  then <["completedAt" := VNull]> t1
  else t1.

Lemma updated_task_lookup (old body : obj) now k :
  k <> "updatedAt" -> k <> "completedAt" ->
  updated_task old body now !! k = body !! k ∪ old !! k.
Proof.
  intros H1 H2. unfold updated_task, assign.
  repeat destruct (_ && _); rewrite ?lookup_insert_ne by congruence;
    (rewrite lookup_union_r by (by rewrite lookup_singleton_ne));
    apply lookup_union.
Qed.

Lemma updated_task_time (old body : obj) now :
  updated_task old body now !! "updatedAt" = Some (VDate (Some now)).
Proof.
  unfold updated_task, assign.
  repeat destruct (_ && _); rewrite ?lookup_insert_ne by discriminate;
    (erewrite lookup_union_Some_l; [reflexivity|]); apply lookup_singleton_eq.
Qed.

Lemma PUT_task_in_memory user details id (body : obj)
    Task_findOneAndUpdate e now st r st' :
  Task_findOneAndUpdate (by_id id (get user "id")) body = Throw e ->
  PUT_task (inr user) details id body Task_findOneAndUpdate now st = (r, st') ->
  status r = 200 ->
  updateTaskSchema body = true
  /\ exists old,
       Map_get (parseInt id) (inMemoryTasks st) = Some old
       /\ loose_eq (get old "user") (get user "id") = true
       /\ r = ok 200 (Some "Task updated successfully")
                (DataTask (updated_task old body now))
       /\ st' = {| inMemoryTasks :=
                     Map_set (parseInt id) (updated_task old body now)
                             (inMemoryTasks st);
                   taskCounter := taskCounter st |}.
Proof.
  intros Hcall. unfold PUT_task, protected, validated, validate.
  destruct (updateTaskSchema body); [|cbv beta iota; intros [= <- <-]; cbn [status]; intros [=]].
  unfold put_task, updateTask, owned. rewrite Hcall.
  destruct (Map_get _ _) as [old|]; [|cbv beta iota; intros [= <- <-]; cbn [status]; intros [=]].
  cbv beta iota.
  destruct (loose_eq (get old "user") (get user "id")) eqn:Hown;
    [|cbv beta iota; intros [= <- <-]; cbn [status]; intros [=]].
  fold (updated_task old body now).
  intros [= <- <-] _. split; [reflexivity|]. exists old. repeat split. exact Hown.
Qed.

(** *** Identifiers

    Every task is filed under its own [_id], a number below [taskCounter];
    no two entries share a key. *)
Definition filed_under_id (counter : Z) (entry : val * obj) : Prop :=
  exists n, entry.1 = VNum n /\ entry.2 !! "_id" = Some (VNum n)
            /\ 1 <= n < counter.

Definition ids_in_use (st : store) : Prop :=
  Forall (filed_under_id (taskCounter st)) (inMemoryTasks st)
  /\ NoDup (inMemoryTasks st).*1
  /\ 1 <= taskCounter st.

Lemma filed_under_id_mono c c' entry :
  c <= c' -> filed_under_id c entry -> filed_under_id c' entry.
Proof. intros Hc (n & H1 & H2 & H3). exists n. repeat split; auto; lia. Qed.

Lemma ids_fresh st :
  ids_in_use st -> Map_get (VNum (taskCounter st)) (inMemoryTasks st) = None.
Proof.
  intros (Hall & _ & _). apply Map_get_None. intros Hin.
  apply list_elem_of_fmap in Hin as ([k t] & Hk & Hin). simpl in Hk. subst k.
  rewrite Forall_forall in Hall. destruct (Hall _ Hin) as (n & Hn & _ & Hlt).
  simpl in Hn. injection Hn as <-. lia.
Qed.

Lemma serve_ids r st :
  ids_in_use st ->
  ids_in_use (serve r st) /\ taskCounter st <= taskCounter (serve r st).
Proof.
  intros Hst. pose proof Hst as (Hall & Hnd & Hc).
  assert (Hsame : ids_in_use st /\ taskCounter st <= taskCounter st)
    by (split; [exact Hst|lia]).
  destruct r as [auth details body mongo now|auth details id body mongo now|auth id mongo];
    unfold serve; (destruct auth as [resp|user]; [exact Hsame|]).
  - destruct (createTaskSchema now body) eqn:Hv; cycle 1.
    { unfold POST_task, protected, validated, validate. rewrite Hv. exact Hsame. }
    destruct mongo as [task|e].
    { unfold POST_task, protected, validated, validate, post_task, createTask.
      rewrite Hv. exact Hsame. }
    rewrite POST_task_in_memory by exact Hv. cbn [snd].
    unfold ids_in_use. cbn [inMemoryTasks taskCounter].
    split; [|lia]. rewrite Map_set_fresh by (by apply ids_fresh).
    repeat split; [| |lia].
    + apply Forall_app. split.
      * eapply Forall_impl; [exact Hall|]. intros entry.
        apply filed_under_id_mono. lia.
      * constructor; [|constructor]. exists (taskCounter st). cbn [fst snd].
        repeat split; [|lia|lia].
        apply new_task_lookup. apply (task_schema_keys body now); [by left|].
        apply not_task_key. repeat constructor.
    + rewrite fmap_app. apply NoDup_app. repeat split; [exact Hnd| |].
      * intros k Hk Hk'. apply list_elem_of_singleton in Hk'. cbn [fst] in Hk'. subst k.
        by apply (Map_get_None (inMemoryTasks st) (VNum (taskCounter st)));
          [apply ids_fresh|].
      * apply NoDup_singleton.
  - destruct (PUT_task (inr user) details id body mongo now st) as [r st'] eqn:Hput.
    cbn [snd].
    destruct (Z.eq_dec (status r) 200) as [Hok|Hno]; cycle 1.
    { replace st' with st; [exact Hsame|].
      revert Hput. unfold PUT_task, protected, validated, validate.
      destruct (updateTaskSchema body); [|by intros [= _ <-]].
      unfold put_task, updateTask.
      destruct (mongo _ _) as [[t|]|e]; try (by intros [= _ <-]).
      destruct (owned _ _); [|by intros [= _ <-]].
      intros [= <- _]. by destruct Hno. }
    destruct (mongo (by_id id (get user "id")) body) as [t|e] eqn:Hcall.
    { replace st' with st; [exact Hsame|].
      revert Hput. unfold PUT_task, protected, validated, validate.
      destruct (updateTaskSchema body); [|by intros [= _ <-]].
      unfold put_task, updateTask. rewrite Hcall. destruct t; by intros [= _ <-]. }
    destruct (PUT_task_in_memory _ _ _ _ _ _ _ _ _ _ Hcall Hput Hok)
      as (Hv & old & Hget & _ & _ & ->).
    unfold ids_in_use. cbn [inMemoryTasks taskCounter].
    split; [|lia]. repeat split; [| |lia].
    + apply Forall_Map_set; [|exact Hall].
      pose proof (Map_get_elem_of _ _ _ Hget) as Hin.
      rewrite Forall_forall in Hall. destruct (Hall _ Hin) as (n & Hn & Hid & Hlt).
      exists n. cbn [fst snd] in *. repeat split; [exact Hn| |lia|lia].
      rewrite updated_task_lookup by discriminate.
      rewrite (task_schema_keys body 0 "_id"); [by rewrite Hid|by right|].
      apply not_task_key. repeat constructor.
    + rewrite Map_set_keys; [exact Hnd|by rewrite Hget].
  - unfold DELETE_task, protected, delete_task, deleteTask.
    destruct (mongo _) as [[t|]|e]; try exact Hsame.
    destruct (owned _ _); [|exact Hsame].
    unfold ids_in_use. cbn [snd inMemoryTasks taskCounter].
    split; [|lia]. repeat split; [| |lia].
    + by apply Forall_Map_delete.
    + by apply NoDup_keys_delete.
Qed.

Lemma reachable_ids st : reachable st -> ids_in_use st.
Proof.
  induction 1 as [|r st _ IH].
  - repeat split; [constructor|constructor|simpl; lia].
  - by apply serve_ids.
Qed.

(** X7.  In every store the task routes can reach, each task is filed under
    its own [_id], a number from 1 up to but excluding [taskCounter]; no two
    entries share a key; the counter is not in use and never decreases; and
    an identifier that is not a numeral finds nothing. *)
Theorem task_ids_are_unique (st : store) :
  reachable st ->
  1 <= taskCounter st
  /\ NoDup (inMemoryTasks st).*1
  /\ (forall key task,
        (key, task) ∈ inMemoryTasks st ->
        exists n, key = VNum n /\ task !! "_id" = Some (VNum n)
                  /\ 1 <= n < taskCounter st)
  /\ Map_get (VNum (taskCounter st)) (inMemoryTasks st) = None
  /\ (forall r, taskCounter st <= taskCounter (serve r st))
  /\ (forall user id Task_findOne e,
        Task_findOne (by_id id (get user "id")) = Throw e ->
        parseInt id = VNaN ->
        GET_task (inr user) id Task_findOne st
        = (failure 404 "Task not found", st)).
Proof.
  intros Hr. pose proof (reachable_ids st Hr) as Hids.
  pose proof Hids as (Hall & Hnd & Hc).
  split; [exact Hc|]. split; [exact Hnd|]. split; [|split; [|split]].
  - intros key task Hin. rewrite Forall_forall in Hall.
    exact (Hall _ Hin).
  - by apply ids_fresh.
  - intros r. by apply serve_ids.
  - intros user id Task_findOne e Hcall Hnan.
    unfold GET_task, protected, get_task, findTaskById.
    rewrite Hcall, Hnan.
    destruct (Map_get VNaN (inMemoryTasks st)) as [task|] eqn:Hget; [|reflexivity].
    apply Map_get_elem_of in Hget. rewrite Forall_forall in Hall.
    destruct (Hall _ Hget) as (n & [=] & _).
Qed.

(** X8.  On a reachable store a validated [POST /api/tasks] served by the
    fallback appends one entry and changes no other: the task is the body as
    sent, with [_id] the counter, [user] the requester, and both dates the
    time of the request; no schema default is added. *)
Theorem create_appends
    (user : obj) (details : list string) (body : obj) (e : string) (now : Z)
    (st : store) :
  reachable st ->
  createTaskSchema now body = true ->
  exists task,
    POST_task (inr user) details body (Throw e) now st
    = (ok 201 (Some "Task created successfully") (DataTask task),
       {| inMemoryTasks :=
            (inMemoryTasks st ++ [(VNum (taskCounter st), task)])%list;
          taskCounter := taskCounter st + 1 |})
    /\ task !! "_id" = Some (VNum (taskCounter st))
    /\ task !! "user" = Some (get user "id")
    /\ task !! "createdAt" = Some (VDate (Some now))
    /\ task !! "updatedAt" = Some (VDate (Some now))
    /\ (forall k, k ∉ ["_id"; "user"; "createdAt"; "updatedAt"] ->
          task !! k = body !! k)
    /\ (forall k, k ∉ (task_keys ++ ["_id"; "user"; "createdAt"; "updatedAt"])%list ->
          task !! k = None).
Proof.
  intros Hr Hv. exists (new_task body (get user "id") (taskCounter st) now).
  assert (Hid : body !! "_id" = None).
  { apply (task_schema_keys body now); [by left|].
    apply not_task_key. repeat constructor. }
  destruct (new_task_lookup body (get user "id") (taskCounter st) now Hid)
    as (H1 & H2 & H3 & H4 & H5).
  split; [|repeat split; try assumption].
  - rewrite POST_task_in_memory by exact Hv.
    rewrite Map_set_fresh; [reflexivity|]. apply ids_fresh. by apply reachable_ids.
  - intros k Hk. rewrite H5.
    + apply (task_schema_keys body now); [by left|].
      intros Hin. apply Hk. apply elem_of_app. by left.
    + intros Hin. apply Hk. apply elem_of_app. by right.
Qed.

(** The owners of the stored tasks are objects, as ObjectIds are. *)
Definition owners_are_objects (st : store) : Prop :=
  Forall (fun task : obj => is_primitive (get task "user") = false)
         (Map_values (inMemoryTasks st)).

Lemma owners_are_objects_not_own id userId st :
  is_primitive userId = false -> owners_are_objects st -> not_own id userId st.
Proof.
  intros Hu Hst. unfold not_own.
  destruct (Map_get _ _) as [t|] eqn:Hget; [|exact I].
  apply loose_eq_objects; [|exact Hu].
  exact (Forall_values_get _ _ _ _ Hst Hget).
Qed.

(** X9.  A task the fallback files is never found again.  The middleware
    hands on the [_id] of the user document, an ObjectId, and two objects
    are never [==].  So for a requester known by an ObjectId, over a store
    whose owners are objects: a validated [POST /api/tasks] served by the
    fallback files the task under that owner and keeps the store such; and
    in every such store, whenever the call of the model rejects,
    [GET], [PUT] (validated) and [DELETE /api/tasks/:id] answer 404 for
    every identifier and leave the store as it was, and the listing is
    empty. *)
Theorem filed_task_is_never_found
    (user : obj) (hex : string) (st : store) :
  get user "id" = VObjectId hex ->
  owners_are_objects st ->
  (forall details body e now,
      createTaskSchema now body = true ->
      exists task st',
        POST_task (inr user) details body (Throw e) now st
        = (ok 201 (Some "Task created successfully") (DataTask task), st')
        /\ get task "user" = VObjectId hex
        /\ Map_get (VNum (taskCounter st)) (inMemoryTasks st') = Some task
        /\ owners_are_objects st')
  /\ (forall id Task_findOne e,
        Task_findOne (by_id id (get user "id")) = Throw e ->
        GET_task (inr user) id Task_findOne st
        = (failure 404 "Task not found", st))
  /\ (forall details id body Task_findOneAndUpdate e now,
        Task_findOneAndUpdate (by_id id (get user "id")) body = Throw e ->
        updateTaskSchema body = true ->
        PUT_task (inr user) details id body Task_findOneAndUpdate now st
        = (failure 404 "Task not found", st))
  /\ (forall id Task_findOneAndDelete e,
        Task_findOneAndDelete (by_id id (get user "id")) = Throw e ->
        DELETE_task (inr user) id Task_findOneAndDelete st
        = (failure 404 "Task not found", st))
  /\ (forall e, findUserTasks (Throw e) (get user "id") ∅ st = Normal []).
Proof.
  intros Hid Hst.
  assert (Hobj : is_primitive (get user "id") = false) by (by rewrite Hid).
  assert (Hown : forall id,
    owned (Map_get (parseInt id) (inMemoryTasks st)) (get user "id") = None).
  { intros id. apply not_own_owned. by apply owners_are_objects_not_own. }
  split; [|split; [|split; [|split]]].
  - intros details body e now Hv.
    assert (Hno : body !! "_id" = None).
    { apply (task_schema_keys body now); [by left|].
      apply not_task_key. repeat constructor. }
    destruct (new_task_lookup body (get user "id") (taskCounter st) now Hno)
      as (_ & Hu & _).
    assert (Huser : get (new_task body (get user "id") (taskCounter st) now) "user"
                    = VObjectId hex).
    { unfold get at 1. by rewrite Hu. }
    eexists _, _. split; [by apply POST_task_in_memory|].
    split; [exact Huser|]. split; [apply Map_get_set_eq|].
    unfold owners_are_objects. cbn [inMemoryTasks].
    apply Forall_values_set; [by rewrite Huser|exact Hst].
  - intros id Task_findOne e Hcall.
    unfold GET_task, protected, get_task, findTaskById.
    by rewrite Hcall, Hown.
  - intros details id body Task_findOneAndUpdate e now Hcall Hv.
    unfold PUT_task, protected, validated, validate, put_task, updateTask.
    by rewrite Hv, Hcall, Hown.
  - intros id Task_findOneAndDelete e Hcall.
    unfold DELETE_task, protected, delete_task, deleteTask.
    by rewrite Hcall, Hown.
  - intros e.
    assert (Hnone :
      List.filter (fun task : obj => loose_eq (get task "user") (get user "id"))
                  (Map_values (inMemoryTasks st)) = []).
    { apply filter_none. eapply Forall_impl; [exact Hst|]. intros task Ht.
      by apply loose_eq_objects. }
    unfold findUserTasks. rewrite Hnone. reflexivity.
Qed.
End TaskStore.

(** ** The other middleware *)

Section Middleware.
Context {P : Platform}.

Lemma authenticate_failure authHeader now User_findById r :
  authenticate authHeader now User_findById = inl r ->
  success r = false /\ (status r = 401 \/ status r = 500).
Proof.
  unfold authenticate.
  destruct authHeader as [h|]; [|intros [= <-]; auto].
  destruct (String.eqb h "" || negb (startsWith "Bearer " h)); [intros [= <-]; auto|].
  destruct (String.eqb (substring_from 7 h) ""); [intros [= <-]; auto|].
  destruct (bind _ _) as [[user|]|e].
  - destruct (truthy _); [discriminate|intros [= <-]; auto].
  - intros [= <-]; auto.
  - repeat destruct (String.eqb _ _); intros [= <-]; auto.
Qed.

(** X1.  [optionalAuth] attaches an identity to the request exactly when
    [authenticate] would let the request through, and it is the same
    identity; in every case in which [authenticate] answers an error,
    [optionalAuth] passes the request on without one. *)
Theorem optionalAuth_as_authenticate
    (authHeader : option string) (now : Z)
    (User_findById : val -> completion (option obj)) :
  optionalAuth authHeader now User_findById
  = match authenticate authHeader now User_findById with
    | inr user => Some user
    | inl _ => None
    end.
Proof.
  unfold optionalAuth, authenticate.
  destruct authHeader as [h|]; [|reflexivity].
  destruct (String.eqb h ""); cbn [negb andb orb]; [reflexivity|].
  destruct (startsWith "Bearer " h); cbn [negb andb orb]; [|reflexivity].
  destruct (String.eqb (substring_from 7 h) ""); cbn [negb]; [reflexivity|].
  destruct (bind _ _) as [[user|]|e]; [|reflexivity|].
  - by destruct (truthy _).
  - by repeat destruct (String.eqb _ _).
Qed.

(** X2.  [GET /api/users] lists users for an authenticated requester whose
    role is the string [admin], and for nobody else: any other requester is
    answered 403, a failed authentication with its 401 or 500.  The route
    never changes the store, and the list the fallback builds holds the
    active users of the map, each without its password, with [total] their
    number. *)
Theorem users_list_is_for_admins
    (authHeader : option string) (now : Z)
    (User_findById : val -> completion (option obj))
    (mongo : completion (list obj)) (st : UserRoutes.store) :
  let auth := authenticate authHeader now User_findById in
  let answer := UserRoutes.GET_users auth mongo st in
  answer.2 = st
  /\ (status answer.1 = 200 <->
      exists user, auth = inr user /\ get user "role" = VStr "admin")
  /\ (forall user, auth = inr user -> get user "role" <> VStr "admin" ->
        answer.1 = failure 403 "Access denied. Insufficient permissions.")
  /\ (forall user, auth = inr user -> get user "role" = VStr "admin" ->
        exists users,
          answer.1 = ok 200 None (DataUsers users (Z.of_nat (length users)))
          /\ (forall e, mongo = Throw e ->
                users = delete "password" <$>
                          List.filter (fun u => truthy (get u "isActive"))
                                      (Map_values (UserRoutes.inMemoryUsers st))
                /\ Forall (fun u : obj => u !! "password" = None) users)).
Proof.
  intros auth answer. subst answer.
  unfold UserRoutes.GET_users, protected, validated, authorize.
  destruct auth as [r|user] eqn:Hauth.
  - apply authenticate_failure in Hauth as [_ Hs].
    split; [reflexivity|]. split; [|split; intros user [=]].
    cbn [fst]. split; [intros H200; rewrite H200 in Hs; by destruct Hs|].
    by intros (user & [=] & _).
  - destruct (decide (get user "role" = VStr "admin")) as [Hrole|Hrole].
    + rewrite bool_decide_eq_true_2 by (rewrite Hrole; left).
      split; [reflexivity|]. split; [|split].
      * cbn [fst]. split; [intros _; by exists user|reflexivity].
      * intros ? [= <-] Hne. contradiction.
      * intros ? [= <-] _. unfold UserRoutes.get_users. eexists.
        split; [reflexivity|]. intros e ->. split; [reflexivity|].
        apply Forall_fmap, Forall_forall. intros u _. apply lookup_delete_eq.
    + rewrite bool_decide_eq_false_2
        by (intros Hin; apply list_elem_of_singleton in Hin; contradiction).
      split; [reflexivity|]. split; [|split].
      * cbn [fst status failure]. split; [intros [=]|].
        intros (u & [= <-] & Hu). contradiction.
      * reflexivity.
      * intros ? [= <-] Hu. contradiction.
Qed.
End Middleware.

(** ** The in-memory map of routes/users.js *)

Section UsersStore.
Context {P : Platform}.
Import UserRoutes.

(** A request to one of the routes of the file. *)
Inductive users_request : Type :=
| GetProfile (auth : response + obj) (mongo : completion (option document))
| PutProfile (auth : response + obj) (details : list string) (body : obj)
             (mongo : completion (option document)) (now : Z)
| GetUserStats (auth : response + obj) (mongo : completion (option document))
| DeleteProfile (auth : response + obj) (mongo : completion (option document))
                (now : Z)
| GetUsers (auth : response + obj) (mongo : completion (list obj)).

Definition users_serve (r : users_request) (st : store) : store :=
  match r with
  | GetProfile auth mongo => (GET_profile auth mongo st).2
  | PutProfile auth details body mongo now =>
      (PUT_profile auth details body mongo now st).2
  | GetUserStats auth mongo => (GET_user_stats auth mongo st).2
  | DeleteProfile auth mongo now => (DELETE_profile auth mongo now st).2
  | GetUsers auth mongo => (GET_users auth mongo st).2
  end.

Inductive users_reachable : store -> Prop :=
| users_reach_initial : users_reachable initial
| users_reach_step r st :
    users_reachable st -> users_reachable (users_serve r st).

Lemma update_first_keys id (updateData : obj) now m :
  (update_first id updateData now m).2.*1 = m.*1.
Proof.
  induction m as [|[email user] r IH]; [reflexivity|].
  cbn [update_first]. destruct (loose_eq _ _); [reflexivity|].
  destruct (update_first id updateData now r) as [res r'] eqn:Hr.
  cbn [snd] in *. rewrite !fmap_cons. by rewrite IH.
Qed.

(** No route adds or removes a key of the map. *)
Lemma users_serve_keys r st :
  (inMemoryUsers (users_serve r st)).*1 = (inMemoryUsers st).*1.
Proof.
  assert (Hupd : forall mongo id updateData now,
            (inMemoryUsers (updateUser mongo id updateData now st).2).*1
            = (inMemoryUsers st).*1).
  { intros mongo id updateData now. unfold updateUser.
    destruct mongo as [u|e]; [reflexivity|].
    pose proof (update_first_keys id updateData now (inMemoryUsers st)) as Hk.
    by destruct (update_first id updateData now (inMemoryUsers st)). }
  destruct r as [auth mongo|auth details body mongo now|auth mongo|auth mongo now
                |auth mongo]; unfold users_serve;
    (destruct auth as [resp|user]; [reflexivity|]).
  - reflexivity.
  - unfold PUT_profile, protected, validated, validate.
    destruct (updateProfileSchema body); [|reflexivity].
    unfold put_profile.
    specialize (Hupd mongo (get user "id") (profile_patch body) now).
    by destruct (updateUser mongo (get user "id") (profile_patch body) now st)
      as [[u|] st'].
  - reflexivity.
  - unfold DELETE_profile, protected, delete_profile.
    specialize (Hupd mongo (get user "id") {[ "isActive" := VBool false ]} now).
    by destruct (updateUser mongo (get user "id") {[ "isActive" := VBool false ]} now st)
      as [[u|] st'].
  - unfold GET_users, protected, validated.
    by destruct (authorize _ _).
Qed.

Lemma users_reachable_empty st : users_reachable st -> st = initial.
Proof.
  induction 1 as [|r st _ IH]; [reflexivity|]. subst st.
  pose proof (users_serve_keys r initial) as Hk.
  destruct (users_serve r initial) as [m]. cbn [inMemoryUsers initial] in Hk.
  destruct m; [reflexivity|discriminate].
Qed.

(** X3.  Nothing in routes/users.js puts a user into its [inMemoryUsers]
    map: whatever requests have been served the map is empty, so when the
    model fails the profile routes answer 404 "User not found" for every
    requester and the administrators' list is empty. *)
Theorem users_fallback_finds_nobody
    (st : store) (user : obj) (e : string) (details : list string)
    (body : obj) (now : Z) :
  users_reachable st ->
  st = initial
  /\ (forall r, (inMemoryUsers (users_serve r st)).*1 = (inMemoryUsers st).*1)
  /\ GET_profile (inr user) (Throw e) st = (failure 404 "User not found", st)
  /\ (updateProfileSchema body = true ->
      PUT_profile (inr user) details body (Throw e) now st
      = (failure 404 "User not found", st))
  /\ DELETE_profile (inr user) (Throw e) now st
     = (failure 404 "User not found", st)
  /\ GET_user_stats (inr user) (Throw e) st
     = (inl (failure 404 "User not found"), st)
  /\ (get user "role" = VStr "admin" ->
      GET_users (inr user) (Throw e) st = (ok 200 None (DataUsers [] 0), st)).
Proof.
  intros Hr. apply users_reachable_empty in Hr. subst st.
  split; [reflexivity|]. split; [intros r; apply users_serve_keys|].
  split; [reflexivity|]. split; [|split; [reflexivity|split; [reflexivity|]]].
  - intros Hv. unfold PUT_profile, protected, validated, validate.
    by rewrite Hv.
  - intros Hrole. unfold GET_users, protected, validated, authorize.
    rewrite bool_decide_eq_true_2 by (rewrite Hrole; left). reflexivity.
Qed.

(** *** Profile completion *)

(** A field counts when it is text with something other than white space. *)
Definition has_text (v : val) : bool :=
  match v with
  | VStr s => negb (String.eqb (trim s) "")
  | _ => false
  end.

Lemma filled_in_text v b : filled_in v = Normal b -> b = has_text v.
Proof.
  unfold filled_in, has_text.
  destruct v as [| |[]|n| | |s|d|xs|h]; cbn [truthy]; try (intros [= <-]; reflexivity);
    try discriminate.
  - destruct (negb (n =? 0)); [discriminate|by intros [= <-]].
  - destruct (String.eqb s "") eqn:Hs; cbn [negb].
    + apply String.eqb_eq in Hs. subst s. by intros [= <-].
    + by intros [= <-].
Qed.

(** X4.  [calculateProfileCompletion] counts three fields against a total
    of four: when it returns, the result is 25 times the number of fields
    among name, email and avatar that are filled in, so one of 0, 25, 50 and
    75, and [GET /api/users/stats] never reports 100. *)
Theorem profile_completion_stops_at_75 (user : obj) (v : val) :
  calculateProfileCompletion user = Normal v ->
  v = VNum (25 * ((if has_text (get user "name") then 1 else 0)
                  + (if has_text (get user "email") then 1 else 0)
                  + (if truthy (get user "avatar") then 1 else 0)))
  /\ v ∈ [VNum 0; VNum 25; VNum 50; VNum 75]
  /\ (forall auth mongo st s,
        (GET_user_stats auth mongo st).1 = inr s ->
        profileCompletion s ∈ [VNum 0; VNum 25; VNum 50; VNum 75]
        /\ profileCompletion s <> VNum 100).
Proof.
  assert (Hcalc : forall u w, calculateProfileCompletion u = Normal w ->
            w = VNum (25 * ((if has_text (get u "name") then 1 else 0)
                            + (if has_text (get u "email") then 1 else 0)
                            + (if truthy (get u "avatar") then 1 else 0)))).
  { intros u w. unfold calculateProfileCompletion.
    destruct (filled_in (get u "name")) as [name|] eqn:Hn; [|discriminate].
    destruct (filled_in (get u "email")) as [email|] eqn:He; [|discriminate].
    apply filled_in_text in Hn, He. rewrite <- Hn, <- He. cbn [bind].
    intros [= <-].
    destruct name, email, (truthy (get u "avatar")); vm_compute; reflexivity. }
  assert (Hlist : forall u w, calculateProfileCompletion u = Normal w ->
            w ∈ [VNum 0; VNum 25; VNum 50; VNum 75]).
  { intros u w Hw. rewrite (Hcalc u w Hw).
    destruct (has_text (get u "name")), (has_text (get u "email")),
             (truthy (get u "avatar")); cbn -[elem_of]; repeat constructor. }
  intros Hv. split; [by apply Hcalc|]. split; [by eapply Hlist|].
  intros auth mongo st s. unfold GET_user_stats, get_user_stats.
  destruct auth as [r|who]; [discriminate|]. cbn [fst].
  destruct (findUserById _ _ _) as [u|]; [|discriminate].
  destruct (calculateProfileCompletion (fields u)) as [w|] eqn:Hw; [|discriminate].
  intros [= <-]. cbn [profileCompletion].
  pose proof (Hlist _ _ Hw) as Hin. split; [exact Hin|].
  intros ->. repeat (apply elem_of_cons in Hin as [[=]|Hin]).
  by apply elem_of_nil in Hin.
Qed.
End UsersStore.

(** ** The query of the model and the filter of the fallback *)

Section Query.
Context {P : Platform}.
Import TaskModel TaskRoutes.

(** The pattern a filter entry is compiled from, when the entry applies. *)
Definition pattern_of (filter : obj) (k : string) : option string :=
  if truthy (get filter k) then Some (ToString (get filter k)) else None.

(** The patterns of a filter compile. *)
Definition patterns_compile (filter : obj) : Prop :=
  forall k p, k = "category" \/ k = "search" ->
    pattern_of filter k = Some p -> exists re, RegExp_i p = Normal re.

Lemma getUserTasks_query_cases userId filter :
  match getUserTasks_query userId filter with
  | Normal _ => patterns_compile filter
  | Throw e =>
      exists k p, (k = "category" \/ k = "search")
                  /\ pattern_of filter k = Some p /\ RegExp_i p = Throw e
  end.
Proof.
  unfold getUserTasks_query, patterns_compile, pattern_of.
  destruct (truthy (get filter "category")) eqn:Hc;
    destruct (truthy (get filter "search")) eqn:Hs; cbn [bind].
  - destruct (RegExp_i (ToString (get filter "category"))) as [re|e] eqn:Hre; cbn [bind].
    + destruct (RegExp_i (ToString (get filter "search"))) as [re'|e] eqn:Hre'; cbn [bind].
      * intros k p [->| ->]; [rewrite Hc|rewrite Hs]; intros [= <-]; eauto.
      * exists "search", (ToString (get filter "search")). rewrite Hs. auto.
    + exists "category", (ToString (get filter "category")). rewrite Hc. auto.
  - destruct (RegExp_i (ToString (get filter "category"))) as [re|e] eqn:Hre; cbn [bind].
    + intros k p [->| ->]; [rewrite Hc|rewrite Hs]; intros [= <-]; eauto.
    + exists "category", (ToString (get filter "category")). rewrite Hc. auto.
  - destruct (RegExp_i (ToString (get filter "search"))) as [re'|e] eqn:Hre'; cbn [bind].
    + intros k p [->| ->]; [rewrite Hc|rewrite Hs]; intros [= <-]; eauto.
    + exists "search", (ToString (get filter "search")). rewrite Hs. auto.
  - intros k p [->| ->]; [rewrite Hc|rewrite Hs]; intros [=].
Qed.

(** X5.  The query [getUserTasks] hands to the model is always restricted
    to the requesting user, whatever the filter holds: its [user] condition
    is equality with the user's identifier, its other conditions are among
    [status], [priority], [category] and [$or], each present exactly when
    the filter entry is truthy, and the regular expressions are compiled
    from the filter texts as they are. *)
Theorem getUserTasks_query_is_scoped
    (userId : val) (filter : obj) (query : gmap string condition) :
  getUserTasks_query userId filter = Normal query ->
  query !! "user" = Some (Equals userId)
  /\ dom query ⊆ ({["user"; "status"; "priority"; "category"; "$or"]} : gset string)
  /\ query !! "status"
     = (if truthy (get filter "status") then Some (Equals (get filter "status"))
        else None)
  /\ query !! "priority"
     = (if truthy (get filter "priority")
        then Some (Equals (get filter "priority")) else None)
  /\ query !! "category" = Matches <$> pattern_of filter "category"
  /\ query !! "$or"
     = ((fun p => AnyOf [("title", p); ("description", p); ("tags", p)])
          <$> pattern_of filter "search").
Proof.
  unfold getUserTasks_query, pattern_of.
  destruct (truthy (get filter "status")); destruct (truthy (get filter "priority"));
    destruct (truthy (get filter "category")); destruct (truthy (get filter "search"));
    cbn [bind];
    repeat (destruct (RegExp_i _); cbn [bind]; [|discriminate]);
    intros [= <-];
    (split; [by simplify_map_eq|]);
    (split; [rewrite ?dom_insert_L, dom_singleton_L; set_solver|]);
    repeat split; by simplify_map_eq.
Qed.

(** X6.  A category or search text that is not a valid regular expression
    makes [GET /api/tasks] answer 500 on either backend: building the
    model's query throws before the database is asked, the fallback taken
    then compiles the same text and throws again, and the route answers
    "Server error fetching tasks" without touching the store. *)
Theorem invalid_pattern_is_server_error
    (user query : obj)
    (find : gmap string condition -> completion (list obj))
    (st : store) (k : string) (e : string) :
  k = "category" \/ k = "search" ->
  truthy (get query k) = true ->
  RegExp_i (ToString (get query k)) = Throw e ->
  (exists e', getUserTasks find (get user "id") (build_filter query) = Throw e')
  /\ GET_tasks (inr user) query
       (getUserTasks find (get user "id") (build_filter query)) st
     = (failure 500 "Server error fetching tasks", st).
Proof.
  intros Hk Ht Hre.
  assert (Hget : get (build_filter query) k = get query k).
  { unfold build_filter.
    destruct Hk as [->| ->];
      destruct (truthy (get query "status")), (truthy (get query "priority")),
               (truthy (get query "category")), (truthy (get query "search"));
      try congruence;
      rewrite ?get_insert_ne by discriminate; apply get_insert_eq. }
  pose proof (getUserTasks_query_cases (get user "id") (build_filter query)) as Hq.
  unfold getUserTasks.
  destruct (getUserTasks_query (get user "id") (build_filter query)) as [q|e'] eqn:Hquery.
  - exfalso. destruct (Hq k (ToString (get query k)) Hk) as [re Hre'].
    + unfold pattern_of. by rewrite Hget, Ht.
    + congruence.
  - cbn [bind]. split; [by exists e'|].
    unfold GET_tasks, protected, get_tasks.
    assert (Hthrow : exists e'', findUserTasks (Throw e') (get user "id")
                                   (build_filter query) st = Throw e'').
    { unfold findUserTasks.
      destruct (truthy (get (build_filter query) "category")) eqn:Hc.
      - destruct (RegExp_i (ToString (get (build_filter query) "category")))
          as [re|ec] eqn:Hrc; cbn [bind]; [|eauto].
        destruct Hk as [->| ->]; [rewrite Hget in Hrc; congruence|].
        rewrite Hget, Ht, Hre. cbn [bind]. eauto.
      - cbn [bind]. destruct Hk as [->| ->]; [rewrite Hget, Ht in Hc; discriminate|].
        rewrite Hget, Ht, Hre. cbn [bind]. eauto. }
    destruct Hthrow as [e'' ->]. reflexivity.
Qed.
End Query.

(** ** The save hook of the model *)

Section SaveHook.
Import TaskModel.

Lemma pre_save_cases (doc : obj) (now : Z) :
  let completed := strict_eq (get doc "status") (VStr "completed") in
  let dated := truthy (get doc "completedAt") in
  pre_save doc now
  = let d1 := <["updatedAt" := VDate (Some now)]> doc in
    if completed && negb dated then <["completedAt" := VDate (Some now)]> d1
    else if negb completed && dated then <["completedAt" := VNull]> d1
    else d1.
Proof.
  unfold pre_save. cbv zeta.
  rewrite !(get_insert_ne doc "updatedAt") by discriminate.
  destruct (strict_eq (get doc "status") (VStr "completed")) eqn:Hs;
    destruct (truthy (get doc "completedAt")) eqn:Hc; cbn [negb andb].
  - rewrite !(get_insert_ne doc "updatedAt") by discriminate.
    by rewrite Hs, Hc.
  - rewrite !get_insert_ne by discriminate. rewrite Hs. cbn [negb andb].
    reflexivity.
  - rewrite !(get_insert_ne doc "updatedAt") by discriminate.
    by rewrite Hs, Hc.
  - rewrite !(get_insert_ne doc "updatedAt") by discriminate.
    by rewrite Hs, Hc.
Qed.

(** X12.  The [pre('save')] hook touches two fields only, [updatedAt],
    which becomes the time of the save, and [completedAt]: a completed task
    keeps the completion date it has or is given the time of the save, any
    other task with a completion date has it set to null.  Saving again
    changes nothing but [updatedAt]. *)
Theorem pre_save_frame (doc : obj) (now later : Z) :
  let saved := pre_save doc now in
  let completed := strict_eq (get doc "status") (VStr "completed") in
  let dated := truthy (get doc "completedAt") in
  (forall k, k <> "updatedAt" -> k <> "completedAt" -> saved !! k = doc !! k)
  /\ saved !! "updatedAt" = Some (VDate (Some now))
  /\ saved !! "completedAt"
     = (if completed
        then if dated then doc !! "completedAt" else Some (VDate (Some now))
        else if dated then Some VNull else doc !! "completedAt")
  /\ pre_save saved later = <["updatedAt" := VDate (Some later)]> saved.
Proof.
  intros saved completed dated.
  assert (Hsaved : saved
            = let d1 := <["updatedAt" := VDate (Some now)]> doc in
              if completed && negb dated then <["completedAt" := VDate (Some now)]> d1
              else if negb completed && dated then <["completedAt" := VNull]> d1
              else d1) by apply pre_save_cases.
  assert (Hframe : forall k, k <> "updatedAt" -> k <> "completedAt" ->
                     saved !! k = doc !! k).
  { intros k H1 H2. rewrite Hsaved. cbv zeta.
    destruct completed, dated; cbn [negb andb];
      rewrite ?lookup_insert_ne by congruence; reflexivity. }
  assert (Hdate : saved !! "completedAt"
                  = (if completed
                     then if dated then doc !! "completedAt"
                          else Some (VDate (Some now))
                     else if dated then Some VNull else doc !! "completedAt")).
  { rewrite Hsaved. cbv zeta.
    destruct completed, dated; cbn [negb andb];
      rewrite ?lookup_insert_eq; try reflexivity;
      by rewrite lookup_insert_ne. }
  split; [exact Hframe|]. split; [|split; [exact Hdate|]].
  - rewrite Hsaved. cbv zeta.
    destruct completed, dated; cbn [negb andb];
      rewrite ?(lookup_insert_ne _ "completedAt") by discriminate;
      apply lookup_insert_eq.
  - rewrite pre_save_cases. cbv zeta.
    assert (Hstatus : get saved "status" = get doc "status")
      by (unfold get; by rewrite Hframe).
    rewrite Hstatus. fold completed.
    assert (Hd : truthy (get saved "completedAt")
                 = (if completed then true else false)).
    { unfold get. rewrite Hdate. subst dated. unfold get.
      destruct completed; destruct (doc !! "completedAt") as [v|] eqn:Hv;
        unfold default, id; try destruct (truthy v) eqn:Htv; cbn [truthy];
        try reflexivity; assumption. }
    rewrite Hd. by destruct completed.
Qed.
End SaveHook.

(** ** The in-memory accounts of routes/auth.js *)

Section MapValues.
Context {K V B : Type} `{EqDecision K} (f : K * V -> B).
Implicit Types (m : list (K * V)) (k : K) (v : V).

Lemma elem_of_Map_set m k v (x : K * V) :
  x ∈ Map_set k v m -> x = (k, v) \/ x ∈ m.
Proof.
  induction m as [|[k' v'] r IH]; simpl.
  - intros Hx. apply list_elem_of_singleton in Hx. by left.
  - destruct (decide (k' = k)); rewrite !elem_of_cons; intuition.
Qed.

Lemma NoDup_keys_set m k v : NoDup m.*1 -> NoDup (Map_set k v m).*1.
Proof.
  intros Hnd. destruct (Map_get k m) as [v0|] eqn:Hget.
  - rewrite Map_set_keys; [exact Hnd|by rewrite Hget].
  - rewrite Map_set_fresh by exact Hget. rewrite fmap_app.
    apply NoDup_app. repeat split; [exact Hnd| |apply NoDup_singleton].
    intros x Hx Hx'. apply list_elem_of_singleton in Hx'. cbn [fst] in Hx'.
    subst x. by apply (Map_get_None m k).
Qed.

(** Replacing or adding an entry whose image is new keeps the images
    distinct. *)
Lemma NoDup_fmap_set m k v :
  f (k, v) ∉ f <$> m -> NoDup (f <$> m) -> NoDup (f <$> Map_set k v m).
Proof.
  induction m as [|[k' v'] r IH]; simpl; intros Hnew Hnd.
  - apply NoDup_singleton.
  - rewrite not_elem_of_cons in Hnew. destruct Hnew as [Hne Hnew].
    apply NoDup_cons in Hnd as [Hhd Hnd].
    destruct (decide (k' = k)) as [->|Hk]; rewrite fmap_cons.
    + apply NoDup_cons. split; assumption.
    + apply NoDup_cons. split; [|auto].
      intros Hin. apply list_elem_of_fmap in Hin as (x & Hx & Hin).
      apply elem_of_Map_set in Hin as [->|Hin]; [congruence|].
      apply Hhd. rewrite Hx. by apply list_elem_of_fmap_2.
Qed.

(** Replacing the value of a present key by one with the same image. *)
Lemma fmap_Map_set_same m k v v0 :
  Map_get k m = Some v0 -> f (k, v) = f (k, v0) ->
  f <$> Map_set k v m = f <$> m.
Proof.
  intros Hget Hf. induction m as [|[k' v'] r IH]; simpl in *; [discriminate|].
  destruct (decide (k' = k)) as [->|Hk].
  - injection Hget as ->. rewrite !fmap_cons. by rewrite Hf.
  - rewrite !fmap_cons. by rewrite IH.
Qed.
End MapValues.

Lemma lower_char_idempotent c : lower_char (lower_char c) = lower_char c.
Proof. destruct c as [[] [] [] [] [] [] [] []]; reflexivity. Qed.

Lemma toLowerCase_idempotent s : toLowerCase (toLowerCase s) = toLowerCase s.
Proof.
  induction s as [|c s IH]; [reflexivity|].
  cbn [toLowerCase]. by rewrite lower_char_idempotent, IH.
Qed.

Section Accounts.
Context {P : Platform}.
Import AuthRoutes.

(** A request to one of the routes of the file. *)
Inductive auth_request : Type :=
| Register (details : list string) (body : obj)
           (mongo_find : completion (option document))
           (mongo_create : completion obj) (salt now : Z)
| Login (details : list string) (body : obj)
        (mongo_find : completion (option document)) (now : Z)
| Me (auth : response + obj) (mongo_find : completion (option document))
| Logout (auth : response + obj)
| Verify (auth : response + obj).

Definition auth_serve (r : auth_request) (st : store) : store :=
  match r with
  | Register details body mongo_find mongo_create salt now =>
      (POST_register details body mongo_find mongo_create salt now st).2
  | Login details body mongo_find now =>
      (POST_login details body mongo_find now st).2
  | Me auth mongo_find => (GET_me auth mongo_find st).2
  | Logout auth => (POST_logout auth st).2
  | Verify auth => (GET_verify auth st).2
  end.

Inductive auth_reachable : store -> Prop :=
| auth_reach_initial : auth_reachable initial
| auth_reach_step r st : auth_reachable st -> auth_reachable (auth_serve r st).

(** An account as [createUser] files it and [login] keeps it. *)
Definition account_ok (counter : Z) (entry : string * obj) : Prop :=
  toLowerCase entry.1 = entry.1
  /\ entry.2 !! "email" = Some (VStr entry.1)
  /\ (exists n, entry.2 !! "_id" = Some (VNum n) /\ 1 <= n < counter)
  /\ entry.2 !! "role" = Some (VStr "user")
  /\ entry.2 !! "isActive" = Some (VBool true)
  /\ (exists hash, entry.2 !! "password" = Some (VStr hash)).

Definition account_id (entry : string * obj) : option val := entry.2 !! "_id".

Definition accounts_ok (st : store) : Prop :=
  Forall (account_ok (userCounter st)) (inMemoryUsers st)
  /\ NoDup (inMemoryUsers st).*1
  /\ NoDup (account_id <$> inMemoryUsers st)
  /\ 1 <= userCounter st.

Lemma account_ok_mono c c' entry :
  c <= c' -> account_ok c entry -> account_ok c' entry.
Proof.
  intros Hc (H1 & H2 & (n & Hn & Hlt) & H4 & H5 & H6).
  repeat split; try assumption. exists n. split; [assumption|lia].
Qed.

(** The stores a registration can leave. *)
Lemma register_store body mongo_find mongo_create salt now st :
  let st' := (register body mongo_find mongo_create salt now st).2 in
  st' = st
  \/ st' = {| inMemoryUsers := inMemoryUsers st; userCounter := userCounter st + 1 |}
  \/ exists email pw,
       st' = {| inMemoryUsers :=
                  Map_set (toLowerCase email)
                    (new_user (get body "name") email (bcrypt_hash salt pw)
                              (userCounter st) now)
                    (inMemoryUsers st);
                userCounter := userCounter st + 1 |}.
Proof.
  unfold register.
  destruct (findUserByEmail mongo_find (get body "email") st) as [[u|]|e];
    [by left| |by left].
  unfold createUser. destruct mongo_create as [profile|e].
  { destruct (generateToken _ now); by left. }
  change (get {[ "name" := get body "name"; "email" := get body "email";
                 "password" := get body "password" ]} "password")
    with (get body "password").
  change (get {[ "name" := get body "name"; "email" := get body "email";
                 "password" := get body "password" ]} "email")
    with (get body "email").
  change (get {[ "name" := get body "name"; "email" := get body "email";
                 "password" := get body "password" ]} "name")
    with (get body "name").
  destruct (get body "password") as [| | | | | |pw| | |]; try (by left).
  destruct (get body "email") as [| | | | | |email| | |];
    try (right; by left).
  right. right. exists email, pw.
  destruct (generateToken _ now); reflexivity.
Qed.

(** The stores a login can leave. *)
Lemma login_store body mongo_find now st :
  let st' := (login body mongo_find now st).2 in
  st' = st
  \/ exists email account,
       Map_get (toLowerCase email) (inMemoryUsers st) = Some account
       /\ st' = {| inMemoryUsers :=
                     Map_set (toLowerCase email)
                       (<["lastLogin" := VDate (Some now)]> account)
                       (inMemoryUsers st);
                   userCounter := userCounter st |}.
Proof.
  unfold login, findUserByEmail.
  destruct mongo_find as [[d|]|e].
  - cbn [fmap option_fmap option_map fields]. left.
    destruct (negb _); [reflexivity|].
    destruct (verifyPassword _ _ _) as [[|]|]; try reflexivity.
    destruct (save d); [|reflexivity]. by destruct (generateToken _ now).
  - by left.
  - destruct (get body "email") as [| | | | | |email| | |]; try (by left).
    destruct (Map_get (toLowerCase email) (inMemoryUsers st)) as [account|] eqn:Hget;
      [|by left].
    cbn [fmap option_fmap option_map fields].
    destruct (negb _); [by left|].
    destruct (verifyPassword _ _ _) as [[|]|]; try (by left).
    rewrite (Map_has_get _ _ _ Hget).
    right. exists email, account. split; [exact Hget|].
    by destruct (generateToken _ now).
Qed.

Lemma new_user_id name email hashed id now :
  new_user name email hashed id now !! "_id" = Some (VNum id).
Proof. reflexivity. Qed.

Lemma new_account_ok name email hashed id now c :
  1 <= id < c ->
  account_ok c (toLowerCase email, new_user name email hashed id now).
Proof.
  intros Hid. split; [apply toLowerCase_idempotent|].
  split; [reflexivity|]. split; [by exists id|].
  split; [reflexivity|]. split; [reflexivity|]. by exists hashed.
Qed.

Lemma auth_serve_accounts r st :
  accounts_ok st ->
  accounts_ok (auth_serve r st) /\ userCounter st <= userCounter (auth_serve r st).
Proof.
  intros Hst. pose proof Hst as (Hall & Hkeys & Hids & Hc).
  assert (Hsame : accounts_ok st /\ userCounter st <= userCounter st)
    by (split; [exact Hst|lia]).
  destruct r as [details body mongo_find mongo_create salt now
                |details body mongo_find now|auth mongo_find|auth|auth];
    unfold auth_serve.
  - unfold POST_register, validated, validate.
    destruct (registerSchema body); [|exact Hsame].
    destruct (register_store body mongo_find mongo_create salt now st)
      as [->|[->|(email & pw & ->)]]; [exact Hsame| |].
    + split; [|cbn; lia]. unfold accounts_ok. cbn [inMemoryUsers userCounter].
      repeat split; [|assumption|assumption|lia].
      eapply Forall_impl; [exact Hall|]. intros entry. apply account_ok_mono. lia.
    + split; [|cbn; lia]. unfold accounts_ok. cbn [inMemoryUsers userCounter].
      repeat split; [| | |lia].
      * apply Forall_Map_set; [apply new_account_ok; lia|].
        eapply Forall_impl; [exact Hall|]. intros entry. apply account_ok_mono. lia.
      * by apply NoDup_keys_set.
      * apply NoDup_fmap_set; [|exact Hids].
        intros Hin. apply list_elem_of_fmap in Hin as (entry & Hid & Hin).
        rewrite Forall_forall in Hall.
        destruct (Hall _ Hin) as (_ & _ & (n & Hn & Hlt) & _).
        unfold account_id in Hid. cbn [snd] in Hid.
        rewrite Hn, new_user_id in Hid. injection Hid as Hid. lia.
  - unfold POST_login, validated, validate.
    destruct (loginSchema body); [|exact Hsame].
    destruct (login_store body mongo_find now st)
      as [->|(email & account & Hget & ->)]; [exact Hsame|].
    split; [|cbn; lia]. unfold accounts_ok. cbn [inMemoryUsers userCounter].
    pose proof (Map_get_elem_of _ _ _ Hget) as Hin.
    rewrite Forall_forall in Hall.
    destruct (Hall _ Hin) as (H1 & H2 & H3 & H4 & H5 & H6). cbn [fst snd] in *.
    repeat split; [| | |lia].
    + apply Forall_Map_set; [|by apply Forall_forall].
      repeat split; cbn [fst snd]; rewrite ?lookup_insert_ne by discriminate;
        assumption.
    + by apply NoDup_keys_set.
    + rewrite (fmap_Map_set_same account_id _ _ _ account Hget); [exact Hids|].
      unfold account_id. cbn [snd]. by rewrite lookup_insert_ne.
  - unfold GET_me, protected. by destruct auth.
  - unfold POST_logout, protected. by destruct auth.
  - unfold GET_verify, protected. by destruct auth.
Qed.

Lemma auth_reachable_accounts st : auth_reachable st -> accounts_ok st.
Proof.
  induction 1 as [|r st _ IH].
  - repeat split; [constructor|constructor|constructor|cbn; lia].
  - by apply auth_serve_accounts.
Qed.

Lemma NoDup_fmap_inj {A B} (f : A -> B) (l : list A) x y :
  NoDup (f <$> l) -> x ∈ l -> y ∈ l -> f x = f y -> x = y.
Proof.
  induction l as [|a l IH]; [by intros _ Hx; apply elem_of_nil in Hx|].
  rewrite fmap_cons, NoDup_cons, !elem_of_cons.
  intros [Ha Hnd] [->|Hx] [->|Hy] Hf; auto.
  - destruct Ha. rewrite Hf. by apply list_elem_of_fmap_2.
  - destruct Ha. rewrite <- Hf. by apply list_elem_of_fmap_2.
Qed.

(** X14.  In every store the routes of routes/auth.js can reach there is
    one account per key, the key is the account's email in lower case, the
    account has a numeric [_id] from 1 up to but excluding [userCounter]
    that no other account has, the role [user], [isActive: true] and a
    string as password; the counter never decreases; and a login served by
    the fallback is never answered "Account is deactivated". *)
Theorem accounts_are_unique (st : store) :
  auth_reachable st ->
  1 <= userCounter st
  /\ NoDup (inMemoryUsers st).*1
  /\ (forall key account,
        (key, account) ∈ inMemoryUsers st ->
        toLowerCase key = key
        /\ account !! "email" = Some (VStr key)
        /\ (exists n, account !! "_id" = Some (VNum n)
                      /\ 1 <= n < userCounter st)
        /\ account !! "role" = Some (VStr "user")
        /\ account !! "isActive" = Some (VBool true)
        /\ (exists hash, account !! "password" = Some (VStr hash)))
  /\ (forall key key' account account',
        (key, account) ∈ inMemoryUsers st ->
        (key', account') ∈ inMemoryUsers st ->
        account !! "_id" = account' !! "_id" ->
        key = key' /\ account = account')
  /\ (forall r, userCounter st <= userCounter (auth_serve r st))
  /\ (forall details body e now,
        (POST_login details body (Throw e) now st).1
        <> failure 401 "Account is deactivated").
Proof.
  intros Hr. pose proof (auth_reachable_accounts st Hr) as Hacc.
  pose proof Hacc as (Hall & Hkeys & Hids & Hc).
  rewrite Forall_forall in Hall.
  split; [exact Hc|]. split; [exact Hkeys|].
  split; [intros key account Hin; exact (Hall _ Hin)|].
  split; [|split].
  - intros key key' account account' Hin Hin' Hid.
    assert (Heq : (key, account) = (key', account'))
      by (by apply (NoDup_fmap_inj account_id (inMemoryUsers st))).
    by injection Heq.
  - intros r. by apply auth_serve_accounts.
  - intros details body e now.
    unfold POST_login, validated, validate.
    destruct (loginSchema body); [|discriminate].
    unfold login, findUserByEmail.
    destruct (get body "email") as [| | | | | |email| | |]; try discriminate.
    destruct (Map_get (toLowerCase email) (inMemoryUsers st)) as [account|] eqn:Hget;
      [|discriminate].
    cbn [fmap option_fmap option_map fields].
    apply Map_get_elem_of in Hget.
    destruct (Hall _ Hget) as (_ & _ & _ & _ & Hactive & _). cbn [snd] in Hactive.
    unfold get at 1. rewrite Hactive. cbn [default truthy negb].
    destruct (verifyPassword _ _ _) as [[|]|]; try discriminate.
    destruct (Map_has _ _); by destruct (generateToken _ now).
Qed.

(** X15.  A login served by the fallback succeeds only for an account filed
    under the lower-cased email, active, whose stored password [bcrypt]
    matches with the password sent; it then records [lastLogin] on that
    account, changes no other field and no other account, and answers the
    account without its password and a token for its [_id].  A login
    answered 401 leaves the store as it is. *)
Theorem login_requires_password
    (details : list string) (body : obj) (e : string) (now : Z)
    (st st' : store) (r : response) :
  POST_login details body (Throw e) now st = (r, st') ->
  (status r = 200 ->
   exists email pw account hash token,
     get body "email" = VStr email
     /\ get body "password" = VStr pw
     /\ Map_get (toLowerCase email) (inMemoryUsers st) = Some account
     /\ truthy (get account "isActive") = true
     /\ get account "password" = VStr hash
     /\ bcrypt_compare pw hash = true
     /\ generateToken {[ "id" := get account "_id" ]} now = Normal token
     /\ r = ok 200 (Some "Login successful")
              (DataUserToken
                 (delete "password" (<["lastLogin" := VDate (Some now)]> account))
                 token)
     /\ st' = {| inMemoryUsers :=
                   Map_set (toLowerCase email)
                     (<["lastLogin" := VDate (Some now)]> account)
                     (inMemoryUsers st);
                 userCounter := userCounter st |})
  /\ (status r = 401 ->
      st' = st
      /\ (r = failure 401 "Invalid email or password"
          \/ r = failure 401 "Account is deactivated")).
Proof.
  unfold POST_login, validated, validate.
  destruct (loginSchema body);
    [|intros [= <- <-]; split; cbn [status]; intros [=]].
  unfold login, findUserByEmail.
  destruct (get body "email") as [| | | | | |email| | |] eqn:Hemail;
    try (intros [= <- <-]; split; cbn [status failure]; intros [=]).
  destruct (Map_get (toLowerCase email) (inMemoryUsers st)) as [account|] eqn:Hget;
    cbn [fmap option_fmap option_map fields];
    [|intros [= <- <-]; split; cbn [status failure]; [intros [=]|auto]].
  destruct (truthy (get account "isActive")) eqn:Hactive; cbn [negb];
    [|intros [= <- <-]; split; cbn [status failure]; [intros [=]|auto]].
  unfold verifyPassword.
  destruct (get body "password") as [| | | | | |pw| | |] eqn:Hpw;
    try (intros [= <- <-]; split; cbn [status failure]; intros [=]).
  destruct (get account "password") as [| | | | | |hash| | |] eqn:Hhash;
    try (intros [= <- <-]; split; cbn [status failure]; intros [=]).
  destruct (bcrypt_compare pw hash) eqn:Hcmp;
    [|intros [= <- <-]; split; cbn [status failure]; [intros [=]|auto]].
  rewrite (Map_has_get _ _ _ Hget).
  destruct (generateToken _ now) as [token|] eqn:Htoken;
    [|intros [= <- <-]; split; cbn [status failure]; intros [=]].
  intros [= <- <-]. split; [|cbn [status ok]; intros [=]].
  intros _. exists email, pw, account, hash, token. repeat split; assumption.
Qed.

(** The token [generateToken] issues for a numeric identifier, verified at
    any later time. *)
Lemma token_for_id (n now : Z) (token : string) :
  generateToken {[ "id" := VNum n ]} now = Normal token ->
  exists lifetime,
    ms (env_or "JWT_EXPIRE" "24h") = Some lifetime
    /\ forall now',
         jwt_verify token JWT_SECRET now'
         = if now / 1000 + lifetime / 1000 <=? now' / 1000
           then Throw "TokenExpiredError"
           else Normal (issued_claims (VNum n) now lifetime).
Proof.
  intros Htoken.
  destruct (ms (env_or "JWT_EXPIRE" "24h")) as [lifetime|] eqn:Hms.
  - exists lifetime. split; [reflexivity|]. intros now'.
    rewrite (generateToken_issued (VNum n) now lifetime Hms) in Htoken.
    injection Htoken as <-. apply verify_issued.
  - exfalso. revert Htoken. unfold generateToken, jwt_sign. rewrite Hms.
    destruct (negb _); [discriminate|]. by destruct (bool_decide _).
Qed.

(** X16.  The token a registration served by the fallback returns is a
    token for the account just created: until it expires, [jwt.verify]
    gives claims whose [id] is the [_id] of the user in the same response,
    and from its expiry on it fails with [TokenExpiredError]. *)
Theorem registration_token_identifies_user
    (details : list string) (body : obj) (e1 e2 : string) (salt now : Z)
    (st st1 : store) (r : response) :
  POST_register details body (Throw e1) (Throw e2) salt now st = (r, st1) ->
  status r = 201 ->
  exists user token lifetime,
    data r = DataUserToken user token
    /\ get user "_id" = VNum (userCounter st)
    /\ ms (env_or "JWT_EXPIRE" "24h") = Some lifetime
    /\ (forall now', now' / 1000 < now / 1000 + lifetime / 1000 ->
          exists decoded,
            jwt_verify token JWT_SECRET now' = Normal decoded
            /\ get decoded "id" = get user "_id")
    /\ (forall now', now / 1000 + lifetime / 1000 <= now' / 1000 ->
          jwt_verify token JWT_SECRET now' = Throw "TokenExpiredError").
Proof.
  intros Hreg Hok.
  destruct (POST_register_created _ _ _ _ _ _ _ _ _ Hreg Hok) as [_ Hreg'].
  destruct (register_created _ _ _ _ _ _ _ _ Hreg' Hok)
    as (email & pw & token & _ & _ & _ & Htoken & -> & _).
  destruct (token_for_id _ _ _ Htoken) as (lifetime & Hms & Hverify).
  eexists _, token, lifetime. split; [reflexivity|]. split; [reflexivity|].
  split; [exact Hms|]. split.
  - intros now' Hlt. eexists. rewrite Hverify.
    destruct (Z.leb_spec (now / 1000 + lifetime / 1000) (now' / 1000)); [lia|].
    split; [reflexivity|].
    unfold get at 1.
    destruct (issued_claims_lookup (VNum (userCounter st)) now lifetime)
      as (_ & _ & ->). reflexivity.
  - intros now' Hle. rewrite Hverify.
    by destruct (Z.leb_spec (now / 1000 + lifetime / 1000) (now' / 1000)); [|lia].
Qed.

Lemma registerSchema_strings (body : obj) :
  registerSchema body = true ->
  exists email pw, get body "email" = VStr email /\ get body "password" = VStr pw.
Proof.
  unfold registerSchema. intros Hv.
  apply andb_prop in Hv as [Hv Hpw]. apply andb_prop in Hv as [_ Hemail].
  destruct (get body "email") as [| | | | | |email| | |]; try discriminate.
  destruct (get body "password") as [| | | | | |pw| | |]; try discriminate.
  eauto.
Qed.

(** X17.  Registration is not atomic.  When no token can be issued (the
    configured [JWT_EXPIRE] is not a time span), a valid registration of a
    new email served by the fallback is answered 500 "Server error during
    registration", yet the account has been filed and the counter has moved
    on: the same registration sent again is answered 400 "User with this
    email already exists". *)
Theorem registration_is_not_atomic
    (details : list string) (body : obj) (e1 e2 : string) (salt now : Z)
    (st : store) :
  ms (env_or "JWT_EXPIRE" "24h") = None ->
  registerSchema body = true ->
  (forall email, get body "email" = VStr email ->
     Map_get (toLowerCase email) (inMemoryUsers st) = None) ->
  exists email st1,
    get body "email" = VStr email
    /\ POST_register details body (Throw e1) (Throw e2) salt now st
       = (failure 500 "Server error during registration", st1)
    /\ is_Some (Map_get (toLowerCase email) (inMemoryUsers st1))
    /\ userCounter st1 = userCounter st + 1
    /\ (forall details' e3 mongo_create salt' now',
          POST_register details' body (Throw e3) mongo_create salt' now' st1
          = (failure 400 "User with this email already exists", st1)).
Proof.
  intros Hms Hv Hnew.
  destruct (registerSchema_strings body Hv) as (email & pw & Hemail & Hpw).
  specialize (Hnew email Hemail).
  exists email.
  eexists {| inMemoryUsers :=
               Map_set (toLowerCase email)
                 (new_user (get body "name") email (bcrypt_hash salt pw)
                           (userCounter st) now)
                 (inMemoryUsers st);
             userCounter := userCounter st + 1 |}.
  split; [exact Hemail|]. split; [|split; [|split]].
  - unfold POST_register, validated, validate. rewrite Hv.
    unfold register, findUserByEmail. rewrite Hemail, Hnew.
    cbn [fmap option_fmap option_map]. unfold createUser.
    change (get {[ "name" := get body "name"; "email" := VStr email;
                   "password" := get body "password" ]} "password")
      with (get body "password").
    change (get {[ "name" := get body "name"; "email" := VStr email;
                   "password" := get body "password" ]} "email")
      with (VStr email).
    change (get {[ "name" := get body "name"; "email" := VStr email;
                   "password" := get body "password" ]} "name")
      with (get body "name").
    rewrite Hpw.
    match goal with
    | |- context [generateToken ?p now] =>
        destruct (generateToken p now) as [token|] eqn:Htoken
    end; [|reflexivity].
    exfalso. revert Htoken. unfold generateToken, jwt_sign. rewrite Hms.
    destruct (negb _); [discriminate|]. by destruct (bool_decide _).
  - cbn [inMemoryUsers]. rewrite Map_get_set_eq. eauto.
  - reflexivity.
  - intros details' e3 mongo_create salt' now'.
    unfold POST_register, validated, validate. rewrite Hv.
    unfold register, findUserByEmail. rewrite Hemail. cbn [inMemoryUsers].
    by rewrite Map_get_set_eq.
Qed.
(** X20.  A registration can replace an account of the fallback.  When the
    model's lookup answers that the email is unknown and the model's save
    then fails, [createUser] files the new account under the lower-cased
    email with [Map.set], and an account already filed there is gone: the
    entry keeps its place, and holds the new password hash and a new
    [_id]; no other entry changes. *)
Theorem registration_can_replace_an_account
    (details : list string) (body : obj) (e : string) (salt now : Z)
    (st : store) (email pw : string) (old : obj) (lifetime : Z) :
  registerSchema body = true ->
  get body "email" = VStr email ->
  get body "password" = VStr pw ->
  Map_get (toLowerCase email) (inMemoryUsers st) = Some old ->
  ms (env_or "JWT_EXPIRE" "24h") = Some lifetime ->
  exists token st',
    let account := new_user (get body "name") email (bcrypt_hash salt pw)
                            (userCounter st) now in
    POST_register details body (Normal None) (Throw e) salt now st
    = (ok 201 (Some "User registered successfully")
          (DataUserToken (delete "password" account) token), st')
    /\ Map_get (toLowerCase email) (inMemoryUsers st') = Some account
    /\ account !! "password" = Some (VStr (bcrypt_hash salt pw))
    /\ account !! "_id" = Some (VNum (userCounter st))
    /\ (inMemoryUsers st').*1 = (inMemoryUsers st).*1
    /\ (forall key, key <> toLowerCase email ->
          Map_get key (inMemoryUsers st') = Map_get key (inMemoryUsers st))
    /\ userCounter st' = userCounter st + 1.
Proof.
  intros Hv Hemail Hpw Hold Hms.
  eexists _, {| inMemoryUsers :=
                  Map_set (toLowerCase email)
                    (new_user (get body "name") email (bcrypt_hash salt pw)
                              (userCounter st) now)
                    (inMemoryUsers st);
                userCounter := userCounter st + 1 |}.
  cbv zeta. cbn [inMemoryUsers userCounter].
  split; [|split; [apply Map_get_set_eq|split; [reflexivity|split; [reflexivity|
           split; [apply Map_set_keys; by rewrite Hold|split; [|reflexivity]]]]]].
  - unfold POST_register, validated, validate. rewrite Hv.
    unfold register, findUserByEmail. cbn [fmap option_fmap option_map].
    unfold createUser.
    change (get {[ "name" := get body "name"; "email" := get body "email";
                   "password" := get body "password" ]} "password")
      with (get body "password").
    change (get {[ "name" := get body "name"; "email" := get body "email";
                   "password" := get body "password" ]} "email")
      with (get body "email").
    change (get {[ "name" := get body "name"; "email" := get body "email";
                   "password" := get body "password" ]} "name")
      with (get body "name").
    rewrite Hpw, Hemail.
    match goal with
    | |- context [generateToken ?p now] =>
        change p with ({[ "id" := VNum (userCounter st) ]} : obj)
    end.
    rewrite (generateToken_issued (VNum (userCounter st)) now lifetime Hms).
    reflexivity.
  - intros key Hne. apply Map_get_set_ne. congruence.
Qed.
End Accounts.

(** ** What a listing can depend on *)

Section Isolation.
Context {P : Platform}.
Import TaskRoutes.

(** The tasks of the map whose [user] is the requester. *)
Definition own_tasks (userId : val) (st : store) : list obj :=
  List.filter (fun task => loose_eq (get task "user") userId)
              (Map_values (inMemoryTasks st)).

Lemma findUserTasks_own e userId filter st st' :
  own_tasks userId st = own_tasks userId st' ->
  findUserTasks (Throw e) userId filter st
  = findUserTasks (Throw e) userId filter st'.
Proof.
  intros Hown. unfold findUserTasks.
  change (List.filter (fun task => loose_eq (get task "user") userId)
                      (Map_values (inMemoryTasks st)))
    with (own_tasks userId st).
  change (List.filter (fun task => loose_eq (get task "user") userId)
                      (Map_values (inMemoryTasks st')))
    with (own_tasks userId st').
  by rewrite Hown.
Qed.

Lemma filterM_incl {A} (f : A -> completion bool) (l l' : list A) :
  filterM f l = Normal l' -> forall x, In x l' -> In x l.
Proof.
  revert l'. induction l as [|a l IH]; intros l'; cbn [filterM bind].
  - intros [= <-] x [].
  - destruct (f a) as [b|]; [|discriminate]. cbn [bind].
    destruct (filterM f l) as [r|]; [|discriminate]. cbn [bind].
    intros [= <-] x Hx. destruct b.
    + destruct Hx as [->|Hx]; [by left|right; by apply (IH r)].
    + right. by apply (IH r).
Qed.

Lemma findUserTasks_incl e userId filter st listed :
  findUserTasks (Throw e) userId filter st = Normal listed ->
  forall task, In task listed -> In task (own_tasks userId st).
Proof.
  unfold findUserTasks.
  change (List.filter (fun task => loose_eq (get task "user") userId)
                      (Map_values (inMemoryTasks st)))
    with (own_tasks userId st).
  set (tasks0 := own_tasks userId st).
  set (tasks1 := if truthy (get filter "status") then _ else tasks0).
  set (tasks2 := if truthy (get filter "priority") then _ else tasks1).
  assert (H1 : forall t, In t tasks1 -> In t tasks0).
  { subst tasks1. destruct (truthy (get filter "status")); [|auto]. intros t Ht.
    by apply filter_In in Ht as [Ht _]. }
  assert (H2 : forall t, In t tasks2 -> In t tasks0).
  { subst tasks2. destruct (truthy (get filter "priority")); [|auto]. intros t Ht.
    apply filter_In in Ht as [Ht _]. auto. }
  clearbody tasks1 tasks2.
  destruct (truthy (get filter "category")).
  - destruct (RegExp_i _) as [re|]; [|discriminate]. cbn [bind].
    destruct (truthy (get filter "search")).
    + destruct (RegExp_i _) as [re'|]; [|discriminate]. cbn [bind].
      destruct (filterM _ _) as [tasks4|] eqn:Hf; [|discriminate]. cbn [bind].
      intros [= <-] task Hin.
      apply (Permutation_in _ (sort_perm _ _)) in Hin.
      apply (filterM_incl _ _ _ Hf) in Hin.
      apply filter_In in Hin as [Hin _]. auto.
    + cbn [bind]. intros [= <-] task Hin.
      apply (Permutation_in _ (sort_perm _ _)) in Hin.
      apply filter_In in Hin as [Hin _]. auto.
  - cbn [bind]. destruct (truthy (get filter "search")).
    + destruct (RegExp_i _) as [re'|]; [|discriminate]. cbn [bind].
      destruct (filterM _ _) as [tasks4|] eqn:Hf; [|discriminate]. cbn [bind].
      intros [= <-] task Hin.
      apply (Permutation_in _ (sort_perm _ _)) in Hin.
      apply (filterM_incl _ _ _ Hf) in Hin. auto.
    + cbn [bind]. intros [= <-] task Hin.
      apply (Permutation_in _ (sort_perm _ _)) in Hin. auto.
Qed.

(** X18.  What the fallback lists and counts for a user depends on the
    user's own tasks only: two stores that hold the same tasks of that user
    give the same answer to [GET /api/tasks], whatever the filter and the
    page, and to [GET /api/tasks/stats/summary]; every task listed is a task
    of the map whose [user] is the requester; and the total of the summary
    is the number of those tasks. *)
Theorem listing_depends_on_own_tasks
    (user query : obj) (e : string) (now : Z)
    (st st' : store) :
  own_tasks (get user "id") st = own_tasks (get user "id") st' ->
  (GET_tasks (inr user) query (Throw e) st).1
  = (GET_tasks (inr user) query (Throw e) st').1
  /\ (GET_stats (inr user) (Throw e) now st).1
     = (GET_stats (inr user) (Throw e) now st').1
  /\ (forall filter listed,
        findUserTasks (Throw e) (get user "id") filter st = Normal listed ->
        forall task, In task listed ->
          In task (Map_values (inMemoryTasks st))
          /\ loose_eq (get task "user") (get user "id") = true)
  /\ (exists s,
        (GET_stats (inr user) (Throw e) now st).1 = ok 200 None (DataStats s)
        /\ st_total s = Z.of_nat (length (own_tasks (get user "id") st))).
Proof.
  intros Hown. split; [|split; [|split]].
  - unfold GET_tasks, protected, get_tasks. cbn [fst].
    by rewrite (findUserTasks_own e _ _ st st' Hown).
  - unfold GET_stats, protected, get_stats. cbn [fst].
    by rewrite (findUserTasks_own e _ _ st st' Hown).
  - intros filter listed Hl task Hin.
    apply (findUserTasks_incl _ _ _ _ _ Hl) in Hin.
    unfold own_tasks in Hin. by apply filter_In in Hin.
  - unfold GET_stats, protected, get_stats, findUserTasks. cbn [fst].
    change (truthy (get ∅ "status")) with false.
    change (truthy (get ∅ "priority")) with false.
    change (truthy (get ∅ "category")) with false.
    change (truthy (get ∅ "search")) with false.
    cbn [bind]. eexists. split; [reflexivity|].
    unfold task_stats. cbn [st_total].
    by rewrite (Permutation_length (sort_perm _ _)).
Qed.
End Isolation.

(** ** The client's header and the middleware *)

Section Client.
Context {P : Platform}.

(** X19.  The [Authorization] header the client's request interceptor
    sets for a stored token is one [authenticate] reads back to that very
    token, so the request is judged by [jwt.verify] on the token and the
    model's lookup alone; without a stored token the interceptor leaves the
    headers as they are. *)
Theorem client_header_is_read_back
    (token : string) (headers : gmap string string) (now : Z)
    (User_findById : val -> completion (option obj)) :
  token <> "" ->
  let sent := ApiClient.request_interceptor (Some token) headers in
  sent !! "Authorization" = Some ("Bearer " +:+ token)
  /\ (forall k, k <> "Authorization" -> sent !! k = headers !! k)
  /\ bearer (sent !! "Authorization") token
  /\ authenticate (sent !! "Authorization") now User_findById
     = match let! decoded := jwt_verify token JWT_SECRET now in
             User_findById (get decoded "id") with
       | Normal (Some user) =>
           if truthy (get user "isActive") then inr (req_user user)
           else inl no_user
       | Normal None => inl no_user
       | Throw name =>
           if String.eqb name "JsonWebTokenError"
           then inl (failure 401 "Invalid token.")
           else if String.eqb name "TokenExpiredError"
           then inl (failure 401 "Token expired.")
           else inl (failure 500 "Token verification failed.")
       end
  /\ ApiClient.request_interceptor None headers = headers
  /\ ApiClient.request_interceptor (Some "") headers = headers.
Proof.
  intros Hne sent.
  assert (Hnonempty : String.eqb token "" = false)
    by (by apply String.eqb_neq).
  assert (Hsent : sent !! "Authorization" = Some ("Bearer " +:+ token)).
  { subst sent. unfold ApiClient.request_interceptor.
    rewrite Hnonempty. apply lookup_insert_eq. }
  assert (Hbearer : bearer (sent !! "Authorization") token).
  { rewrite Hsent. exists ("Bearer " +:+ token). repeat split; assumption. }
  split; [exact Hsent|]. split; [|split; [exact Hbearer|split; [|split]]].
  - intros k Hk. subst sent. unfold ApiClient.request_interceptor.
    rewrite Hnonempty. by apply lookup_insert_ne.
  - by apply authenticate_bearer.
  - reflexivity.
  - reflexivity.
Qed.
End Client.

(** ** Pages and counts *)

Section Pages.
Context {P : Platform}.
Import TaskRoutes.

(** The tasks a response of [GET /api/tasks] carries. *)
Definition listed (r : response) : list obj :=
  match data r with
  | DataTasks tasks _ => tasks
  | _ => []
  end.

Lemma pages_concat {A} (l : list A) (size n : nat) :
  concat (map (fun p : nat => firstn size (skipn ((p - 1) * size) l)) (seq 1 n))
  = firstn (n * size) l.
Proof.
  induction n as [|n IH]; [reflexivity|].
  rewrite seq_S, map_app, concat_app, IH. cbn [map concat].
  rewrite app_nil_r.
  replace ((1 + n - 1) * size)%nat with (n * size)%nat by lia.
  rewrite take_take_drop. f_equal. lia.
Qed.

(** The query string with the numerals of a page and a page size. *)
Definition on_page (p limit : Z) (query : obj) : obj :=
  <["page" := VStr (string_of_Z p)]>
    (<["limit" := VStr (string_of_Z limit)]> query).

Lemma build_filter_on_page p limit query :
  build_filter (on_page p limit query) = build_filter query.
Proof.
  unfold build_filter, on_page.
  by rewrite !get_insert_ne by discriminate.
Qed.

Lemma on_page_numerals p limit query :
  numeral_or_default (on_page p limit query) "page" 1 p
  /\ numeral_or_default (on_page p limit query) "limit" 10 limit.
Proof.
  unfold numeral_or_default, on_page. split; left.
  - apply get_insert_eq.
  - rewrite get_insert_ne by discriminate. apply get_insert_eq.
Qed.

(** X24.  The pages of [GET /api/tasks] partition the listing: for a page
    size of at least 1, the pages 1, 2, ..., n put one after the other are
    the filtered, sorted list itself as soon as n pages can hold it, so no
    task is skipped and none is shown twice. *)
Theorem pages_partition_the_listing
    (user query : obj) (limit : Z) (mongo : completion (list obj))
    (st : store) (tasks : list obj) (n : nat) :
  findUserTasks mongo (get user "id") (build_filter query) st = Normal tasks ->
  1 <= limit ->
  Z.of_nat (length tasks) <= Z.of_nat n * limit < 2 ^ 53 ->
  concat (map (fun p : nat =>
                 listed (GET_tasks (inr user)
                           (on_page (Z.of_nat p) limit query) mongo st).1)
              (seq 1 n))
  = tasks.
Proof.
  intros Hfind Hlimit [Hfit Hrange].
  transitivity (firstn (n * Z.to_nat limit) tasks); [|apply take_ge; nia].
  rewrite <- pages_concat. f_equal.
  apply map_ext_in. intros p Hp. apply in_seq in Hp.
  destruct (on_page_numerals (Z.of_nat p) limit query) as [Hpg Hlm].
  rewrite (GET_tasks_page user _ (Z.of_nat p) limit mongo st tasks Hpg Hlm);
    [|by rewrite build_filter_on_page|lia|lia|nia].
  cbn [fst listed data ok].
  do 2 f_equal. nia.
Qed.
End Pages.

Section Counts.
Context {P : Platform}.
Import TaskRoutes.

(** A status that is none of the three the summary counts. *)
Definition uncounted (task : obj) : bool :=
  negb (bool_decide (get task "status" ∈ VStr <$> statuses)).

Lemma status_counted_once (task : obj) :
  (if strict_eq (get task "status") (VStr "completed") then 1 else 0)
  + (if strict_eq (get task "status") (VStr "in-progress") then 1 else 0)
  + (if strict_eq (get task "status") (VStr "pending") then 1 else 0)
  + (if uncounted task then 1 else 0) = 1.
Proof.
  unfold uncounted.
  destruct (get task "status") as [| |b|n| | |s|d|xs|h]; cbn [strict_eq];
    try (rewrite bool_decide_eq_false_2; [reflexivity|];
         intros Hin; vm_compute in Hin;
         repeat (apply elem_of_cons in Hin as [Hin|Hin]; [discriminate|]);
         by apply elem_of_nil in Hin).
  destruct (String.eqb_spec s "completed") as [->|H1]; [reflexivity|].
  destruct (String.eqb_spec s "in-progress") as [->|H2]; [reflexivity|].
  destruct (String.eqb_spec s "pending") as [->|H3]; [reflexivity|].
  rewrite bool_decide_eq_false_2; [reflexivity|].
  intros Hin. vm_compute in Hin.
  repeat (apply elem_of_cons in Hin as [Hin|Hin]; [congruence|]).
  by apply elem_of_nil in Hin.
Qed.

Lemma count_nonneg {A} (f : A -> bool) l : 0 <= count f l <= Z.of_nat (length l).
Proof.
  unfold count. pose proof (filter_length_le f l). lia.
Qed.

Lemma count_Permutation {A} (f : A -> bool) l l' :
  Permutation l l' -> count f l = count f l'.
Proof.
  induction 1 as [|x l l' _ IH|x y l|l l' l'' _ IH1 _ IH2];
    rewrite ?count_cons; lia.
Qed.

(** X21.  The summary of [GET /api/tasks/stats/summary] counts every task
    once: completed, in-progress and pending tasks and the tasks whose
    status is none of the three add up to the total, so the three counts
    fall short of the total by exactly the number of such tasks; an overdue
    task is never a completed one; no count exceeds the total; without
    tasks every entry is 0; and the summary does not depend on the order of
    the tasks. *)
Theorem stats_count_every_task_once (now : Z) (tasks : list obj) :
  let s := task_stats now tasks in
  st_total s = Z.of_nat (length tasks)
  /\ st_completed s + st_inProgress s + st_pending s + count uncounted tasks
     = st_total s
  /\ 0 <= st_overdue s /\ st_overdue s + st_completed s <= st_total s
  /\ 0 <= st_highPriority s <= st_total s
  /\ (tasks = [] ->
      s = {| st_total := 0; st_completed := 0; st_inProgress := 0;
             st_pending := 0; st_highPriority := 0; st_overdue := 0;
             st_completionRate := VNum 0 |})
  /\ (forall tasks', Permutation tasks tasks' ->
        task_stats now tasks' = s).
Proof.
  cbv zeta. unfold task_stats. cbn [st_total st_completed st_inProgress st_pending
                                     st_highPriority st_overdue st_completionRate].
  split; [reflexivity|]. split; [|split; [|split; [|split; [|split]]]].
  - induction tasks as [|task tasks IH]; [reflexivity|].
    rewrite !count_cons. cbn [length].
    pose proof (status_counted_once task). lia.
  - apply count_nonneg.
  - induction tasks as [|task tasks IH]; [cbv; discriminate|].
    rewrite !count_cons. cbn [length]. unfold is_overdue at 1.
    destruct (strict_eq (get task "status") (VStr "completed"));
      cbn [negb andb]; rewrite ?andb_false_r;
      repeat destruct (_ && _); lia.
  - apply count_nonneg.
  - intros ->. reflexivity.
  - intros tasks' Hperm.
    rewrite <- !(count_Permutation _ _ _ Hperm).
    by rewrite <- (Permutation_length Hperm).
Qed.
End Counts.

(** ** What the store holds *)

Section StoredTasks.
Context {P : Platform}.
Import TaskRoutes.

(** The rules the two task schemas share, on the fields of a task. *)
Definition fields_valid (task : obj) : Prop :=
  optional title_rule (get task "title") = true
  /\ optional description_rule (get task "description") = true
  /\ optional (valid_rule statuses) (get task "status") = true
  /\ optional (valid_rule priorities) (get task "priority") = true
  /\ optional category_rule (get task "category") = true
  /\ optional tags_rule (get task "tags") = true.

Lemma required_optional rule v : required rule v = true -> optional rule v = true.
Proof. by destruct v. Qed.

Lemma schema_fields (body : obj) now :
  createTaskSchema now body = true \/ updateTaskSchema body = true ->
  fields_valid body.
Proof.
  unfold createTaskSchema, updateTaskSchema, fields_valid.
  intros [Hv|Hv];
    apply andb_prop in Hv as [Hv Htags]; apply andb_prop in Hv as [Hv _];
    apply andb_prop in Hv as [Hv Hcat]; apply andb_prop in Hv as [Hv Hprio];
    apply andb_prop in Hv as [Hv Hstatus]; apply andb_prop in Hv as [Hv Hdesc];
    apply andb_prop in Hv as [_ Htitle];
    repeat split; try assumption. by apply required_optional.
Qed.

Lemma task_key_cases (Q : string -> Prop) :
  (forall k, k ∈ task_keys -> Q k) ->
  Q "title" /\ Q "description" /\ Q "status" /\ Q "priority" /\ Q "category"
  /\ Q "tags".
Proof.
  intros HQ. repeat split; apply HQ; vm_compute; repeat constructor.
Qed.

Lemma fields_valid_ext (task task' : obj) :
  (forall k, k ∈ task_keys -> get task' k = get task k) ->
  fields_valid task -> fields_valid task'.
Proof.
  intros Hk (H1 & H2 & H3 & H4 & H5 & H6).
  apply task_key_cases in Hk as (K1 & K2 & K3 & K4 & K5 & K6).
  unfold fields_valid. rewrite K1, K2, K3, K4, K5, K6. repeat split; assumption.
Qed.

Lemma fields_valid_merge (old body new : obj) :
  (forall k, k ∈ task_keys -> new !! k = body !! k ∪ old !! k) ->
  fields_valid body -> fields_valid old -> fields_valid new.
Proof.
  intros Hk (B1 & B2 & B3 & B4 & B5 & B6) (O1 & O2 & O3 & O4 & O5 & O6).
  assert (Hget : forall k, k ∈ task_keys ->
            get new k = get body k \/ get new k = get old k).
  { intros k Hin. unfold get. rewrite (Hk k Hin).
    destruct (body !! k); [left|right]; by destruct (old !! k). }
  apply task_key_cases in Hget as (K1 & K2 & K3 & K4 & K5 & K6).
  unfold fields_valid.
  destruct K1 as [-> | ->], K2 as [-> | ->], K3 as [-> | ->],
           K4 as [-> | ->], K5 as [-> | ->], K6 as [-> | ->];
    repeat split; assumption.
Qed.

(** Every stored task passes the field rules. *)
Definition store_valid (st : store) : Prop :=
  Forall fields_valid (Map_values (inMemoryTasks st)).

Lemma serve_valid r st : store_valid st -> store_valid (serve r st).
Proof.
  unfold store_valid. intros Hst.
  destruct r as [auth details body mongo now|auth details id body mongo now|auth id mongo];
    unfold serve; (destruct auth as [resp|user]; [exact Hst|]).
  - destruct (createTaskSchema now body) eqn:Hv; cycle 1.
    { unfold POST_task, protected, validated, validate. rewrite Hv. exact Hst. }
    destruct mongo as [task|e].
    { unfold POST_task, protected, validated, validate, post_task, createTask.
      rewrite Hv. exact Hst. }
    rewrite POST_task_in_memory by exact Hv. cbn [snd inMemoryTasks].
    apply Forall_values_set; [|exact Hst].
    apply (fields_valid_ext body); [|by apply (schema_fields body now); left].
    intros k Hk. unfold get.
    destruct (new_task_lookup body (get user "id") (taskCounter st) now)
      as (_ & _ & _ & _ & Hbody).
    { apply (task_schema_keys body now); [by left|].
      apply not_task_key. repeat constructor. }
    rewrite Hbody; [reflexivity|].
    intros Hin. apply (not_task_key k); [|exact Hk].
    repeat (apply elem_of_cons in Hin as [->|Hin]; [repeat constructor|]).
    by apply elem_of_nil in Hin.
  - destruct (PUT_task (inr user) details id body mongo now st) as [r st'] eqn:Hput.
    cbn [snd].
    destruct (Z.eq_dec (status r) 200) as [Hok|Hno]; cycle 1.
    { replace st' with st; [exact Hst|].
      revert Hput. unfold PUT_task, protected, validated, validate.
      destruct (updateTaskSchema body); [|by intros [= _ <-]].
      unfold put_task, updateTask.
      destruct (mongo _ _) as [[t|]|e]; try (by intros [= _ <-]).
      destruct (owned _ _); [|by intros [= _ <-]].
      intros [= <- _]. by destruct Hno. }
    destruct (mongo (by_id id (get user "id")) body) as [t|e] eqn:Hcall.
    { replace st' with st; [exact Hst|].
      revert Hput. unfold PUT_task, protected, validated, validate.
      destruct (updateTaskSchema body); [|by intros [= _ <-]].
      unfold put_task, updateTask. rewrite Hcall. destruct t; by intros [= _ <-]. }
    destruct (PUT_task_in_memory _ _ _ _ _ _ _ _ _ _ Hcall Hput Hok)
      as (Hv & old & Hget & _ & _ & ->). cbn [inMemoryTasks].
    apply Forall_values_set; [|exact Hst].
    apply (fields_valid_merge old body).
    + intros k Hk. apply updated_task_lookup; intros ->;
        vm_compute in Hk;
        repeat (apply elem_of_cons in Hk as [Hk|Hk]; [discriminate|]);
        by apply elem_of_nil in Hk.
    + apply (schema_fields body 0). by right.
    + eapply Forall_values_get; eauto.
  - unfold DELETE_task, protected, delete_task, deleteTask.
    destruct (mongo _) as [[t|]|e]; try exact Hst.
    destruct (owned _ _); [|exact Hst]. cbn [snd inMemoryTasks].
    by apply Forall_values_delete.
Qed.

Lemma reachable_valid st : reachable st -> store_valid st.
Proof.
  induction 1 as [|r st _ IH]; [constructor|by apply serve_valid].
Qed.

Lemma uncounted_undefined (task : obj) :
  fields_valid task ->
  uncounted task = bool_decide (get task "status" = VUndef).
Proof.
  intros (_ & _ & Hstatus & _). unfold uncounted.
  destruct (get task "status") as [| |b|n| | |s|d|xs|h]; try discriminate;
    cbn [optional valid_rule] in Hstatus.
  - rewrite bool_decide_eq_false_2, bool_decide_eq_true_2; [reflexivity..|].
    intros Hin. vm_compute in Hin.
    repeat (apply elem_of_cons in Hin as [Hin|Hin]; [discriminate|]).
    by apply elem_of_nil in Hin.
  - apply bool_decide_eq_true in Hstatus.
    rewrite bool_decide_eq_true_2, (bool_decide_eq_false_2 (VStr s = VUndef));
      [reflexivity|discriminate|].
    apply list_elem_of_fmap. by exists s.
Qed.

Lemma status_counts_sum (tasks : list obj) :
  count (fun task => strict_eq (get task "status") (VStr "completed")) tasks
  + count (fun task => strict_eq (get task "status") (VStr "in-progress")) tasks
  + count (fun task => strict_eq (get task "status") (VStr "pending")) tasks
  + count uncounted tasks
  = Z.of_nat (length tasks).
Proof.
  induction tasks as [|task tasks IH]; [reflexivity|].
  rewrite !count_cons. cbn [length].
  pose proof (status_counted_once task). lia.
Qed.

Lemma count_ext_Forall {A} (f g : A -> bool) (l : list A) :
  Forall (fun x => f x = g x) l -> count f l = count g l.
Proof.
  induction 1 as [|x l Hx _ IH]; [reflexivity|].
  rewrite !count_cons, Hx. lia.
Qed.

(** X25.  Every task in a store the task routes can reach passes the field
    rules of the schemas: its title, description and category, when
    defined, are strings within their lengths, its status is undefined or
    one of pending, in-progress and completed, its priority undefined or one
    of low, medium and high, its tags undefined or at most ten strings.  So
    in the summary of [GET /api/tasks/stats/summary] the three status
    counts fall short of the total by exactly the number of the requester's
    tasks that were created without a status. *)
Theorem stored_tasks_pass_the_rules (st : store) :
  reachable st ->
  (forall key task,
     (key, task) ∈ inMemoryTasks st ->
     optional title_rule (get task "title") = true
     /\ optional description_rule (get task "description") = true
     /\ optional category_rule (get task "category") = true
     /\ optional tags_rule (get task "tags") = true
     /\ get task "status"
        ∈ [VUndef; VStr "pending"; VStr "in-progress"; VStr "completed"]
     /\ get task "priority"
        ∈ [VUndef; VStr "low"; VStr "medium"; VStr "high"])
  /\ (forall user e now,
        exists s,
          (GET_stats (inr user) (Throw e) now st).1 = ok 200 None (DataStats s)
          /\ st_completed s + st_inProgress s + st_pending s
             + count (fun task => bool_decide (get task "status" = VUndef))
                     (own_tasks (get user "id") st)
             = st_total s).
Proof.
  intros Hr. pose proof (reachable_valid st Hr) as Hvalid.
  unfold store_valid in Hvalid. split.
  - intros key task Hin.
    assert (Htask : fields_valid task).
    { rewrite Forall_forall in Hvalid. apply Hvalid.
      apply list_elem_of_fmap. by exists (key, task). }
    destruct Htask as (H1 & H2 & H3 & H4 & H5 & H6).
    repeat split; try assumption.
    + destruct (get task "status") as [| |b|n| | |s|d|xs|h]; try discriminate;
        [left|]. cbn [optional valid_rule] in H3.
      apply bool_decide_eq_true in H3. right.
      by apply (list_elem_of_fmap_2 VStr) in H3.
    + destruct (get task "priority") as [| |b|n| | |s|d|xs|h]; try discriminate;
        [left|]. cbn [optional valid_rule] in H4.
      apply bool_decide_eq_true in H4. right.
      by apply (list_elem_of_fmap_2 VStr) in H4.
  - intros user e now.
    unfold GET_stats, protected, get_stats, findUserTasks. cbn [fst].
    change (truthy (get ∅ "status")) with false.
    change (truthy (get ∅ "priority")) with false.
    change (truthy (get ∅ "category")) with false.
    change (truthy (get ∅ "search")) with false.
    cbn [bind]. eexists. split; [reflexivity|].
    fold (own_tasks (get user "id") st).
    set (mine := own_tasks (get user "id") st).
    set (sorted := sort newest_first mine).
    unfold task_stats. cbn [st_total st_completed st_inProgress st_pending].
    rewrite <- (status_counts_sum sorted). f_equal.
    rewrite (count_Permutation _ sorted mine) by apply sort_perm.
    symmetry. apply count_ext_Forall.
    assert (Hmine : Forall fields_valid mine).
    { apply Forall_forall. intros task Hin.
      rewrite Forall_forall in Hvalid. apply Hvalid.
      apply list_elem_of_In in Hin. apply filter_In in Hin as [Hin _].
      by apply list_elem_of_In. }
    eapply Forall_impl; [exact Hmine|]. intros task Htask.
    by apply uncounted_undefined.
Qed.
End StoredTasks.

(** ** The signing key *)

Section Secret.
Context {P : Platform}.

(** X23.  Started without a [JWT_SECRET] (unset or empty), the server
    signs and verifies with the key written in the source.  A token made
    with that key from any JSON claims without [exp] and [nbf] verifies at
    every time, and [authenticate] lets its bearer through as the user the
    claim [id] names, whenever that user exists and is active. *)
Theorem default_secret_signs_any_identity
    (claims : obj) (now : Z)
    (User_findById : val -> completion (option obj)) (user : obj) :
  env "JWT_SECRET" = None \/ env "JWT_SECRET" = Some "" ->
  json_object claims ->
  claims !! "exp" = None -> claims !! "nbf" = None ->
  let key := "your-super-secret-jwt-key-change-in-production" in
  let token := jws_encode claims (hmac key claims) in
  JWT_SECRET = key
  /\ jwt_verify token JWT_SECRET now = Normal claims
  /\ (token <> "" ->
      User_findById (get claims "id") = Normal (Some user) ->
      truthy (get user "isActive") = true ->
      authenticate (Some ("Bearer " +:+ token)) now User_findById
      = inr (req_user user)).
Proof.
  intros Henv Hjson Hexp Hnbf key token.
  assert (Hkey : JWT_SECRET = key).
  { unfold JWT_SECRET, env_or. by destruct Henv as [-> | ->]. }
  assert (Hverify : jwt_verify token JWT_SECRET now = Normal claims).
  { unfold jwt_verify, token. rewrite jws_decode_encode by exact Hjson.
    cbn [bind]. rewrite jws_signed_encode by exact Hjson.
    rewrite Hkey, String.eqb_refl. cbn [negb].
    rewrite Hnbf. cbn [bind]. by rewrite Hexp. }
  split; [exact Hkey|]. split; [exact Hverify|].
  intros Hne Hfind Hactive.
  rewrite (authenticate_bearer _ token).
  - rewrite Hverify. cbn [bind]. by rewrite Hfind, Hactive.
  - exists ("Bearer " +:+ token). repeat split. exact Hne.
Qed.
End Secret.

(** ** The profile after registration *)

Section Me.
Context {P : Platform}.
Import AuthRoutes.

(** X22.  Register then read: after a registration that the fallback
    answers with 201, [GET /api/auth/me] served by the fallback returns the
    very user object of that answer to any requester whose email is the
    registered one up to letter case, and leaves the store as it is. *)
Theorem me_returns_registered_profile
    (details : list string) (body : obj) (e1 e2 : string) (salt now : Z)
    (st st1 : store) (r : response) :
  POST_register details body (Throw e1) (Throw e2) salt now st = (r, st1) ->
  status r = 201 ->
  exists email user token,
    get body "email" = VStr email
    /\ data r = DataUserToken user token
    /\ user !! "password" = None
    /\ forall who email' e3,
         get who "email" = VStr email' ->
         toLowerCase email' = toLowerCase email ->
         GET_me (inr who) (Throw e3) st1 = (ok 200 None (DataUser user), st1).
Proof.
  intros Hreg Hok.
  destruct (POST_register_created _ _ _ _ _ _ _ _ _ Hreg Hok) as [_ Hreg'].
  destruct (register_created _ _ _ _ _ _ _ _ Hreg' Hok)
    as (email & pw & token & Hemail & _ & _ & _ & -> & ->).
  eexists email, _, token. split; [exact Hemail|]. split; [reflexivity|].
  split; [apply lookup_delete_eq|].
  intros who email' e3 Hwho Hsame.
  unfold GET_me, protected, me, findUserByEmail. rewrite Hwho, Hsame.
  cbn [inMemoryUsers]. by rewrite Map_get_set_eq.
Qed.
End Me.

(** ** Runs on the reference platform *)

#[local] Existing Instance Reference.platform.

(** Ann registers while the database is down. *)
Definition ann_body : obj :=
  {[ "name" := VStr "Ann"; "email" := VStr "Ann@X.com"; "password" := VStr "abc123" ]}.

Definition registration : response * AuthRoutes.store :=
  AuthRoutes.POST_register [] ann_body (Throw mongo_down) (Throw mongo_down)
    7 1000 AuthRoutes.initial.

Example registration_created : status registration.1 = 201.
Proof. vm_compute. reflexivity. Qed.

Lemma registered_user_can_log_in_witness :
  exists user token st,
    AuthRoutes.POST_login [] (credentials ann_body) (Throw mongo_down) 5000
      registration.2
    = (ok 200 (Some "Login successful") (DataUserToken user token), st)
    /\ user !! "password" = None.
Proof.
  destruct (registered_user_can_log_in [] ann_body mongo_down mongo_down 7 1000
              AuthRoutes.initial registration.2 registration.1)
    as (_ & Hlogin & _).
  - apply surjective_pairing.
  - vm_compute. reflexivity.
  - exact (Hlogin [] mongo_down 5000).
Defined.

Lemma duplicate_email_rejected_witness :
  AuthRoutes.POST_register []
    {[ "name" := VStr "Ann B"; "email" := VStr "ANN@x.com"; "password" := VStr "xyz789" ]}
    (Throw mongo_down) (Throw mongo_down) 8 2000 registration.2
  = (duplicate_email, registration.2).
Proof.
  destruct (duplicate_email_rejected [] ann_body mongo_down mongo_down 7 1000
              AuthRoutes.initial registration.2 registration.1)
    as (email & Hemail & Hsecond).
  - apply surjective_pairing.
  - vm_compute. reflexivity.
  - injection Hemail as <-.
    destruct (Hsecond []
                {[ "name" := VStr "Ann B"; "email" := VStr "ANN@x.com";
                   "password" := VStr "xyz789" ]}
                "ANN@x.com" mongo_down (Throw mongo_down) 8 2000)
      as (_ & _ & Hst & Hmsg).
    + reflexivity.
    + reflexivity.
    + rewrite (surjective_pairing (AuthRoutes.POST_register _ _ _ _ _ _ _)).
      rewrite Hst, Hmsg; [reflexivity|]. vm_compute. reflexivity.
Defined.

(** Two users as the middleware hands them on: the identifier is the
    [_id] of the user document, an ObjectId. *)
Definition dan_id : string := "66f1a0c2e4b0a1b2c3d4e5f6".
Definition eve_id : string := "66f1a0c2e4b0a1b2c3d4e5f7".

Definition dan : obj :=
  {[ "id" := VObjectId dan_id; "email" := VStr "dan@x.com";
     "name" := VStr "Dan"; "role" := VStr "user" ]}.

Definition eve : obj :=
  {[ "id" := VObjectId eve_id; "email" := VStr "eve@x.com";
     "name" := VStr "Eve"; "role" := VStr "user" ]}.

(** The collection of the model holds two tasks of Dan. *)
Definition dans_first : obj :=
  {[ "_id" := VObjectId "670000000000000000000001";
     "title" := VStr "Write spec"; "category" := VStr "General";
     "status" := VStr "pending"; "priority" := VStr "medium";
     "tags" := VArr ["docs"]; "user" := VObjectId dan_id;
     "createdAt" := VDate (Some 1000); "updatedAt" := VDate (Some 1000) ]}.

Definition dans_second : obj :=
  {[ "_id" := VObjectId "670000000000000000000002";
     "title" := VStr "Second"; "category" := VStr "General";
     "status" := VStr "completed"; "priority" := VStr "medium";
     "tags" := VArr []; "user" := VObjectId dan_id;
     "createdAt" := VDate (Some 2000); "updatedAt" := VDate (Some 2000) ]}.

Definition collection : list obj := [dans_first; dans_second].

(** Dan has also filed a task through the fallback. *)
Definition dan_filed : TaskRoutes.store :=
  (TaskRoutes.POST_task (inr dan) [] {[ "title" := VStr "Filed in memory" ]}
     (Throw mongo_down) 3000 TaskRoutes.initial).2.

(** The owner reads a task of the collection. *)
Example own_document_found :
  (TaskRoutes.GET_task (inr dan) "670000000000000000000001"
     (Mongoose.findOne collection) dan_filed).1
  = ok 200 None (DataTask dans_first).
Proof. vm_compute. reflexivity. Qed.

(** An identifier that is not 24 hexadecimal digits is no ObjectId: the
    model rejects the query, and the helper turns to the in-memory map. *)
Example numeral_is_no_ObjectId :
  Mongoose.findOne collection (TaskRoutes.by_id "1" (get eve "id"))
  = Throw "CastError".
Proof. vm_compute. reflexivity. Qed.

(** Eve asks for Dan's task of the collection, and for an identifier that
    names nothing; then for the task Dan filed in memory, which the model
    does not look for. *)
Lemma foreign_task_indistinguishable_witness :
  TaskRoutes.GET_task (inr eve) "670000000000000000000001"
    (Mongoose.findOne collection) dan_filed
  = (not_found, dan_filed)
  /\ TaskRoutes.GET_task (inr eve) "670000000000000000000009"
       (Mongoose.findOne collection) dan_filed
     = (not_found, dan_filed)
  /\ TaskRoutes.DELETE_task (inr eve) "670000000000000000000001"
       (Mongoose.findOne collection) dan_filed
     = (not_found, dan_filed)
  /\ TaskRoutes.PUT_task (inr eve) [] "670000000000000000000001"
       {[ "status" := VStr "completed" ]}
       (fun filter _ => Mongoose.findOne collection filter) 9000 dan_filed
     = (not_found, dan_filed)
  /\ TaskRoutes.GET_task (inr eve) "1" (Mongoose.findOne collection) dan_filed
     = (not_found, dan_filed).
Proof.
  assert (Hlook : looks_in collection (Mongoose.findOne collection))
    by apply findOne_looks_in.
  assert (Hstored : forall id,
    id = "670000000000000000000001" \/ id = "670000000000000000000009" ->
    not_stored id (get eve "id") collection).
  { intros id [-> | ->]; repeat constructor; vm_compute; congruence. }
  destruct (foreign_task_indistinguishable eve "670000000000000000000001"
              collection dan_filed
              (Mongoose.findOne collection) (Mongoose.findOne collection)
              (fun filter _ => Mongoose.findOne collection filter)
              [] {[ "status" := VStr "completed" ]} 9000)
    as (H1 & H2 & _ & H4 & _);
    [exact Hlook|intros _; exact Hlook|exact Hlook|apply Hstored; by left
    |vm_compute; exact I|].
  destruct (foreign_task_indistinguishable eve "670000000000000000000009"
              collection dan_filed
              (Mongoose.findOne collection) (Mongoose.findOne collection)
              (fun filter _ => Mongoose.findOne collection filter)
              [] ∅ 9000)
    as (H5 & _);
    [exact Hlook|intros _; exact Hlook|exact Hlook|apply Hstored; by right
    |vm_compute; exact I|].
  destruct (foreign_task_indistinguishable eve "1"
              collection dan_filed
              (Mongoose.findOne collection) (Mongoose.findOne collection)
              (fun filter _ => Mongoose.findOne collection filter) [] ∅ 9000)
    as (H6 & _);
    [exact Hlook|intros _; exact Hlook|exact Hlook
    |repeat constructor; vm_compute; congruence|vm_compute; reflexivity|].
  split; [exact H1|]. split; [exact H5|]. split; [exact H2|].
  split; [apply H4; vm_compute; reflexivity|exact H6].
Defined.

(** The identifier of a task filed in memory is the count of the tasks
    filed before it, whoever filed them. *)
Example counter_is_shared :
  (exists task st,
     TaskRoutes.POST_task (inr eve) [] {[ "title" := VStr "Mine" ]}
       (Throw mongo_down) 4000 TaskRoutes.initial
     = (ok 201 (Some "Task created successfully") (DataTask task), st)
     /\ get task "_id" = VNum 1)
  /\ (exists task st,
        TaskRoutes.POST_task (inr eve) [] {[ "title" := VStr "Mine" ]}
          (Throw mongo_down) 4000 dan_filed
        = (ok 201 (Some "Task created successfully") (DataTask task), st)
        /\ get task "_id" = VNum 2)
  /\ own_tasks (get eve "id") TaskRoutes.initial = []
  /\ own_tasks (get eve "id") dan_filed = [].
Proof.
  split; [|split; [|split]].
  - eexists _, _. split; [vm_compute; reflexivity|reflexivity].
  - eexists _, _. split; [vm_compute; reflexivity|reflexivity].
  - reflexivity.
  - vm_compute. reflexivity.
Qed.

Lemma dan_filed_reachable : reachable dan_filed.
Proof.
  apply (reach_step (Post (inr dan) [] {[ "title" := VStr "Filed in memory" ]}
                          (Throw mongo_down) 3000)), reach_initial.
Qed.

(** C2 as stated fails: an operation does reveal that another user has a
    task.  Two stores the routes can reach, holding the same tasks of the
    requester (none), answer her [POST /api/tasks] differently: the
    identifier of the new task tells whether Dan has filed one. *)
Lemma task_counter_reveals_foreign_tasks :
  ~ (forall user details body e now st st',
       reachable st -> reachable st' ->
       own_tasks (get user "id") st = own_tasks (get user "id") st' ->
       (TaskRoutes.POST_task (inr user) details body (Throw e) now st).1
       = (TaskRoutes.POST_task (inr user) details body (Throw e) now st').1).
Proof.
  intros Hclaim.
  pose proof (Hclaim eve [] {[ "title" := VStr "Mine" ]} mongo_down 4000
                TaskRoutes.initial dan_filed reach_initial dan_filed_reachable)
    as Hsame.
  assert (Hown : own_tasks (get eve "id") TaskRoutes.initial
                 = own_tasks (get eve "id") dan_filed)
    by (vm_compute; reflexivity).
  specialize (Hsame Hown). vm_compute in Hsame. discriminate.
Qed.

(** Called as a function for a requester known by a number: Ann adds a
    second task in memory. *)
Definition two_tasks : TaskRoutes.store :=
  (TaskRoutes.post_task ann {[ "title" := VStr "Second" ]}
     (Throw mongo_down) 2000 created).2.

Definition first_task : obj :=
  <["updatedAt" := VDate (Some 1000)]>
    (<["createdAt" := VDate (Some 1000)]>
       (assign {[ "_id" := VNum 1 ]}
          (<["user" := VNum 1]> {[ "title" := VStr "Write spec" ]}))).

Definition second_task : obj :=
  <["updatedAt" := VDate (Some 2000)]>
    (<["createdAt" := VDate (Some 2000)]>
       (assign {[ "_id" := VNum 2 ]}
          (<["user" := VNum 1]> {[ "title" := VStr "Second" ]}))).

(** The listing of Dan's tasks as the model serves it for a query string. *)
Definition served (query : obj) : completion (list obj) :=
  TaskModel.getUserTasks (Mongoose.find_sorted collection) (get dan "id")
    (TaskRoutes.build_filter query).

(** Dan asks for page 2 of size 1. *)
Definition page_two : obj := {[ "page" := VStr "2"; "limit" := VStr "1" ]}.

Lemma pagination_slices_filtered_list_witness :
  exists c,
    TaskRoutes.GET_tasks (inr dan) page_two (served page_two) dan_filed
    = (ok 200 None
         (DataTasks [dans_first]
            {| pg_current := VNum 2; pg_total := Int c;
               pg_count := 1; pg_totalTasks := 2 |}), dan_filed)
    /\ 1 * (c - 1) < 2 <= 1 * c.
Proof.
  destruct (pagination_slices_filtered_list dan page_two 2 1
              (served page_two) dan_filed [dans_second; dans_first])
    as (c & Hresp & Hbound & _).
  - left. reflexivity.
  - left. reflexivity.
  - vm_compute. reflexivity.
  - lia.
  - lia.
  - reflexivity.
  - exists c. split; [exact Hresp | exact Hbound].
Defined.

(** Without [page] and [limit] the first ten are listed. *)
Example pagination_defaults :
  (TaskRoutes.GET_tasks (inr dan) ∅ (served ∅) dan_filed).1
  = ok 200 None
      (DataTasks [dans_second; dans_first]
         {| pg_current := VNum 1; pg_total := Int 1;
            pg_count := 2; pg_totalTasks := 2 |}).
Proof. vm_compute. reflexivity. Qed.

(** A page size of -1: the slice of the claim, from index 0 up to index -1,
    is empty; the route lists all tasks but the last, on -2 pages. *)
Definition limit_minus_one : obj := {[ "page" := VStr "1"; "limit" := VStr "-1" ]}.

Example pagination_limit_negative :
  (TaskRoutes.GET_tasks (inr dan) limit_minus_one (served limit_minus_one)
     dan_filed).1
  = ok 200 None
      (DataTasks [dans_second]
         {| pg_current := VNum 1; pg_total := Int (-2);
            pg_count := 1; pg_totalTasks := 2 |})
  /\ page_as_specified [dans_second; dans_first] 1 (-1) = [].
Proof. split; vm_compute; reflexivity. Qed.

(** C9 as stated fails: for the page size -1 the page returned is not the
    slice from index [(p-1)*limit] up to [p*limit]. *)
Lemma negative_limit_counts_from_the_end :
  ~ (forall user query p l mongo st tasks,
       get query "page" = VStr (string_of_Z p) ->
       get query "limit" = VStr (string_of_Z l) ->
       TaskRoutes.findUserTasks mongo (get user "id")
         (TaskRoutes.build_filter query) st = Normal tasks ->
       1 <= p ->
       listed (TaskRoutes.GET_tasks (inr user) query mongo st).1
       = page_as_specified tasks p l).
Proof.
  intros Hclaim.
  pose proof (Hclaim dan limit_minus_one 1 (-1) (served limit_minus_one)
                dan_filed [dans_second; dans_first]
                eq_refl eq_refl eq_refl) as Hpage.
  assert (H1 : 1 <= 1) by lia. specialize (Hpage H1).
  vm_compute in Hpage. discriminate.
Qed.

(** Other texts outside the range of the pagination theorem.  A page size
    of 0 gives an empty page and no finite page count. *)
Example pagination_limit_zero :
  (TaskRoutes.GET_tasks (inr dan) {[ "limit" := VStr "0" ]}
     (served {[ "limit" := VStr "0" ]}) dan_filed).1
  = ok 200 None
      (DataTasks [] {| pg_current := VNum 1; pg_total := Flt infinity;
                       pg_count := 0; pg_totalTasks := 2 |}).
Proof. vm_compute. reflexivity. Qed.

(** The page 1.5 of size 2 starts at index 1 and is reported as page 1. *)
Example pagination_page_with_fraction :
  (TaskRoutes.GET_tasks (inr dan) {[ "page" := VStr "1.5"; "limit" := VStr "2" ]}
     (served {[ "page" := VStr "1.5"; "limit" := VStr "2" ]}) dan_filed).1
  = ok 200 None
      (DataTasks [dans_first] {| pg_current := VNum 1; pg_total := Int 1;
                                 pg_count := 1; pg_totalTasks := 2 |}).
Proof. vm_compute. reflexivity. Qed.

(** The page [2abc] is no number for the slice, an empty one, and page 2
    for the report. *)
Example pagination_page_with_letters :
  (TaskRoutes.GET_tasks (inr dan) {[ "page" := VStr "2abc"; "limit" := VStr "1" ]}
     (served {[ "page" := VStr "2abc"; "limit" := VStr "1" ]}) dan_filed).1
  = ok 200 None
      (DataTasks [] {| pg_current := VNum 2; pg_total := Int 2;
                       pg_count := 0; pg_totalTasks := 2 |}).
Proof. vm_compute. reflexivity. Qed.

(** A token issued at time 1000 (ms), read an hour and a day later. *)
Lemma token_lifecycle_witness :
  exists token,
    generateToken {[ "id" := VObjectId dan_id ]} 1000 = Normal token
    /\ (exists decoded,
          jwt_verify token JWT_SECRET 3600000 = Normal decoded
          /\ get decoded "id" = VStr dan_id)
    /\ jwt_verify token JWT_SECRET 86401000 = Throw "TokenExpiredError".
Proof.
  destruct (token_lifecycle (VObjectId dan_id) 1000)
    as (token & Hgen & Hok & _ & _ & Hexp & _).
  - reflexivity.
  - exists token. split; [exact Hgen|]. split.
    + destruct (Hok 3600000) as (decoded & Hv & _ & _ & Hid);
        [vm_compute; reflexivity|].
      exists decoded. split; [exact Hv|]. by apply Hid.
    + apply Hexp. lia.
Defined.

(** A token signed with the secret of the source, not yet valid. *)
Definition not_yet_claims : obj := {[ "id" := VNum 1; "nbf" := VNum 2000 ]}.

Definition not_yet : string :=
  jws_encode not_yet_claims (hmac JWT_SECRET not_yet_claims).

Example not_yet_verify : jwt_verify not_yet JWT_SECRET 1000000 = Throw "NotBeforeError".
Proof.
  apply (verify_not_yet_valid not_yet_claims JWT_SECRET 2000).
  - apply json_object_fixed. vm_compute. reflexivity.
  - reflexivity.
  - vm_compute. reflexivity.
Qed.

Example not_yet_authenticate :
  authenticate (Some ("Bearer " +:+ not_yet)) 1000000 (fun _ => Normal None)
  = inl (failure 500 "Token verification failed.").
Proof.
  apply (authenticate_other_error _ not_yet _ _ "NotBeforeError");
    [|exact not_yet_verify|discriminate..].
  exists ("Bearer " +:+ not_yet). repeat split. vm_compute. discriminate.
Qed.

(** A token with the header of a JWT whose payload is no JSON text: decoding
    it throws, [verify] throws the same [SyntaxError], and the middleware
    answers 500. *)
Example not_json_verify :
  jwt_verify Reference.not_json_token JWT_SECRET 1000000 = Throw "SyntaxError".
Proof. vm_compute. reflexivity. Qed.

Example not_json_authenticate :
  authenticate (Some ("Bearer " +:+ Reference.not_json_token)) 1000000
    (fun _ => Normal None)
  = inl (failure 500 "Token verification failed.").
Proof. vm_compute. reflexivity. Qed.

(** C6 as stated fails: verification of the token [not_yet] at time 1000 (s)
    fails with an error that is neither the invalid-token nor the
    token-expired error. *)
Lemma verify_fails_for_another_reason :
  ~ (forall token now e,
       jwt_verify token JWT_SECRET now = Throw e ->
       e = "JsonWebTokenError" \/ e = "TokenExpiredError").
Proof.
  intros Hclaim. destruct (Hclaim not_yet 1000000 _ not_yet_verify); discriminate.
Qed.

(** A successful pass through the middleware: the token carries the
    identifier as text, the model finds the user document by it, and the
    request goes on with the ObjectId of that document. *)
Definition dan_document : obj :=
  {[ "_id" := VObjectId dan_id; "email" := VStr "dan@x.com";
     "name" := VStr "Dan"; "role" := VStr "user"; "isActive" := VBool true ]}.

Example authenticate_run :
  exists token,
    generateToken {[ "id" := VObjectId dan_id ]} 1000 = Normal token
    /\ authenticate (Some ("Bearer " +:+ token)) 2000
         (fun id => Normal (if bool_decide (id = VStr dan_id)
                            then Some dan_document else None))
       = inr dan.
Proof.
  eexists. split; [by apply (generateToken_issued _ _ 86400000)|].
  set (claims := issued_claims (VObjectId dan_id) 1000 86400000).
  set (token := jws_encode claims (hmac JWT_SECRET claims)).
  assert (Hne : token <> "").
  { intros Hempty. apply String.eqb_eq in Hempty.
    vm_compute in Hempty. discriminate. }
  rewrite (authenticate_bearer _ token).
  - unfold token, claims. rewrite verify_issued. reflexivity.
  - exists ("Bearer " +:+ token). repeat split. exact Hne.
Qed.

(** Dan lists his tasks of the category [gen] that speak of [DOC]: served
    by the model, and from the in-memory map when the model rejects. *)
Definition gen_doc : obj := {[ "category" := VStr "gen"; "search" := VStr "DOC" ]}.



(** With a filter text that is matched as it is written, the listing of the
    model is the one the specification words. *)
Example letters_are_matched_as_written :
  TaskRoutes.findUserTasks
    (TaskModel.getUserTasks (Mongoose.find_sorted collection)
       (VObjectId dan_id) gen_doc)
    (VObjectId dan_id) gen_doc dan_filed
  = Normal (listForOwner_as_specified (VObjectId dan_id) gen_doc collection).
Proof. vm_compute. reflexivity. Qed.


(** Called as a function for a requester known by a number, the fallback
    does find what is filed under that number. *)
Example own_task_found :
  (TaskRoutes.GET_task (inr ann) "1" (fun _ => Throw mongo_down) created).1
  = ok 200 None (DataTask first_task).
Proof. vm_compute. reflexivity. Qed.

(** The database is back when Ann logs in: the model resolves to [null],
    the in-memory map is not consulted, and the login is refused. *)
Example login_after_recovery :
  AuthRoutes.POST_login [] (credentials ann_body) (Normal None) 5000 registration.2
  = (failure 401 "Invalid email or password", registration.2).
Proof. vm_compute. reflexivity. Qed.

(** C3 as stated fails: a login with the credentials of a registration
    answered 201 need not succeed. *)
Lemma login_fails_when_database_returns :
  ~ (forall details body mongo_find mongo_create salt now st r st1,
       AuthRoutes.POST_register details body mongo_find mongo_create salt now st
       = (r, st1) ->
       status r = 201 ->
       forall details' mongo_find' now',
         status (AuthRoutes.POST_login details' (credentials body) mongo_find'
                   now' st1).1 = 200).
Proof.
  intros Hclaim.
  pose proof (Hclaim [] ann_body (Throw mongo_down) (Throw mongo_down) 7 1000
                AuthRoutes.initial registration.1 registration.2
                (surjective_pairing _) registration_created
                [] (Normal None) 5000) as Hlogin.
  rewrite login_after_recovery in Hlogin. discriminate.
Qed.

(** The database is back when the email is registered again: the model
    knows no such user and saves the new one. *)
Definition saved_profile : obj :=
  {[ "_id" := VObjectId "66f1a0c2e4b0a1b2c3d4e5f6"; "name" := VStr "Ann B";
     "email" := VStr "ann@x.com"; "role" := VStr "user" ]}.

Example registration_after_recovery :
  status (AuthRoutes.POST_register []
            {[ "name" := VStr "Ann B"; "email" := VStr "ANN@x.com";
               "password" := VStr "xyz789" ]}
            (Normal None) (Normal saved_profile) 8 2000 registration.2).1
  = 201.
Proof. vm_compute. reflexivity. Qed.

(** C4 as stated fails: an email registered once can be registered again. *)
Lemma second_registration_succeeds_when_database_returns :
  ~ (forall details body mongo_find mongo_create salt now st r st1,
       AuthRoutes.POST_register details body mongo_find mongo_create salt now st
       = (r, st1) ->
       status r = 201 ->
       forall details2 body2 email email2 mongo_find2 mongo_create2 salt2 now2,
         get body "email" = VStr email -> get body2 "email" = VStr email2 ->
         toLowerCase email2 = toLowerCase email ->
         status (AuthRoutes.POST_register details2 body2 mongo_find2 mongo_create2
                   salt2 now2 st1).1 = 400).
Proof.
  intros Hclaim.
  pose proof (Hclaim [] ann_body (Throw mongo_down) (Throw mongo_down) 7 1000
                AuthRoutes.initial registration.1 registration.2
                (surjective_pairing _) registration_created
                [] {[ "name" := VStr "Ann B"; "email" := VStr "ANN@x.com";
                      "password" := VStr "xyz789" ]}
                "Ann@X.com" "ANN@x.com" (Normal None) (Normal saved_profile) 8 2000
                eq_refl eq_refl eq_refl) as Hsecond.
  rewrite registration_after_recovery in Hsecond. discriminate.
Qed.

(** Ann renames herself: the name and [updatedAt] change, nothing else. *)
Definition ann_record : obj :=
  {[ "_id" := VNum 1; "name" := VStr "Ann"; "email" := VStr "ann@x.com";
     "password" := VStr "$2a$12$abc123"; "role" := VStr "user";
     "isActive" := VBool true; "createdAt" := VDate (Some 1000);
     "updatedAt" := VDate (Some 1000) ]}.

Example profile_update_run :
  UserRoutes.PUT_profile (inr ann) [] {[ "name" := VStr "Ann B" ]}
    (Throw mongo_down) 9000
    {| UserRoutes.inMemoryUsers := [("ann@x.com", ann_record)] |}
  = (ok 200 (Some "Profile updated successfully")
       (DataUser (delete "password"
          (<["updatedAt" := VDate (Some 9000)]> (<["name" := VStr "Ann B"]> ann_record)))),
     {| UserRoutes.inMemoryUsers :=
          [("ann@x.com",
            <["updatedAt" := VDate (Some 9000)]> (<["name" := VStr "Ann B"]> ann_record))] |}).
Proof. vm_compute. reflexivity. Qed.

(** A body with a [role] is refused before the handler runs. *)
Example profile_update_rejects_role :
  UserRoutes.PUT_profile (inr ann) ["role is not allowed"]
    {[ "name" := VStr "Ann B"; "role" := VStr "admin" ]}
    (Throw mongo_down) 9000
    {| UserRoutes.inMemoryUsers := [("ann@x.com", ann_record)] |}
  = ({| status := 400; success := false; message := Some "Validation error";
        errors := Some ["role is not allowed"]; data := NoData |},
     {| UserRoutes.inMemoryUsers := [("ann@x.com", ann_record)] |}).
Proof. vm_compute. reflexivity. Qed.

(** The scenario of the specification on the in-memory store, the helpers
    being called for a requester known by a number: the created task has no
    status; once completed it has a completion date, and the summary counts
    one task, completed, at the rate 100. *)
Example scenario_in_memory :
  get first_task "status" = VUndef
  /\ (exists task,
        Map_get (VNum 1) (TaskRoutes.inMemoryTasks completed) = Some task
        /\ get task "completedAt" = VDate (Some 2000))
  /\ (exists s,
        (TaskRoutes.GET_stats (inr ann) (Throw mongo_down) 5000 completed).1
        = ok 200 None (DataStats s)
        /\ st_total s = 1 /\ st_completed s = 1
        /\ st_completionRate s = VNum 100).
Proof.
  split; [reflexivity|]. split.
  - eexists. split; [vm_compute; reflexivity|reflexivity].
  - eexists. split; [vm_compute; reflexivity|]. repeat split; reflexivity.
Qed.

(** ** Further runs on the reference platform *)

Ltac not_in_list :=
  let H := fresh in
  intros H; vm_compute in H;
  repeat (apply elem_of_cons in H as [H|H]; [discriminate|]);
  by apply elem_of_nil in H.


(** The store after a request to the profile routes. *)
Definition after_profile_update : UserRoutes.store :=
  users_serve (PutProfile (inr ann) [] {[ "name" := VStr "Ann B" ]}
                          (Throw mongo_down) 9000) UserRoutes.initial.

Lemma users_fallback_finds_nobody_witness :
  after_profile_update = UserRoutes.initial
  /\ UserRoutes.GET_profile (inr ann) (Throw mongo_down) after_profile_update
     = (failure 404 "User not found", after_profile_update).
Proof.
  destruct (users_fallback_finds_nobody after_profile_update ann mongo_down [] ∅ 0)
    as (H1 & _ & H3 & _).
  - apply users_reach_step, users_reach_initial.
  - split; [exact H1|exact H3].
Defined.

Definition full_profile : obj :=
  {[ "name" := VStr "Ann"; "email" := VStr "ann@x.com";
     "avatar" := VStr "https://x.com/ann.png" ]}.

Lemma profile_completion_stops_at_75_witness :
  UserRoutes.calculateProfileCompletion full_profile = Normal (VNum 75)
  /\ VNum 75 ∈ [VNum 0; VNum 25; VNum 50; VNum 75].
Proof.
  split; [vm_compute; reflexivity|].
  apply (profile_completion_stops_at_75 full_profile (VNum 75)).
  vm_compute. reflexivity.
Defined.

Definition pending_spec : obj :=
  {[ "status" := VStr "pending"; "search" := VStr "spec"; "user" := VNum 2 ]}.

Lemma getUserTasks_query_is_scoped_witness :
  exists query,
    TaskModel.getUserTasks_query (VNum 1) pending_spec = Normal query
    /\ query !! "user" = Some (TaskModel.Equals (VNum 1))
    /\ dom query ⊆ ({["user"; "status"; "priority"; "category"; "$or"]} : gset string).
Proof.
  destruct (TaskModel.getUserTasks_query (VNum 1) pending_spec) as [query|] eqn:Hq;
    [|vm_compute in Hq; discriminate].
  exists query. split; [reflexivity|].
  destruct (getUserTasks_query_is_scoped (VNum 1) pending_spec query Hq)
    as (H1 & H2 & _).
  split; [exact H1|exact H2].
Defined.

Definition open_bracket : obj := {[ "category" := VStr "(" ]}.

Lemma invalid_pattern_is_server_error_witness :
  TaskRoutes.GET_tasks (inr ann) open_bracket
    (TaskModel.getUserTasks (fun _ => Normal []) (get ann "id")
       (TaskRoutes.build_filter open_bracket)) created
  = (failure 500 "Server error fetching tasks", created).
Proof.
  apply (invalid_pattern_is_server_error ann open_bracket
           (fun _ => Normal []) created "category" "SyntaxError").
  - by left.
  - reflexivity.
  - vm_compute. reflexivity.
Defined.

Lemma created_reachable : reachable created.
Proof. apply (reach_step (Post (inr ann) [] {[ "title" := VStr "Write spec" ]}
                               (Throw mongo_down) 1000)), reach_initial. Qed.

Lemma task_ids_are_unique_witness :
  NoDup (TaskRoutes.inMemoryTasks created).*1
  /\ Map_get (VNum (TaskRoutes.taskCounter created)) (TaskRoutes.inMemoryTasks created)
     = None
  /\ TaskRoutes.GET_task (inr ann) "abc" (fun _ => Throw mongo_down) created
     = (failure 404 "Task not found", created).
Proof.
  destruct (task_ids_are_unique created) as (_ & H2 & _ & H4 & _ & H6).
  - apply (reach_step (Post (inr ann) [] {[ "title" := VStr "Write spec" ]}
                            (Throw mongo_down) 1000)), reach_initial.
  - split; [exact H2|]. split; [exact H4|].
    apply (H6 ann "abc" (fun _ => Throw mongo_down) mongo_down); reflexivity.
Defined.

Definition second_body : obj := {[ "title" := VStr "  Second  " ]}.

Lemma create_appends_witness :
  exists task,
    TaskRoutes.POST_task (inr ann) [] second_body (Throw mongo_down) 2000 created
    = (ok 201 (Some "Task created successfully") (DataTask task),
       {| TaskRoutes.inMemoryTasks :=
            (TaskRoutes.inMemoryTasks created
             ++ [(VNum (TaskRoutes.taskCounter created), task)])%list;
          TaskRoutes.taskCounter := TaskRoutes.taskCounter created + 1 |})
    /\ task !! "title" = Some (VStr "  Second  ")
    /\ task !! "status" = None.
Proof.
  destruct (create_appends ann [] second_body mongo_down 2000 created)
    as (task & Hpost & _ & _ & _ & _ & Hbody & Hnone).
  - apply (reach_step (Post (inr ann) [] {[ "title" := VStr "Write spec" ]}
                            (Throw mongo_down) 1000)), reach_initial.
  - vm_compute. reflexivity.
  - exists task. split; [exact Hpost|]. split.
    + rewrite Hbody; [reflexivity|].
      intros Hin. repeat (apply elem_of_cons in Hin as [Hin|Hin]; [discriminate|]).
      by apply elem_of_nil in Hin.
    + rewrite Hbody; [reflexivity|].
      intros Hin. repeat (apply elem_of_cons in Hin as [Hin|Hin]; [discriminate|]).
      by apply elem_of_nil in Hin.
Defined.

(** Dan files a task through the fallback and asks for it. *)
Lemma filed_task_is_never_found_witness :
  exists task,
    Map_get (VNum 1) (TaskRoutes.inMemoryTasks dan_filed) = Some task
    /\ get task "user" = VObjectId dan_id
    /\ TaskRoutes.GET_task (inr dan) "1" (Mongoose.findOne collection) dan_filed
       = (failure 404 "Task not found", dan_filed)
    /\ TaskRoutes.DELETE_task (inr dan) "1" (Mongoose.findOne collection) dan_filed
       = (failure 404 "Task not found", dan_filed)
    /\ TaskRoutes.findUserTasks (Throw mongo_down) (get dan "id") ∅ dan_filed
       = Normal [].
Proof.
  destruct (filed_task_is_never_found dan dan_id TaskRoutes.initial)
    as (Hpost & _); [reflexivity|constructor|].
  destruct (Hpost [] {[ "title" := VStr "Filed in memory" ]} mongo_down 3000)
    as (task & st' & Hfiled & Huser & Hget & Hobjects); [vm_compute; reflexivity|].
  assert (Hst : st' = dan_filed).
  { unfold dan_filed. by rewrite Hfiled. }
  subst st'.
  destruct (filed_task_is_never_found dan dan_id dan_filed)
    as (_ & Hfind & _ & Hdelete & Hlist); [reflexivity|exact Hobjects|].
  exists task. split; [exact Hget|]. split; [exact Huser|].
  split; [apply (Hfind "1" _ "CastError"); vm_compute; reflexivity|].
  split; [apply (Hdelete "1" _ "CastError"); vm_compute; reflexivity|apply Hlist].
Defined.

Lemma registration_reachable : auth_reachable registration.2.
Proof.
  apply (auth_reach_step
           (Register [] ann_body (Throw mongo_down) (Throw mongo_down) 7 1000)),
        auth_reach_initial.
Qed.

Lemma accounts_are_unique_witness :
  NoDup (AuthRoutes.inMemoryUsers registration.2).*1
  /\ (AuthRoutes.POST_login [] (credentials ann_body) (Throw mongo_down) 5000
        registration.2).1
     <> failure 401 "Account is deactivated".
Proof.
  destruct (accounts_are_unique registration.2 registration_reachable)
    as (_ & H2 & _ & _ & _ & H6).
  split; [exact H2|apply H6].
Defined.

Definition ann_login : response * AuthRoutes.store :=
  AuthRoutes.POST_login [] (credentials ann_body) (Throw mongo_down) 5000
    registration.2.

Lemma login_requires_password_witness :
  exists account hash,
    Map_get "ann@x.com" (AuthRoutes.inMemoryUsers registration.2) = Some account
    /\ get account "password" = VStr hash
    /\ bcrypt_compare "abc123" hash = true.
Proof.
  destruct (login_requires_password [] (credentials ann_body) mongo_down 5000
              registration.2 ann_login.2 ann_login.1) as [Hok _].
  - apply surjective_pairing.
  - destruct Hok as (email & pw & account & hash & _ & He & Hp & Hget & _ & Hhash & Hcmp & _).
    + vm_compute. reflexivity.
    + injection He as <-. injection Hp as <-.
      exists account, hash. repeat split; assumption.
Defined.

Lemma registration_token_identifies_user_witness :
  exists user token decoded,
    data registration.1 = DataUserToken user token
    /\ jwt_verify token JWT_SECRET 5000 = Normal decoded
    /\ get decoded "id" = get user "_id"
    /\ jwt_verify token JWT_SECRET 86401000 = Throw "TokenExpiredError".
Proof.
  destruct (registration_token_identifies_user [] ann_body mongo_down mongo_down
              7 1000 AuthRoutes.initial registration.2 registration.1)
    as (user & token & lifetime & Hdata & _ & Hms & Hvalid & Hexpired).
  - apply surjective_pairing.
  - vm_compute. reflexivity.
  - assert (Hlife : lifetime = 86400000)
      by (vm_compute in Hms; congruence).
    subst lifetime.
    destruct (Hvalid 5000) as (decoded & Hverify & Hid); [vm_compute; reflexivity|].
    exists user, token, decoded. repeat split; try assumption.
    apply Hexpired. vm_compute. discriminate.
Defined.

(** Ann registers on a server whose [JWT_EXPIRE] is no time span. *)
Lemma registration_is_not_atomic_witness :
  exists st1,
    @AuthRoutes.POST_register Reference.misconfigured [] ann_body
      (Throw mongo_down) (Throw mongo_down) 7 1000 AuthRoutes.initial
    = (failure 500 "Server error during registration", st1)
    /\ AuthRoutes.userCounter st1 = 2
    /\ @AuthRoutes.POST_register Reference.misconfigured [] ann_body
         (Throw mongo_down) (Throw mongo_down) 8 2000 st1
       = (failure 400 "User with this email already exists", st1).
Proof.
  destruct (@registration_is_not_atomic Reference.misconfigured [] ann_body
              mongo_down mongo_down 7 1000 AuthRoutes.initial)
    as (email & st1 & _ & Hfirst & _ & Hcounter & Hsecond).
  - reflexivity.
  - vm_compute. reflexivity.
  - reflexivity.
  - exists st1. split; [exact Hfirst|]. split; [exact Hcounter|apply Hsecond].
Defined.

(** Bob files a task of his own next to Ann's. *)
Definition with_bobs_task : TaskRoutes.store :=
  (TaskRoutes.POST_task (inr bob) [] {[ "title" := VStr "Bob's" ]}
     (Throw mongo_down) 2000 created).2.

Lemma listing_depends_on_own_tasks_witness :
  (TaskRoutes.GET_tasks (inr ann) ∅ (Throw mongo_down) created).1
  = (TaskRoutes.GET_tasks (inr ann) ∅ (Throw mongo_down) with_bobs_task).1
  /\ (TaskRoutes.GET_stats (inr ann) (Throw mongo_down) 5000 created).1
     = (TaskRoutes.GET_stats (inr ann) (Throw mongo_down) 5000 with_bobs_task).1.
Proof.
  destruct (listing_depends_on_own_tasks ann ∅ mongo_down 5000
              created with_bobs_task) as (H1 & H2 & _).
  - vm_compute. reflexivity.
  - split; [exact H1|exact H2].
Defined.

Lemma client_header_is_read_back_witness :
  ApiClient.request_interceptor (Some "abc") ∅ !! "Authorization"
  = Some "Bearer abc"
  /\ bearer (ApiClient.request_interceptor (Some "abc") ∅ !! "Authorization") "abc".
Proof.
  destruct (client_header_is_read_back "abc" ∅ 0 (fun _ => Normal None))
    as (H1 & _ & H3 & _).
  - discriminate.
  - split; [exact H1|exact H3].
Defined.

(** Somebody registers Ann's email again; the model knows no such user and
    its save fails. *)
Definition mallory_body : obj :=
  {[ "name" := VStr "Mallory"; "email" := VStr "ANN@x.com";
     "password" := VStr "xyz789" ]}.

Lemma registration_can_replace_an_account_witness :
  exists r st' account,
    AuthRoutes.POST_register [] mallory_body (Normal None) (Throw mongo_down)
      8 2000 registration.2 = (r, st')
    /\ status r = 201
    /\ Map_get "ann@x.com" (AuthRoutes.inMemoryUsers st') = Some account
    /\ account !! "name" = Some (VStr "Mallory")
    /\ account !! "password" = Some (VStr (bcrypt_hash 8 "xyz789"))
    /\ (AuthRoutes.inMemoryUsers st').*1 = ["ann@x.com"].
Proof.
  destruct (registration_can_replace_an_account [] mallory_body mongo_down 8 2000
              registration.2 "ANN@x.com" "xyz789"
              (new_user (VStr "Ann") "Ann@X.com" (bcrypt_hash 7 "abc123") 1 1000)
              86400000)
    as (token & st' & Hreg & Hget & Hpw & _ & Hkeys & _).
  - vm_compute. reflexivity.
  - reflexivity.
  - reflexivity.
  - vm_compute. reflexivity.
  - reflexivity.
  - eexists _, st', _. split; [exact Hreg|]. split; [reflexivity|].
    split; [exact Hget|]. split; [reflexivity|]. split; [exact Hpw|].
    rewrite Hkeys. vm_compute. reflexivity.
Defined.

Lemma me_returns_registered_profile_witness :
  exists user token,
    data registration.1 = DataUserToken user token
    /\ AuthRoutes.GET_me (inr ann) (Throw mongo_down) registration.2
       = (ok 200 None (DataUser user), registration.2).
Proof.
  destruct (me_returns_registered_profile [] ann_body mongo_down mongo_down 7 1000
              AuthRoutes.initial registration.2 registration.1)
    as (email & user & token & Hemail & Hdata & _ & Hme).
  - apply surjective_pairing.
  - vm_compute. reflexivity.
  - exists user, token. split; [exact Hdata|].
    apply (Hme ann "ann@x.com" mongo_down); [reflexivity|].
    injection Hemail as <-. reflexivity.
Defined.

(** A token for user 1 made by somebody who has read the source. *)
Definition forged_claims : obj := {[ "id" := VNum 1 ]}.

Definition forged : string :=
  jws_encode forged_claims
    (hmac "your-super-secret-jwt-key-change-in-production" forged_claims).

Definition active_ann : obj :=
  {[ "_id" := VNum 1; "email" := VStr "ann@x.com"; "name" := VStr "Ann";
     "role" := VStr "user"; "isActive" := VBool true ]}.

Lemma default_secret_signs_any_identity_witness :
  jwt_verify forged JWT_SECRET 4102444800000 = Normal forged_claims
  /\ authenticate (Some ("Bearer " +:+ forged)) 4102444800000
       (fun _ => Normal (Some active_ann))
     = inr (req_user active_ann).
Proof.
  destruct (default_secret_signs_any_identity forged_claims 4102444800000
              (fun _ => Normal (Some active_ann)) active_ann)
    as (_ & Hverify & Hauth).
  - by left.
  - apply json_object_fixed. vm_compute. reflexivity.
  - reflexivity.
  - reflexivity.
  - split; [exact Hverify|]. apply Hauth.
    + vm_compute. discriminate.
    + reflexivity.
    + reflexivity.
Defined.

(** The two pages of size 1 of Dan's listing. *)
Lemma pages_partition_the_listing_witness :
  (listed (TaskRoutes.GET_tasks (inr dan) (on_page 1 1 ∅) (served ∅) dan_filed).1
   ++ listed (TaskRoutes.GET_tasks (inr dan) (on_page 2 1 ∅) (served ∅)
                dan_filed).1)%list
  = [dans_second; dans_first].
Proof.
  pose proof (pages_partition_the_listing dan ∅ 1 (served ∅) dan_filed
                [dans_second; dans_first] 2) as Hpages.
  cbn [seq map concat] in Hpages. rewrite app_nil_r in Hpages.
  apply Hpages.
  - vm_compute. reflexivity.
  - lia.
  - split; [cbn; lia|reflexivity].
Defined.

Lemma stored_tasks_pass_the_rules_witness :
  get first_task "status" = VUndef
  /\ exists s,
       (TaskRoutes.GET_stats (inr ann) (Throw mongo_down) 5000 created).1
       = ok 200 None (DataStats s)
       /\ st_completed s + st_inProgress s + st_pending s + 1 = st_total s.
Proof.
  split; [reflexivity|].
  destruct (stored_tasks_pass_the_rules created created_reachable) as [_ Hstats].
  destruct (Hstats ann mongo_down 5000) as (s & Hs & Hsum).
  exists s. split; [exact Hs|]. exact Hsum.
Defined.
